(** * Pairing-code lifecycle of the bot-pairing servers

    A shallow embedding of the session bookkeeping found in the three
    server variants of the repository:

    - [Server]        : [src/server.js]          (in-memory store, v5.5.0)
    - [Part000]       : [src/unnamed/part_000]   (in-memory store, v5.3.0)
    - [PairingServer] : [src/pairing-server.js]  (MongoDB-backed store)

    JavaScript strings are [string], timestamps are milliseconds in [Z],
    the [Map] called [pairingCodes] is a [gmap string Session], and the
    pending [setTimeout] callbacks are an explicit list of timers.  The
    sources of nondeterminism ([Math.random], [Date.now],
    [crypto.randomBytes]) are inputs of the functions that read them.

    A handler runs at one instant [now]: every reading of the clock made
    while it runs has that value, and a handler that awaits a
    collaborator is taken to run without another handler in between.
    A function that may call itself without end takes a recursion depth
    [fuel] and answers [None] when no call returns within it: the
    engine then raises a [RangeError], which the [try] blocks of the
    routes and of the [qr] branch catch.  A rejected [QRCode.toDataURL],
    a rejected [save()] and a failed [fetch] are inputs of the handlers
    they reach.  The scripts of the pages are modelled as the browser
    receives them, after the escapes of the template literal that holds
    them. *)

From Stdlib Require Import ZArith Ascii String DecimalString Lia.
From Stdlib Require DecimalZ DecimalPos.
From stdpp Require Import gmap strings list fin_maps.

Local Open Scope string_scope.

(** ** JavaScript string primitives used by the servers *)
Module Js.

(** [s.charAt(i)]: the one-character string at index [i], or the empty
    string when [i] is out of range. *)
Definition charAt (s : string) (i : nat) : string :=
  match String.get i s with
  | Some c => String c EmptyString
  | None => EmptyString
  end.

(** Character classes of the regular expressions [[A-Z]] and [[0-9]]. *)
Definition is_upper (c : ascii) : bool :=
  (65 <=? nat_of_ascii c)%nat && (nat_of_ascii c <=? 90)%nat.

Definition is_digit (c : ascii) : bool :=
  (48 <=? nat_of_ascii c)%nat && (nat_of_ascii c <=? 57)%nat.

(** [/[C]/.test(s)]: some character of [s] is in the class. *)
Fixpoint test_some (p : ascii -> bool) (s : string) : bool :=
  match s with
  | EmptyString => false
  | String c s' => p c || test_some p s'
  end.

(** [/^[C]*$/.test(s)]: every character of [s] is in the class. *)
Fixpoint test_all (p : ascii -> bool) (s : string) : bool :=
  match s with
  | EmptyString => true
  | String c s' => p c && test_all p s'
  end.

(** [s.replace(/[^C]/g, '')]: keep the characters of the class. *)
Fixpoint keep (p : ascii -> bool) (s : string) : string :=
  match s with
  | EmptyString => EmptyString
  | String c s' => if p c then String c (keep p s') else keep p s'
  end.

Fixpoint drop (n : nat) (s : string) : string :=
  match n, s with
  | O, _ => s
  | S _, EmptyString => EmptyString
  | S n', String _ s' => drop n' s'
  end.

(** [s.slice(-k)]: the last [k] characters, all of [s] when it is
    shorter. *)
Definition slice_last (k : nat) (s : string) : string :=
  drop (String.length s - k) s.

(** [s.endsWith(suffix)]. *)
Definition endsWith (suffix s : string) : bool :=
  String.eqb (slice_last (String.length suffix) s) suffix
  && (String.length suffix <=? String.length s)%nat.

(** [n.toString()] for an integer-valued number. *)
Definition toString (n : Z) : string :=
  NilZero.string_of_int (Z.to_int n).

End Js.

(** ** Configuration and code generator (identical in [server.js] and
    [part_000]) *)
Module Config.
Definition SESSION_PREFIX : string := "IAN TECH".
Definition CODE_LENGTH : nat := 8.
Definition CODE_EXPIRY_MINUTES : Z := 10.
End Config.

Module CodeGen.
Import Js Config.

Definition chars : string := "ABCDEFGHIJKLMNOPQRSTUVWXYZ0123456789".

(** The random source.  [rnd k] is the value of
    [Math.floor(Math.random() * chars.length)] at the [k]-th call of
    [Math.random] made by the process; the position of the next call is
    threaded through the functions below. *)
Definition Random := nat -> nat.

(** The [for] loop of [generateAlphanumericCode]: [n] more iterations
    appending one character each. *)
Fixpoint fill (rnd : Random) (pos : nat) (n : nat) (code : string) : string :=
  match n with
  | O => code
  | S n' => fill rnd (S pos) n' (code +:+ charAt chars (rnd pos))
  end.

Definition hasLetters (code : string) : bool := test_some is_upper code.
Definition hasNumbers (code : string) : bool := test_some is_digit code.

(** [generateAlphanumericCode()].  The function calls itself until a
    draw has a letter and a digit; [fuel] bounds the depth of that
    recursion, and [None] means that no call returned within it.  The
    result carries the position of the next random number. *)
Fixpoint generateAlphanumericCode (fuel : nat) (rnd : Random) (pos : nat)
  : option (string * nat) :=
  match fuel with
  | O => None
  | S fuel' =>
      let code := fill rnd pos CODE_LENGTH EmptyString in
      let pos' := (pos + CODE_LENGTH)%nat in
      if negb (hasLetters code) || negb (hasNumbers code)
      then generateAlphanumericCode fuel' rnd pos'
      else Some (code, pos')
  end.

(** The number of [Math.random] calls made by the process once a call
    of [generateAlphanumericCode] that started at [pos] has used up the
    depth [fuel]: every level drew [CODE_LENGTH] numbers before it
    called itself, and the engine raises its [RangeError] there. *)
Definition thrownAt (fuel pos : nat) : nat := (pos + fuel * CODE_LENGTH)%nat.

(** [generateSessionId()]; [hex] is
    [crypto.randomBytes(3).toString('hex').toUpperCase()]. *)
Definition generateSessionId (now : Z) (hex : string) : string :=
  SESSION_PREFIX +:+ "_" +:+ toString now +:+ "_" +:+ hex.

End CodeGen.

(** ** Data shared by the two in-memory servers *)
Module Store.

(** The two values ever assigned to [status] by [server.js] and
    [part_000]. *)
Inductive Status := pending | linked.

(** The object stored in [pairingCodes].  [qrData] and [qrImage] are
    written by [server.js] only; [part_000] leaves them absent. *)
Record Session := {
  code : string;
  phoneNumber : option string;
  sessionId : string;
  status : Status;
  createdAt : Z;
  expiresAt : Z;
  linkedAt : option Z;
  linkedTo : option string;
  qrData : option string;
  qrImage : option string;
  attempts : nat
}.

Inductive BotStatus :=
  disconnected | connecting | qr_ready | online | error | reconnecting.

(** The two callbacks handed to [setTimeout]: the auto-cleanup closure
    of [generateNewPairingCode], which captures [code], and
    [initWhatsApp]. *)
Inductive Callback := ExpireCode (code : string) | InitWhatsApp.

Record Timer := { fireAt : Z; callback : Callback }.

(** The module-level variables, the timers that are set and not yet
    fired, the file names in the [auth_info] directory and the number
    of [Math.random] calls made so far. *)
Record State := {
  pairingCodes : gmap string Session;
  botStatus : BotStatus;
  currentQR : option string;
  qrImageDataUrl : option string;
  lastGeneratedCode : option string;
  timers : list Timer;
  authFiles : list string;
  randomPos : nat
}.

Definition is_pending (s : Status) : bool :=
  match s with pending => true | linked => false end.

Definition initial : State :=
  {| pairingCodes := ∅; botStatus := disconnected; currentQR := None;
     qrImageDataUrl := None; lastGeneratedCode := None; timers := [];
     authFiles := []; randomPos := 0 |}.

Definition set_pairingCodes (m : gmap string Session) (st : State) : State :=
  {| pairingCodes := m; botStatus := botStatus st; currentQR := currentQR st;
     qrImageDataUrl := qrImageDataUrl st;
     lastGeneratedCode := lastGeneratedCode st; timers := timers st;
     authFiles := authFiles st; randomPos := randomPos st |}.

Definition set_botStatus (b : BotStatus) (st : State) : State :=
  {| pairingCodes := pairingCodes st; botStatus := b; currentQR := currentQR st;
     qrImageDataUrl := qrImageDataUrl st;
     lastGeneratedCode := lastGeneratedCode st; timers := timers st;
     authFiles := authFiles st; randomPos := randomPos st |}.

Definition set_currentQR (q : option string) (st : State) : State :=
  {| pairingCodes := pairingCodes st; botStatus := botStatus st; currentQR := q;
     qrImageDataUrl := qrImageDataUrl st;
     lastGeneratedCode := lastGeneratedCode st; timers := timers st;
     authFiles := authFiles st; randomPos := randomPos st |}.

Definition set_qrImageDataUrl (q : option string) (st : State) : State :=
  {| pairingCodes := pairingCodes st; botStatus := botStatus st;
     currentQR := currentQR st; qrImageDataUrl := q;
     lastGeneratedCode := lastGeneratedCode st; timers := timers st;
     authFiles := authFiles st; randomPos := randomPos st |}.

Definition set_lastGeneratedCode (c : option string) (st : State) : State :=
  {| pairingCodes := pairingCodes st; botStatus := botStatus st;
     currentQR := currentQR st; qrImageDataUrl := qrImageDataUrl st;
     lastGeneratedCode := c; timers := timers st;
     authFiles := authFiles st; randomPos := randomPos st |}.

Definition set_authFiles (fs : list string) (st : State) : State :=
  {| pairingCodes := pairingCodes st; botStatus := botStatus st;
     currentQR := currentQR st; qrImageDataUrl := qrImageDataUrl st;
     lastGeneratedCode := lastGeneratedCode st; timers := timers st;
     authFiles := fs; randomPos := randomPos st |}.

Definition set_randomPos (p : nat) (st : State) : State :=
  {| pairingCodes := pairingCodes st; botStatus := botStatus st;
     currentQR := currentQR st; qrImageDataUrl := qrImageDataUrl st;
     lastGeneratedCode := lastGeneratedCode st; timers := timers st;
     authFiles := authFiles st; randomPos := p |}.

(** [setTimeout(cb, delay)] called at time [now]. *)
Definition setTimeout (cb : Callback) (delay now : Z) (st : State) : State :=
  {| pairingCodes := pairingCodes st; botStatus := botStatus st;
     currentQR := currentQR st; qrImageDataUrl := qrImageDataUrl st;
     lastGeneratedCode := lastGeneratedCode st;
     timers := timers st ++ [{| fireAt := now + delay; callback := cb |}];
     authFiles := authFiles st; randomPos := randomPos st |}.

(** [pairingCodes.has(code)]. *)
Definition has (c : string) (m : gmap string Session) : bool :=
  match m !! c with Some _ => true | None => false end.

(** The auto-cleanup closure set by [generateNewPairingCode], the same
    text in both servers:
    [if (pairingCodes.has(code) && pairingCodes.get(code).status === 'pending')
       pairingCodes.delete(code);] *)
Definition expire (c : string) (m : gmap string Session) : gmap string Session :=
  match m !! c with
  | Some data => if is_pending (status data) then delete c m else m
  | None => m
  end.

(** What [generateNewPairingCode] returns: [{ code, sessionId, expiresAt }]. *)
Record Issued := { code_of : string; sessionId_of : string; expiresAt_of : Z }.

(** The values of [update.connection]. *)
Inductive Connection := conn_open | conn_close | conn_connecting.

(** The [update] object of a [connection.update] event, with the
    values the handler obtains from its collaborators while it runs:
    [statusCode] is [lastDisconnect?.error?.output?.statusCode],
    [dataUrl] is the result of [QRCode.toDataURL(qr)] ([None] when the
    promise rejects) and [userId] is [sock.user?.id]. *)
Record Update := {
  connection : option Connection;
  qr : option string;
  statusCode : option Z;
  dataUrl : option string;
  userId : option string
}.

(** Truthiness of an optional string: [undefined] and [''] are falsy. *)
Definition truthy (s : option string) : bool :=
  match s with
  | Some EmptyString | None => false
  | Some _ => true
  end.

(** [/^[0-9]{9}$/.test(s)]. *)
Definition nine_digits (s : string) : bool :=
  Js.test_all Js.is_digit s && (String.length s =? 9)%nat.

(** The answers of [POST /generate-code] and [POST /getqr]:
    [success: false] with a message, or [success: true] with the issued
    code. *)
Inductive Response :=
| Rejected (message : string)
| Success (code phoneNumber sessionId : string) (expiresAt : Z) (message : string)
| QrSuccess (qrImage : option string) (pairingCode phoneNumber sessionId : string)
    (message : string).

Definition is_rejected (r : Response) : bool :=
  match r with Rejected _ => true | _ => false end.

(** The code carried by an answer. *)
Definition issued (r : Response) : option string :=
  match r with
  | Rejected _ => None
  | Success c _ _ _ _ => Some c
  | QrSuccess _ c _ _ _ => Some c
  end.

(** [setTimeout] callbacks run once: the [i]-th timer leaves the list
    when it fires. *)
Definition clearTimer (i : nat) (st : State) : State :=
  {| pairingCodes := pairingCodes st; botStatus := botStatus st;
     currentQR := currentQR st; qrImageDataUrl := qrImageDataUrl st;
     lastGeneratedCode := lastGeneratedCode st;
     timers := delete i (timers st);
     authFiles := authFiles st; randomPos := randomPos st |}.

Definition is_qr_ready (b : BotStatus) : bool :=
  match b with qr_ready => true | _ => false end.

Definition is_online (b : BotStatus) : bool :=
  match b with online => true | _ => false end.

Definition ready (b : BotStatus) : bool :=
  match b with qr_ready | online => true | _ => false end.

End Store.

(** ** [src/unnamed/part_000] *)
Module Part000.
Import Js Config CodeGen Store.

(** The [do { code = generateAlphanumericCode(); attempts++; }
    while (pairingCodes.has(code) && attempts < 10)] loop.  [k] counts
    the iterations still allowed to follow the current one; the test
    [attempts < 10] stops the loop before [k] can run out when it is
    started with [k = 9] and [attempts = 0].  The result is the last
    sampled code, the next random position and [attempts]. *)
Fixpoint sampleLoop (k fuel : nat) (rnd : Random) (m : gmap string Session)
  (pos attempts : nat) : option (string * nat * nat) :=
  match generateAlphanumericCode fuel rnd pos with
  | None => None
  | Some (c, pos') =>
      let attempts' := S attempts in
      if has c m && (attempts' <? 10)%nat
      then match k with
           | O => None
           | S k' => sampleLoop k' fuel rnd m pos' attempts'
           end
      else Some (c, pos', attempts')
  end.

(** The code chosen by [generateNewPairingCode]: the loop above, then
    the [if (attempts >= 10)] replacement by a new sample followed by
    ['_'] and the last four digits of [Date.now()]. *)
Definition chooseCode (fuel : nat) (rnd : Random) (now : Z)
  (m : gmap string Session) (pos : nat) : option (string * nat) :=
  match sampleLoop 9 fuel rnd m pos 0 with
  | None => None
  | Some (c, pos', attempts) =>
      if (10 <=? attempts)%nat
      then match generateAlphanumericCode fuel rnd pos' with
           | None => None
           | Some (c', pos'') =>
               Some (c' +:+ "_" +:+ slice_last 4 (toString now), pos'')
           end
      else Some (c, pos')
  end.

(** The object that [generateNewPairingCode] stores.  [expiresAt] is
    [Date.now()] plus the expiry and [createdAt] is a [new Date()] made
    a statement later: both are the instant [now] of the handler. *)
Definition newSession (c : string) (phone : option string) (sid : string)
  (now : Z) : Session :=
  {| code := c; phoneNumber := phone; sessionId := sid; status := pending;
     createdAt := now; expiresAt := now + CODE_EXPIRY_MINUTES * 60 * 1000;
     linkedAt := None; linkedTo := None; qrData := None; qrImage := None;
     attempts := 0 |}.

(** [generateNewPairingCode(phoneNumber = null)], run at time [now]. *)
Definition generateNewPairingCode (fuel : nat) (rnd : Random) (now : Z)
  (hex : string) (phone : option string) (st : State)
  : option (Issued * State) :=
  match chooseCode fuel rnd now (pairingCodes st) (randomPos st) with
  | None => None
  | Some (c, pos) =>
      let sid := generateSessionId now hex in
      let expires := (now + CODE_EXPIRY_MINUTES * 60 * 1000)%Z in
      let st1 := set_randomPos pos st in
      let st2 :=
        set_pairingCodes (<[c := newSession c phone sid now]> (pairingCodes st1)) st1 in
      let st3 :=
        setTimeout (ExpireCode c) (CODE_EXPIRY_MINUTES * 60 * 1000)%Z now st2 in
      Some ({| code_of := c; sessionId_of := sid; expiresAt_of := expires |}, st3)
  end.

(** The position of the random source when [generateNewPairingCode]
    raises: the calls of the generator made before the failing one
    returned, as in [sampleLoop], and the failing one, in the loop or in
    the fallback, raised at [thrownAt]. *)
Fixpoint throwPos (k fuel : nat) (rnd : Random) (m : gmap string Session)
  (pos attempts : nat) : nat :=
  match generateAlphanumericCode fuel rnd pos with
  | None => thrownAt fuel pos
  | Some (c, pos') =>
      if has c m && (S attempts <? 10)%nat
      then match k with
           | O => pos'
           | S k' => throwPos k' fuel rnd m pos' (S attempts)
           end
      else thrownAt fuel pos'
  end.

(** The state in which a [catch] block runs after
    [generateNewPairingCode] raised: nothing was stored and no timer
    was set, and the random numbers drawn up to the exception are used
    up. *)
Definition thrown (fuel : nat) (rnd : Random) (st : State) : State :=
  set_randomPos (throwPos 9 fuel rnd (pairingCodes st) (randomPos st) 0) st.

(** [cleanAuthFolder()]: the directory is removed and created again. *)
Definition cleanAuthFolder (st : State) : State := set_authFiles [] st.

(** [initWhatsApp()] up to the creation of the socket.  [ok = false]
    stands for an exception in the [try] block, after the folder was
    cleaned. *)
Definition initWhatsApp (now : Z) (ok : bool) (st : State) : State :=
  let st1 := cleanAuthFolder (set_botStatus connecting st) in
  if ok then st1
  else setTimeout InitWhatsApp 15000 now (set_botStatus error st1).

(** The body of the [for] loop of the [open] branch, applied to one
    entry. *)
Definition linkIfPending (now : Z) (user : option string) (data : Session)
  : Session :=
  if is_pending (status data)
  then {| code := code data; phoneNumber := phoneNumber data;
          sessionId := sessionId data; status := linked;
          createdAt := createdAt data; expiresAt := expiresAt data;
          linkedAt := Some now; linkedTo := user;
          qrData := qrData data; qrImage := qrImage data;
          attempts := attempts data |}
  else data.

(** [for (const [code, data] of pairingCodes.entries()) ...]: every
    entry is visited once and updated in place under its own key. *)
Definition markPendingLinked (now : Z) (user : option string)
  (m : gmap string Session) : gmap string Session :=
  linkIfPending now user <$> m.

Definition onQR (u : Update) (st : State) : State :=
  if truthy (qr u)
  then
    let st1 := set_botStatus qr_ready (set_currentQR (qr u) st) in
    match dataUrl u with
    | Some img => set_qrImageDataUrl (Some img) st1
    | None => st1
    end
  else st.

Definition onOpen (now : Z) (u : Update) (st : State) : State :=
  match connection u with
  | Some conn_open =>
      let st1 := set_botStatus online st in
      set_pairingCodes (markPendingLinked now (userId u) (pairingCodes st1)) st1
  | _ => st
  end.

Definition onClose (now : Z) (u : Update) (st : State) : State :=
  match connection u with
  | Some conn_close =>
      if bool_decide (statusCode u = Some 401%Z)
      then setTimeout InitWhatsApp 3000 now (cleanAuthFolder st)
      else setTimeout InitWhatsApp 10000 now (set_botStatus reconnecting st)
  | _ => st
  end.

(** The [connection.update] handler: the three [if] blocks in order. *)
Definition onConnectionUpdate (now : Z) (u : Update) (st : State) : State :=
  onClose now u (onOpen now u (onQR u st)).

(** [POST /generate-code]: the two early answers, then the create,
    whose exception is answered by the [catch] block.  Every request is
    answered. *)
Definition postGenerateCode (fuel : nat) (rnd : Random) (now : Z)
  (hex : string) (phone : option string) (st : State)
  : option (Response * State) :=
  if negb (truthy phone) || negb (nine_digits (default EmptyString phone))
  then Some (Rejected "Please enter a valid 9-digit phone number", st)
  else if negb (ready (botStatus st))
  then Some (Rejected "WhatsApp connection not ready. Please scan QR code first.", st)
  else
    let full := "+254" +:+ default EmptyString phone in
    match generateNewPairingCode fuel rnd now hex (Some full) st with
    | None => Some (Rejected "Error generating code", thrown fuel rnd st)
    | Some (r, st') =>
        Some (Success (code_of r) full (sessionId_of r) (expiresAt_of r)
                "Code generated successfully", st')
    end.

(** The test of the cleanup loop:
    [now > new Date(data.expiresAt).getTime() && data.status === 'pending']. *)
Definition stale (now : Z) (data : Session) : bool :=
  (expiresAt data <? now)%Z && is_pending (status data).

(** The body of the [setInterval] callback: every entry that passes the
    test is deleted. *)
Definition cleanup (now : Z) (m : gmap string Session) : gmap string Session :=
  filter (λ kv, stale now kv.2 = false) m.

Definition sweep (now : Z) (st : State) : State :=
  set_pairingCodes (cleanup now (pairingCodes st)) st.

(** Running a timer callback. *)
Definition fire (now : Z) (ok : bool) (cb : Callback) (st : State) : State :=
  match cb with
  | ExpireCode c => set_pairingCodes (expire c (pairingCodes st)) st
  | InitWhatsApp => initWhatsApp now ok st
  end.

(** [POST /getqr]; [img] is the result of [QRCode.toDataURL(currentQR)],
    [None] when it rejects.  In the [qr_ready] branch a rejected
    rendering and an exception of the create are both answered by the
    inner [catch]; in the [online] branch the exception reaches the
    outer one. *)
Definition postGetQR (fuel : nat) (rnd : Random) (now : Z) (hex : string)
  (img : option string) (phone : option string) (st : State)
  : option (Response * State) :=
  if negb (truthy phone) || negb (nine_digits (default EmptyString phone))
  then Some (Rejected "Please enter a valid 9-digit phone number", st)
  else
    let full := "+254" +:+ default EmptyString phone in
    if is_qr_ready (botStatus st) && truthy (currentQR st)
    then match img with
         | None => Some (Rejected "Error generating QR image", st)
         | Some i =>
             match generateNewPairingCode fuel rnd now hex (Some full) st with
             | None => Some (Rejected "Error generating QR image", thrown fuel rnd st)
             | Some (r, st') =>
                 Some (QrSuccess (Some i) (code_of r) full (sessionId_of r)
                         "QR code ready for scanning", st')
             end
         end
    else if is_online (botStatus st)
    then match generateNewPairingCode fuel rnd now hex (Some full) st with
         | None => Some (Rejected "Error generating QR", thrown fuel rnd st)
         | Some (r, st') =>
             Some (QrSuccess None (code_of r) full (sessionId_of r)
                     "Bot is online. Use the pairing code to link.", st')
         end
    else Some (Rejected "QR code not ready yet. Please wait for connection...", st).

(** The events the process reacts to, each with the time at which its
    handler runs. *)
Inductive Event :=
| ConnectionUpdate (now : Z) (u : Update)
| TimerFired (now : Z) (ok : bool) (i : nat)
| CleanupTick (now : Z)
| GenerateCode (now : Z) (hex : string) (phone : option string)
| GetQR (now : Z) (hex : string) (img : option string) (phone : option string).

(** One event: the new state and the code issued by the handler, if any.
    A timer fires only when it is due, and [None] is returned for a
    timer that is not. *)
Definition step (fuel : nat) (rnd : Random) (e : Event) (st : State)
  : option (option string * State) :=
  match e with
  | ConnectionUpdate now u => Some (None, onConnectionUpdate now u st)
  | TimerFired now ok i =>
      match timers st !! i with
      | Some t =>
          if (fireAt t <=? now)%Z
          then Some (None, fire now ok (callback t) (clearTimer i st))
          else None
      | None => None
      end
  | CleanupTick now => Some (None, sweep now st)
  | GenerateCode now hex phone =>
      match postGenerateCode fuel rnd now hex phone st with
      | Some (resp, st') => Some (issued resp, st')
      | None => None
      end
  | GetQR now hex img phone =>
      match postGetQR fuel rnd now hex img phone st with
      | Some (resp, st') => Some (issued resp, st')
      | None => None
      end
  end.

(** A run of events, with the codes issued on the way. *)
Fixpoint run (fuel : nat) (rnd : Random) (es : list Event) (st : State)
  : option (list string * State) :=
  match es with
  | [] => Some ([], st)
  | e :: es' =>
      match step fuel rnd e st with
      | Some (c, st1) =>
          match run fuel rnd es' st1 with
          | Some (cs, st2) => Some ((option_list c ++ cs)%list, st2)
          | None => None
          end
      | None => None
      end
  end.

End Part000.

(** ** [src/server.js] *)
Module Server.
Import Js Config CodeGen Store.

(** [DisconnectReason.loggedOut] of the Baileys library. *)
Definition DisconnectReason_loggedOut : Z := 401.

(** The object that [generateNewPairingCode] stores.  [expiresAt] is
    [Date.now()] plus the expiry and [createdAt] is a [new Date()] made
    a statement later: both are the instant [now] of the handler. *)
Definition newSession (c : string) (phone : option string) (sid : string)
  (now : Z) (st : State) : Session :=
  {| code := c; phoneNumber := phone; sessionId := sid; status := pending;
     createdAt := now; expiresAt := now + CODE_EXPIRY_MINUTES * 60 * 1000;
     linkedAt := None; linkedTo := None; qrData := currentQR st;
     qrImage := qrImageDataUrl st; attempts := 0 |}.

(** [generateNewPairingCode(phoneNumber = null)], run at time [now]: the
    sampled code is stored under its own key without a look at the
    keys already present. *)
Definition generateNewPairingCode (fuel : nat) (rnd : Random) (now : Z)
  (hex : string) (phone : option string) (st : State)
  : option (Issued * State) :=
  match generateAlphanumericCode fuel rnd (randomPos st) with
  | None => None
  | Some (c, pos) =>
      let sid := generateSessionId now hex in
      let expires := (now + CODE_EXPIRY_MINUTES * 60 * 1000)%Z in
      let st1 := set_randomPos pos st in
      let st2 :=
        set_pairingCodes (<[c := newSession c phone sid now st1]> (pairingCodes st1)) st1 in
      let st3 := set_lastGeneratedCode (Some c) st2 in
      let st4 :=
        setTimeout (ExpireCode c) (CODE_EXPIRY_MINUTES * 60 * 1000)%Z now st3 in
      Some ({| code_of := c; sessionId_of := sid; expiresAt_of := expires |}, st4)
  end.

(** The state in which a [catch] block runs after
    [generateNewPairingCode] raised: nothing was stored and no timer
    was set, and the random numbers drawn up to the exception are used
    up. *)
Definition thrown (fuel : nat) (st : State) : State :=
  set_randomPos (thrownAt fuel (randomPos st)) st.

(** [files.forEach(file => { if (file.endsWith('.json')) fs.unlinkSync(...) })]. *)
Definition unlinkJson (files : list string) : list string :=
  List.filter (fun file => negb (endsWith ".json" file)) files.

(** [initWhatsApp()] up to the creation of the socket.  [ok = false]
    stands for an exception in the [try] block, after the old session
    files were removed. *)
Definition initWhatsApp (now : Z) (ok : bool) (st : State) : State :=
  let st0 := set_botStatus connecting st in
  let st1 := set_authFiles (unlinkJson (authFiles st0)) st0 in
  if ok then st1
  else setTimeout InitWhatsApp 10000 now (set_botStatus error st1).

(** The body of the [for] loop of the [open] branch: [status] and
    [linkedAt] are assigned, [linkedTo] is not. *)
Definition linkIfPending (now : Z) (data : Session) : Session :=
  if is_pending (status data)
  then {| code := code data; phoneNumber := phoneNumber data;
          sessionId := sessionId data; status := linked;
          createdAt := createdAt data; expiresAt := expiresAt data;
          linkedAt := Some now; linkedTo := linkedTo data;
          qrData := qrData data; qrImage := qrImage data;
          attempts := attempts data |}
  else data.

Definition markPendingLinked (now : Z) (m : gmap string Session)
  : gmap string Session :=
  linkIfPending now <$> m.

(** The [qr] branch: after the image is rendered a sample pairing code
    is generated for display; a rejected [toDataURL] skips both, and an
    exception of the create skips the assignment of
    [lastGeneratedCode].  The [catch] block only logs, so the branch
    always completes. *)
Definition onQR (fuel : nat) (rnd : Random) (now : Z) (hex : string)
  (u : Update) (st : State) : option State :=
  if truthy (qr u)
  then
    let st1 := set_botStatus qr_ready (set_currentQR (qr u) st) in
    match dataUrl u with
    | Some img =>
        match generateNewPairingCode fuel rnd now hex None
                (set_qrImageDataUrl (Some img) st1) with
        | None => Some (thrown fuel (set_qrImageDataUrl (Some img) st1))
        | Some (r, st2) => Some (set_lastGeneratedCode (Some (code_of r)) st2)
        end
    | None => Some st1
    end
  else Some st.

Definition onOpen (now : Z) (u : Update) (st : State) : State :=
  match connection u with
  | Some conn_open =>
      let st1 := set_botStatus online st in
      set_pairingCodes (markPendingLinked now (pairingCodes st1)) st1
  | _ => st
  end.

(** The [close] branch: the session files are removed on
    [DisconnectReason.loggedOut]; every other status code, and a
    missing one, schedules [initWhatsApp] after five seconds. *)
Definition onClose (now : Z) (u : Update) (st : State) : State :=
  match connection u with
  | Some conn_close =>
      let loggedOut := bool_decide (statusCode u = Some DisconnectReason_loggedOut) in
      let st1 :=
        if loggedOut then set_authFiles (unlinkJson (authFiles st)) st else st in
      if negb loggedOut then setTimeout InitWhatsApp 5000 now st1 else st1
  | _ => st
  end.

Definition onConnectionUpdate (fuel : nat) (rnd : Random) (now : Z)
  (hex : string) (u : Update) (st : State) : option State :=
  match onQR fuel rnd now hex u st with
  | None => None
  | Some st1 => Some (onClose now u (onOpen now u st1))
  end.

(** [POST /generate-code]: the two early answers, then the create,
    whose exception is answered by the [catch] block.  Every request is
    answered. *)
Definition postGenerateCode (fuel : nat) (rnd : Random) (now : Z)
  (hex : string) (phone : option string) (st : State)
  : option (Response * State) :=
  if negb (truthy phone) || negb (nine_digits (default EmptyString phone))
  then Some (Rejected "Please enter a valid 9-digit phone number", st)
  else if negb (ready (botStatus st))
  then Some (Rejected "WhatsApp connection not ready. Please wait for QR code...", st)
  else
    let full := "+254" +:+ default EmptyString phone in
    match generateNewPairingCode fuel rnd now hex (Some full) st with
    | None => Some (Rejected "Error generating pairing code", thrown fuel st)
    | Some (r, st') =>
        Some (Success (code_of r) full (sessionId_of r) (expiresAt_of r)
                "Pairing code generated successfully", st')
    end.

Definition fire (now : Z) (ok : bool) (cb : Callback) (st : State) : State :=
  match cb with
  | ExpireCode c => set_pairingCodes (expire c (pairingCodes st)) st
  | InitWhatsApp => initWhatsApp now ok st
  end.

(** [POST /getqr]; [img] is the result of [QRCode.toDataURL(currentQR)],
    [None] when it rejects.  In the [qr_ready] branch a rejected
    rendering and an exception of the create are both answered by the
    inner [catch]; in the [online] branch the exception reaches the
    outer one. *)
Definition postGetQR (fuel : nat) (rnd : Random) (now : Z) (hex : string)
  (img : option string) (phone : option string) (st : State)
  : option (Response * State) :=
  if negb (truthy phone) || negb (nine_digits (default EmptyString phone))
  then Some (Rejected "Please enter a valid 9-digit phone number", st)
  else
    let full := "+254" +:+ default EmptyString phone in
    if is_qr_ready (botStatus st) && truthy (currentQR st)
    then match img with
         | None => Some (Rejected "Error generating QR image", st)
         | Some i =>
             match generateNewPairingCode fuel rnd now hex (Some full) st with
             | None => Some (Rejected "Error generating QR image", thrown fuel st)
             | Some (r, st') =>
                 Some (QrSuccess (Some i) (code_of r) full (sessionId_of r)
                         "QR code ready for scanning", st')
             end
         end
    else if is_online (botStatus st)
    then match generateNewPairingCode fuel rnd now hex (Some full) st with
         | None => Some (Rejected "Error generating QR", thrown fuel st)
         | Some (r, st') =>
             Some (QrSuccess None (code_of r) full (sessionId_of r)
                     "Bot is online. Use the pairing code to link.", st')
         end
    else Some (Rejected "QR code not ready yet. Please check Replit console for QR code.", st).

(** The events the process reacts to, each with the time at which its
    handler runs. *)
Inductive Event :=
| ConnectionUpdate (now : Z) (hex : string) (u : Update)
| TimerFired (now : Z) (ok : bool) (i : nat)
| GenerateCode (now : Z) (hex : string) (phone : option string)
| GetQR (now : Z) (hex : string) (img : option string) (phone : option string).

(** One event: the new state and the code issued by the handler, if any.
    A connection update issues the sample code of its [qr] branch, when
    the image was rendered and the create returned.  A timer fires only
    when it is due, and [None] is returned for a timer that is not. *)
Definition step (fuel : nat) (rnd : Random) (e : Event) (st : State)
  : option (option string * State) :=
  match e with
  | ConnectionUpdate now hex u =>
      match onConnectionUpdate fuel rnd now hex u st with
      | Some st' =>
          Some ((if truthy (qr u) && bool_decide (is_Some (dataUrl u))
                    && bool_decide
                         (is_Some (generateAlphanumericCode fuel rnd (randomPos st)))
                 then lastGeneratedCode st' else None), st')
      | None => None
      end
  | TimerFired now ok i =>
      match timers st !! i with
      | Some t =>
          if (fireAt t <=? now)%Z
          then Some (None, fire now ok (callback t) (clearTimer i st))
          else None
      | None => None
      end
  | GenerateCode now hex phone =>
      match postGenerateCode fuel rnd now hex phone st with
      | Some (resp, st') => Some (issued resp, st')
      | None => None
      end
  | GetQR now hex img phone =>
      match postGetQR fuel rnd now hex img phone st with
      | Some (resp, st') => Some (issued resp, st')
      | None => None
      end
  end.

(** A run of events, with the codes issued on the way. *)
Fixpoint run (fuel : nat) (rnd : Random) (es : list Event) (st : State)
  : option (list string * State) :=
  match es with
  | [] => Some ([], st)
  | e :: es' =>
      match step fuel rnd e st with
      | Some (c, st1) =>
          match run fuel rnd es' st1 with
          | Some (cs, st2) => Some ((option_list c ++ cs)%list, st2)
          | None => None
          end
      | None => None
      end
  end.

End Server.

(** ** [src/pairing-server.js] *)
Module PairingServer.
Import Js.

(** [enum: ['pending', 'active', 'expired', 'used']] of the schema. *)
Inductive Status := pending | active | expired | used.

Record DeviceInfo := { platform : string; browser : string; os : string }.

(** A document of the [PairingCode] collection. *)
Record PairingCode := {
  phoneNumber : string;
  countryCode : string;
  fullNumber : string;
  pairingCode : string;
  sessionId : string;
  status : Status;
  ipAddress : option string;
  userAgent : option string;
  expiresAt : Z;
  createdAt : Z;
  linkedAt : option Z;
  deviceInfo : DeviceInfo
}.

(** A document of the [BotSession] collection. *)
Record BotSession := {
  bot_sessionId : string;
  bot_phoneNumber : string;
  bot_status : string;
  bot_createdAt : Z;
  bot_lastActive : option Z
}.

(** The database: both collections in natural order. *)
Record Db := { codes : list PairingCode; bots : list BotSession }.

Definition is_pending (s : Status) : bool :=
  match s with pending => true | _ => false end.

(** The fields of the request read by [POST /api/generate-code]. *)
Record Request := {
  req_phoneNumber : option string;
  req_countryCode : option string;
  req_ip : option string;
  req_userAgent : option string;
  req_platform : option string
}.

Inductive Response :=
| BadRequest (error : string)
| Existing (pairingCode fullNumber : string) (expiresAt : Z) (message : string)
| Created (pairingCode fullNumber sessionId : string) (expiresAt : Z)
    (whatsappLink : string)
| NotFound (error : string)
| Linked (message : string)
| ServerError (error : string).

(** [/^[0-9]{9,12}$/] *)
Definition digits_9_12 (s : string) : bool :=
  test_all is_digit s
  && (9 <=? String.length s)%nat && (String.length s <=? 12)%nat.

(** [s.replace('+', '')]: the first occurrence is removed. *)
Fixpoint removeFirstPlus (s : string) : string :=
  match s with
  | EmptyString => EmptyString
  | String c s' => if Ascii.eqb c "+" then s' else String c (removeFirstPlus s')
  end.

(** [PairingCode.findOne({ fullNumber, status: 'pending',
    expiresAt: { $gt: new Date() } })] *)
Definition liveFor (full : string) (now : Z) (r : PairingCode) : bool :=
  String.eqb (fullNumber r) full && is_pending (status r) && (now <? expiresAt r)%Z.

(** [PairingCode.findOne({ pairingCode, status: 'pending' })] *)
Definition pendingWith (pc : string) (r : PairingCode) : bool :=
  String.eqb (pairingCode r) pc && is_pending (status r).

(** The [while (!isUnique)] loop.  [draws k] is the value of
    [Math.floor(100000 + Math.random() * 900000)] at the [k]-th
    iteration of the request; [fuel] bounds the iterations. *)
Fixpoint uniqueCode (fuel : nat) (draws : nat -> Z) (k : nat)
  (l : list PairingCode) : option string :=
  match fuel with
  | O => None
  | S fuel' =>
      let pc := toString (draws k) in
      match List.find (pendingWith pc) l with
      | Some _ => uniqueCode fuel' draws (S k) l
      | None => Some pc
      end
  end.

(** The unique indexes of the schema, checked by [save()]. *)
Definition clashes (r : PairingCode) (l : list PairingCode) : bool :=
  existsb (fun r' => String.eqb (fullNumber r') (fullNumber r)
                     || String.eqb (pairingCode r') (pairingCode r)) l.

Definition botClashes (b : BotSession) (l : list BotSession) : bool :=
  existsb (fun b' => String.eqb (bot_sessionId b') (bot_sessionId b)) l.

(** [POST /api/generate-code], run at time [now]; [hex] is
    [crypto.randomBytes(3).toString('hex')].  A rejected [save()] is
    caught and answered with status 500.  The clock is read for the
    query, for the session id and by the defaults of the schema for
    [expiresAt] and [createdAt]: all are the instant [now] of the
    handler. *)
Definition postGenerateCode (fuel : nat) (draws : nat -> Z) (now : Z)
  (hex : string) (req : Request) (db : Db) : option (Response * Db) :=
  let cc := default "+254" (req_countryCode req) in
  match req_phoneNumber req with
  | None => Some (BadRequest "Invalid phone number format. Please enter 9-12 digits.", db)
  | Some phone =>
      if negb (digits_9_12 phone)
      then Some (BadRequest "Invalid phone number format. Please enter 9-12 digits.", db)
      else
        let full := cc +:+ keep is_digit phone in
        match List.find (liveFor full now) (codes db) with
        | Some existingCode =>
            Some (Existing (pairingCode existingCode) (fullNumber existingCode)
                    (expiresAt existingCode) "Using existing active code", db)
        | None =>
            match uniqueCode fuel draws 0 (codes db) with
            | None => None
            | Some pc =>
                let sid := "IAN_TECH_" +:+ toString now +:+ "_" +:+ hex in
                let record :=
                  {| phoneNumber := phone; countryCode := cc; fullNumber := full;
                     pairingCode := pc; sessionId := sid; status := pending;
                     ipAddress := req_ip req; userAgent := req_userAgent req;
                     expiresAt := now + 10 * 60 * 1000; createdAt := now;
                     linkedAt := None;
                     deviceInfo :=
                       {| platform := default "Unknown" (req_platform req);
                          browser := default "Unknown" (req_userAgent req);
                          os := "Unknown" |} |} in
                if clashes record (codes db)
                then Some (ServerError "Internal server error", db)
                else
                  let db1 := {| codes := codes db ++ [record]; bots := bots db |} in
                  let bot :=
                    {| bot_sessionId := sid; bot_phoneNumber := full;
                       bot_status := "pending"; bot_createdAt := now;
                       bot_lastActive := None |} in
                  if botClashes bot (bots db1)
                  then Some (ServerError "Internal server error", db1)
                  else
                    Some (Created pc full sid (expiresAt record)
                            ("https://wa.me/" +:+ removeFirstPlus full
                             +:+ "?text=Your%20IAN%20TECH%20Pairing%20Code:%20" +:+ pc),
                          {| codes := codes db1; bots := bots db1 ++ [bot] |})
            end
        end
  end.

(** [findOneAndUpdate(filter, update, { new: true })]: the first
    document that passes the filter is replaced; the updated document
    is returned with the collection. *)
Fixpoint findOneAndUpdate {A : Type} (p : A -> bool) (f : A -> A) (l : list A)
  : option (A * list A) :=
  match l with
  | [] => None
  | x :: l' =>
      if p x then Some (f x, f x :: l')
      else match findOneAndUpdate p f l' with
           | Some (y, l'') => Some (y, x :: l'')
           | None => None
           end
  end.

(** The update document [{ status: 'active', linkedAt: new Date() }]. *)
Definition markActive (now : Z) (r : PairingCode) : PairingCode :=
  {| phoneNumber := phoneNumber r; countryCode := countryCode r;
     fullNumber := fullNumber r; pairingCode := pairingCode r;
     sessionId := sessionId r; status := active;
     ipAddress := ipAddress r; userAgent := userAgent r;
     expiresAt := expiresAt r; createdAt := createdAt r;
     linkedAt := Some now; deviceInfo := deviceInfo r |}.

Definition botActive (now : Z) (b : BotSession) : BotSession :=
  {| bot_sessionId := bot_sessionId b; bot_phoneNumber := bot_phoneNumber b;
     bot_status := "active"; bot_createdAt := bot_createdAt b;
     bot_lastActive := Some now |}.

(** [POST /api/pairing-linked/:code], run at time [now]. *)
Definition postPairingLinked (now : Z) (c : string) (db : Db) : Response * Db :=
  match findOneAndUpdate (fun r => String.eqb (pairingCode r) c) (markActive now)
          (codes db) with
  | None => (NotFound "Code not found", db)
  | Some (pairingRecord, codes') =>
      let bots' :=
        match findOneAndUpdate
                (fun b => String.eqb (bot_sessionId b) (sessionId pairingRecord))
                (botActive now) (bots db) with
        | Some (_, l) => l
        | None => bots db
        end in
      (Linked "Pairing marked as active", {| codes := codes'; bots := bots' |})
  end.

(** [GET /api/pairing-status/:code] as far as the bot reads it. *)
Definition getPairingStatus (c : string) (db : Db) : option PairingCode :=
  List.find (fun r => String.eqb (pairingCode r) c) (codes db).

Inductive Verdict :=
| Valid (phoneNumber sessionId : string)
| Invalid (reason : string).

(** What becomes of a [fetch] to one of the [/api/] routes: the handler
    runs and its answer comes back; or the rate limiter mounted on
    [/api/] answers in its place with status 429 and a text that is not
    JSON; or the request fails and the promise rejects.  In the last
    two cases the handler does not run. *)
Inductive Fetch := Delivered | Refused | Failed.

(** [verifyPairingCodeInBot(pairingCode)]: the status is fetched and, when
    it is ['pending'], the code is marked linked by a second request
    whose answer is not read.  [get] and [post] tell what becomes of the
    two requests.  A status request that is not delivered ends in the
    [catch] block, through the rejected [fetch] or through
    [response.json()]; so does a mark request that fails, while one that
    the limiter refuses goes unnoticed. *)
Definition verifyPairingCodeInBot (now : Z) (get post : Fetch) (c : string)
  (db : Db) : Verdict * Db :=
  match get with
  | Delivered =>
      match getPairingStatus c db with
      | Some data =>
          match status data with
          | pending =>
              match post with
              | Delivered =>
                  (Valid (fullNumber data) (sessionId data),
                   snd (postPairingLinked now c db))
              | Refused => (Valid (fullNumber data) (sessionId data), db)
              | Failed => (Invalid "Verification failed", db)
              end
          | active => (Invalid "Code already used", db)
          | _ => (Invalid "Invalid code", db)
          end
      | None => (Invalid "Invalid code", db)
      end
  | _ => (Invalid "Verification failed", db)
  end.

(** The TTL index of the schema on [expiresAt], with
    [expireAfterSeconds: 0]: a pass of the background task of MongoDB at
    time [now] deletes documents whose [expiresAt] has passed;
    [reached] tells which of them this pass got to. *)
Definition ttlPass (now : Z) (reached : PairingCode -> bool) (db : Db) : Db :=
  {| codes := List.filter (fun r => negb (reached r && (expiresAt r <=? now)%Z))
                (codes db);
     bots := bots db |}.

(** What changes the collections: the two writing routes, the
    verification made by the bot, and the TTL index. *)
Inductive Event :=
| GenerateCode (fuel : nat) (draws : nat -> Z) (now : Z) (hex : string)
    (req : Request)
| PairingLinked (now : Z) (c : string)
| VerifyInBot (now : Z) (get post : Fetch) (c : string)
| TtlPass (now : Z) (reached : PairingCode -> bool).

(** One event; [None] when the code loop of the request does not end. *)
Definition step (e : Event) (db : Db) : option Db :=
  match e with
  | GenerateCode fuel draws now hex req =>
      match postGenerateCode fuel draws now hex req db with
      | Some (_, db') => Some db'
      | None => None
      end
  | PairingLinked now c => Some (snd (postPairingLinked now c db))
  | VerifyInBot now get post c =>
      Some (snd (verifyPairingCodeInBot now get post c db))
  | TtlPass now reached => Some (ttlPass now reached db)
  end.

Fixpoint run (es : list Event) (db : Db) : option Db :=
  match es with
  | [] => Some db
  | e :: es' =>
      match step e db with
      | Some db1 => run es' db1
      | None => None
      end
  end.

(** The collections of a fresh deployment. *)
Definition emptyDb : Db := {| codes := []; bots := [] |}.

End PairingServer.

(** ** Predicates used to state the properties *)
Module Props.
Import Js Config CodeGen Store.

(** The alphabet A–Z0–9. *)
Definition alnum (c : ascii) : bool := is_upper c || is_digit c.

(** A code of the required shape: [CODE_LENGTH] characters of the
    alphabet, a letter and a digit among them. *)
Definition wellFormed (c : string) : Prop :=
  String.length c = CODE_LENGTH /\ test_all alnum c = true
  /\ hasLetters c = true /\ hasNumbers c = true.

(** A draw that [generateAlphanumericCode] returns instead of calling
    itself again. *)
Definition accepted (c : string) : bool := hasLetters c && hasNumbers c.

(** The draw made by the [j]-th call of a run that starts at [pos]. *)
Definition draw (rnd : Random) (pos j : nat) : string :=
  fill rnd (pos + CODE_LENGTH * j) CODE_LENGTH EmptyString.

(** No call of a run of the generator that starts at [pos] returns
    within the depth [fuel]: each of its first [fuel] draws lacks a
    letter or a digit. *)
Definition overflows (fuel : nat) (rnd : Random) (pos : nat) : Prop :=
  forall j, (j < fuel)%nat -> accepted (draw rnd pos j) = false.

(** Wherever a run of the generator starts, one of its first [fuel]
    draws has a letter and a digit. *)
Definition productive (fuel : nat) (rnd : Random) : Prop :=
  forall pos, exists j, (j < fuel)%nat /\ accepted (draw rnd pos j) = true.

(** Every value of the random source is an index into [chars], as
    [Math.floor(Math.random() * chars.length)] is. *)
Definition inRange (rnd : Random) : Prop :=
  forall k, (rnd k < String.length chars)%nat.

(** A random source whose every draw is ["AAAAAAAA"]. *)
Definition allA : Random := fun _ => 0%nat.

(** A random source whose every draw is ["A0A0A0A0"]. *)
Definition a0 : Random := fun k => if Nat.even k then 0%nat else 26%nat.

(** A random source whose first draw is ["AAAAAAAA"] and whose later
    draws are ["A0A0A0A0"]. *)
Definition aThenA0 : Random :=
  fun k => if (k <? CODE_LENGTH)%nat then 0%nat else a0 k.

Definition sessionOf (c : string) (st : Status) (expires : Z)
  (at_ : option Z) : Session :=
  {| code := c; phoneNumber := None; sessionId := "IAN TECH_0_000000";
     status := st; createdAt := expires - 600000; expiresAt := expires;
     linkedAt := at_; linkedTo := None; qrData := None; qrImage := None;
     attempts := 0 |}.

Definition withCodes (m : gmap string Session) (b : BotStatus) : State :=
  set_botStatus b (set_pairingCodes m initial).

(** A store in which the code ["A0A0A0A0"] is taken by a pending
    session. *)
Definition taken : State :=
  withCodes {[ "A0A0A0A0" := sessionOf "A0A0A0A0" pending 1700000600000 None ]} online.

(** Three pending sessions and one that was linked at time 1000. *)
Definition threePendingOneLinked : State :=
  withCodes
    (<["AB12CD34" := sessionOf "AB12CD34" pending 1700000600000 None]>
     (<["EF56GH78" := sessionOf "EF56GH78" pending 1700000600001 None]>
      (<["IJ90KL12" := sessionOf "IJ90KL12" pending 1700000600002 None]>
       {[ "MN34OP56" := sessionOf "MN34OP56" linked 1700000600003 (Some 1000%Z) ]})))
    qr_ready.

(** Connection events. *)
Definition openEvent : Update :=
  {| connection := Some conn_open; qr := None; statusCode := None;
     dataUrl := None; userId := Some "254700000000:1@s.whatsapp.net" |}.

Definition closeEvent (reason : option Z) : Update :=
  {| connection := Some conn_close; qr := None; statusCode := reason;
     dataUrl := None; userId := None |}.

(** An online server whose [auth_info] directory holds credentials. *)
Definition loggedIn : State :=
  set_authFiles ["creds.json"; "app-state-sync-key-AAAAAA.json"] (withCodes ∅ online).

(** The format check of [POST /generate-code] on the request field:
    present and made of nine digits. *)
Definition validPhone (phone : option string) : bool :=
  match phone with Some s => nine_digits s | None => false end.

(** The code of a result of [generateNewPairingCode]. *)
Definition issuedCode (res : option (Issued * State)) : option string :=
  match res with Some (r, _) => Some (code_of r) | None => None end.

End Props.

(** ** Sample data for the database-backed server *)
Module PairingProps.
Import PairingServer.

Definition recordOf (phone pc : string) (st : Status) (expires : Z)
  (at_ : option Z) : PairingCode :=
  {| phoneNumber := phone; countryCode := "+254"; fullNumber := "+254" +:+ phone;
     pairingCode := pc; sessionId := "IAN_TECH_1700000000000_a1b2c3";
     status := st; ipAddress := None; userAgent := None;
     expiresAt := expires; createdAt := expires - 600000; linkedAt := at_;
     deviceInfo := {| platform := "Unknown"; browser := "Unknown"; os := "Unknown" |} |}.

Definition dbOf (r : PairingCode) : Db :=
  {| codes := [r];
     bots := [{| bot_sessionId := sessionId r; bot_phoneNumber := fullNumber r;
                 bot_status := "pending"; bot_createdAt := createdAt r;
                 bot_lastActive := None |}] |}.

(** A request for the number 723278526 with the default country code. *)
Definition request : Request :=
  {| req_phoneNumber := Some "723278526"; req_countryCode := None;
     req_ip := None; req_userAgent := None; req_platform := None |}.

(** The status and [linkedAt] stored under a pairing code. *)
Definition stored (c : string) (db : Db) : option (Status * option Z) :=
  match getPairingStatus c db with
  | Some r => Some (status r, linkedAt r)
  | None => None
  end.

(** The status that [GET /api/pairing-status] reports for a code. *)
Definition statusUnder (c : string) (db : Db) : option Status :=
  match getPairingStatus c db with
  | Some r => Some (status r)
  | None => None
  end.

(** The changes of a reported status that are monotonic: a status stays
    as it is or goes from pending to active, the name of the linked
    state in this server; a record that appears is pending; a record may
    disappear. *)
Definition monotonic (before after : option Status) : Prop :=
  match before, after with
  | Some s, Some s' => s' = s \/ (s = pending /\ s' = active)
  | None, Some s' => s' = pending
  | _, None => True
  end.

(** A code is requested for 723278526 and marked linked. *)
Definition linkedRun : list Event :=
  [GenerateCode 1 (fun _ => 482913%Z) 1700000000000 "d4e5f6" request;
   PairingLinked 1700000100000 "482913"].

End PairingProps.

(** ** The scripts of the pages *)
Module Page.
Import Js Store.

(** [s.substring(0, n)]. *)
Fixpoint take (n : nat) (s : string) : string :=
  match n, s with
  | O, _ => EmptyString
  | S _, EmptyString => EmptyString
  | S n', String c s' => String c (take n' s')
  end.

(** The scripts are text inside the template literal that [res.send]
    is given (or that [htmlTemplates] holds).  There a backslash before
    [D] or [d] is dropped and the letter stands for itself, so the
    regular expressions written with the classes of non-digits and
    digits reach the browser as [/D/g], [/(d{3})(d+)/] and
    [/(d{3})(d{3})(d+)/]: they speak of the letters.  A field is taken
    to hold characters of one byte. *)
Definition is_D (c : ascii) : bool := Ascii.eqb c "D".
Definition is_d (c : ascii) : bool := Ascii.eqb c "d".
Definition not_D (c : ascii) : bool := negb (is_D c).

(** [s.replace(/D/g, '')]. *)
Definition removeD (s : string) : string := keep not_D s.

(** [/^d{n}/.test(s)]: [s] starts with [n] letters [d]. *)
Fixpoint starts_d (n : nat) (s : string) : bool :=
  match n, s with
  | O, _ => true
  | S _, EmptyString => false
  | S n', String c s' => is_d c && starts_d n' s'
  end.

(** [s.replace(/(d{3})(d+)/, '$1 $2')]: at the first place where four
    letters [d] follow each other, a space is put after the third; the
    second group takes the rest of the run and nothing else changes. *)
Fixpoint replace_d3 (s : string) : string :=
  if starts_d 4 s then take 3 s +:+ " " +:+ drop 3 s
  else match s with
       | EmptyString => EmptyString
       | String c s' => String c (replace_d3 s')
       end.

(** [s.replace(/(d{3})(d{3})(d+)/, '$1 $2 $3')]: at the first place
    where seven letters [d] follow each other, a space is put after the
    third and after the sixth. *)
Fixpoint replace_d3_d3 (s : string) : string :=
  if starts_d 7 s
  then take 3 s +:+ " " +:+ take 3 (drop 3 s) +:+ " " +:+ drop 6 s
  else match s with
       | EmptyString => EmptyString
       | String c s' => String c (replace_d3_d3 s')
       end.

(** The [input] listener of the phone field, the same in the three
    pages, as served: what it writes back into a field that holds
    [raw]. *)
Definition formatPhone (raw : string) : string :=
  let value := removeD raw in
  let n := String.length value in
  if (3 <? n)%nat && (n <=? 6)%nat then replace_d3 value
  else if (6 <? n)%nat then replace_d3_d3 value
  else value.

(** [/^[0-9]+$/.test(s)]. *)
Definition some_digits (s : string) : bool :=
  test_all is_digit s && negb (String.eqb s EmptyString).

(** [validatePhoneNumber(phone)] of [server.js] and [part_000], as
    served. *)
Definition validatePhoneNumber (phone : string) : bool :=
  let cleanPhone := removeD phone in
  (String.length cleanPhone =? 9)%nat && some_digits cleanPhone.

(** [getPairingCode()], [generatePairingCode()] and the QR buttons up to
    the [fetch], as served: the [phoneNumber] of the request body, or
    [None] when the page shows its own error and sends nothing. *)
Definition requestBody (value : string) : option string :=
  let phone := removeD value in
  if validatePhoneNumber phone then Some phone else None.

(** The value that the pages of [server.js] and [part_000] write into
    the field on [DOMContentLoaded]. *)
Definition prefilled : string := "723 278 526".

(** Character classes used to state what the scripts do. *)
Definition not_space (c : ascii) : bool := negb (Ascii.eqb c " ").
Definition digit_or_D (c : ascii) : bool := is_digit c || is_D c.

(** The [submit] listener of the landing page of [pairing-server.js] up
    to the [fetch]: the field is tested as it stands, and the request
    carries it as [phoneNumber], with the text [+254] of the country
    code element as [countryCode].  The [pattern] attribute of the
    field states the same test. *)
Definition landingRequestBody (value : string) : option string :=
  if PairingServer.digits_9_12 value then Some value else None.

(** [s.padStart(n, '0')]. *)
Fixpoint zeros (n : nat) : string :=
  match n with O => EmptyString | S n' => String "0" (zeros n') end.

Definition padStart0 (n : nat) (s : string) : string :=
  zeros (n - String.length s) +:+ s.

(** [updateTimer()] inside [startExpiryTimer]: the text written to the
    page at time [now] for a code that expires at [expiry]; [label] is
    ['EXPIRED'] in [part_000] and ['CODE EXPIRED'] in [server.js]. *)
Definition updateTimer (label : string) (expiry now : Z) : string :=
  let diff := (expiry - now)%Z in
  if (diff <=? 0)%Z then label
  else
    let minutes := (diff / 60000)%Z in
    let seconds := ((diff mod 60000) / 1000)%Z in
    "Expires in " +:+ padStart0 2 (toString minutes) +:+ ":"
    +:+ padStart0 2 (toString seconds).

(** What [getQRCode()] of [part_000] does to the variable
    [currentCode] for an answer of [POST /getqr]: the code is taken
    only from an answer that carries an image. *)
Definition codeShownAfterQR (resp : Response) (currentCode : string) : string :=
  match resp with
  | QrSuccess img c _ _ _ =>
      if truthy img then (if truthy (Some c) then c else currentCode)
      else currentCode
  | _ => currentCode
  end.

(** The fields of the answer of [GET /status] that depend on the
    state. *)
Record StatusReport := {
  bot : BotStatus;
  hasQR : bool;
  pairingCodesSize : nat;
  lastCode : option string
}.

(** [GET /status]; [part_000] has no [lastCode] field. *)
Definition getStatus (st : State) : StatusReport :=
  {| bot := botStatus st; hasQR := is_qr_ready (botStatus st);
     pairingCodesSize := size (pairingCodes st);
     lastCode := lastGeneratedCode st |}.

End Page.

(** ** Invariants of the in-memory servers *)
Module Invariants.
Import Js Config CodeGen Store.

(** A stored session is filed under its own code and carries [linkedAt]
    exactly when it is linked. *)
Definition wfSession (c : string) (d : Session) : Prop :=
  code d = c /\ (status d = linked <-> linkedAt d <> None).

Definition wfStore (st : State) : Prop :=
  forall c d, pairingCodes st !! c = Some d -> wfSession c d.

(** Every pending session has a timer that is set for its expiry. *)
Definition timersCover (st : State) : Prop :=
  forall c d, pairingCodes st !! c = Some d -> status d = pending ->
    In {| fireAt := expiresAt d; callback := ExpireCode c |} (timers st).

(** In the state [qr_ready] a QR payload is at hand. *)
Definition qrAtHand (st : State) : Prop :=
  botStatus st = qr_ready -> truthy (currentQR st) = true.

(** What the body of the [open] loop may do to one session. *)
Definition links (f : Session -> Session) : Prop :=
  forall d,
    (status d = linked -> f d = d)
    /\ (status d = pending ->
        status (f d) = linked /\ linkedAt (f d) <> None
        /\ code (f d) = code d /\ createdAt (f d) = createdAt d
        /\ expiresAt (f d) = expiresAt d).

(** The part of the state the invariants speak of. *)
Definition View : Type :=
  gmap string Session * list Timer * BotStatus * option string.

Definition view (st : State) : View :=
  (pairingCodes st, timers st, botStatus st, currentQR st).

(** The effects a handler of either server can have on that part. *)
Inductive Effect : View -> View -> Prop :=
| eff_none v : Effect v v
| eff_seq v1 v2 v3 : Effect v1 v2 -> Effect v2 v3 -> Effect v1 v3
| eff_status m ts b q b' :
    b' <> qr_ready -> Effect (m, ts, b, q) (m, ts, b', q)
| eff_qr m ts b q q' :
    truthy q' = true -> Effect (m, ts, b, q) (m, ts, qr_ready, q')
| eff_retry m ts b q t :
    callback t = InitWhatsApp -> Effect (m, ts, b, q) (m, (ts ++ [t])%list, b, q)
| eff_create m ts b q c d :
    wfSession c d -> status d = pending ->
    Effect (m, ts, b, q)
      (<[c := d]> m,
       (ts ++ [{| fireAt := expiresAt d; callback := ExpireCode c |}])%list, b, q)
| eff_link m ts b q f :
    links f -> Effect (m, ts, b, q) (f <$> m, ts, b, q)
| eff_expire m ts b q i t c :
    ts !! i = Some t -> callback t = ExpireCode c ->
    Effect (m, ts, b, q) (expire c m, delete i ts, b, q)
| eff_restart m ts b q i t :
    ts !! i = Some t -> callback t = InitWhatsApp ->
    Effect (m, ts, b, q) (m, delete i ts, b, q)
| eff_sweep m ts b q now :
    Effect (m, ts, b, q) (Part000.cleanup now m, ts, b, q).

(** The three invariants, read on the view. *)
Definition wfView (v : View) : Prop :=
  let '(m, _, _, _) := v in forall c d, m !! c = Some d -> wfSession c d.

Definition coverView (v : View) : Prop :=
  let '(m, ts, _, _) := v in
  forall c d, m !! c = Some d -> status d = pending ->
    In {| fireAt := expiresAt d; callback := ExpireCode c |} ts.

Definition qrView (v : View) : Prop :=
  let '(_, _, b, q) := v in b = qr_ready -> truthy q = true.

(** A run of [part_000] that creates a session, links it, creates a
    second one and sweeps. *)
Definition sampleRun : list Part000.Event :=
  [Part000.ConnectionUpdate 1700000000000
     {| connection := None; qr := Some "2@qr-payload"; statusCode := None;
        dataUrl := Some "data:image/png;base64,AAAA"; userId := None |};
   Part000.GenerateCode 1700000001000 "A1B2C3" (Some "723278526");
   Part000.ConnectionUpdate 1700000002000
     {| connection := Some conn_open; qr := None; statusCode := None;
        dataUrl := None; userId := Some "254700000000:1@s.whatsapp.net" |};
   Part000.GetQR 1700000003000 "D4E5F6" None (Some "711111111");
   Part000.CleanupTick 1700000060000].

(** The same run for [server.js], which has no sweep. *)
Definition sampleServerRun : list Server.Event :=
  [Server.ConnectionUpdate 1700000000000 "0A0B0C"
     {| connection := None; qr := Some "2@qr-payload"; statusCode := None;
        dataUrl := Some "data:image/png;base64,AAAA"; userId := None |};
   Server.ConnectionUpdate 1700000002000 "0A0B0C"
     {| connection := Some conn_open; qr := None; statusCode := None;
        dataUrl := None; userId := Some "254700000000:1@s.whatsapp.net" |};
   Server.GenerateCode 1700000003000 "A1B2C3" (Some "723278526")].

End Invariants.

(** ** Invariants of the database *)
Module DbInvariants.
Import PairingServer.

(** The pairing codes of the pending records, in the order of the
    collection. *)
Definition pendingCodes (l : list PairingCode) : list string :=
  List.map pairingCode (List.filter (fun r => is_pending (status r)) l).

(** A record as the routes write it: the full number is the country
    code followed by nine to twelve digits, and the record carries
    [linkedAt] exactly when it is active. *)
Definition wfRecord (r : PairingCode) : Prop :=
  fullNumber r = countryCode r +:+ phoneNumber r
  /\ digits_9_12 (phoneNumber r) = true
  /\ (status r = active <-> linkedAt r <> None).

Definition wfDb (db : Db) : Prop := forall r, In r (codes db) -> wfRecord r.

(** The pairing code drawn at the [k]-th iteration is held by a pending
    record. *)
Definition taken (draws : nat -> Z) (l : list PairingCode) (k : nat) : bool :=
  match List.find (pendingWith (Js.toString (draws k))) l with
  | Some _ => true
  | None => false
  end.

(** No two codes of the list are equal. *)
Fixpoint distinct (cs : list string) : Prop :=
  match cs with
  | [] => True
  | c :: cs' => ~ In c cs' /\ distinct cs'
  end.

(** What the unique index on [pairingCode] and the writes of the routes
    keep: the pairing codes of the stored records are distinct, and
    every status is pending or active. *)
Definition keptByRoutes (db : Db) : Prop :=
  distinct (List.map pairingCode (codes db))
  /\ forall r, In r (codes db) -> status r = pending \/ status r = active.

(** Draws that give 482913 first and 613370 afterwards. *)
Definition sampleDraws : nat -> Z :=
  fun k => match k with O => 482913%Z | _ => 613370%Z end.

End DbInvariants.

(** ** The separator of the session identifiers *)
Module Ids.

Definition is_underscore (c : ascii) : bool := Ascii.eqb c "_".

End Ids.

(** * Properties *)

(** ** Strings *)
Section StringFacts.
Import Js.

Lemma append_cons (x : ascii) (a b : string) :
  String x a +:+ b = String x (a +:+ b).
Proof. reflexivity. Qed.

Lemma append_nil_l (b : string) : EmptyString +:+ b = b.
Proof. reflexivity. Qed.

Lemma append_nil_r (a : string) : a +:+ EmptyString = a.
Proof.
  induction a as [|x a IH]; [reflexivity |].
  now rewrite append_cons, IH.
Qed.

Lemma length_append (a b : string) :
  String.length (a +:+ b) = (String.length a + String.length b)%nat.
Proof.
  induction a as [|x a IH]; [reflexivity |].
  rewrite append_cons. simpl. now rewrite IH.
Qed.

Lemma append_assoc (a b c : string) : (a +:+ b) +:+ c = a +:+ (b +:+ c).
Proof.
  induction a as [|x a IH]; [reflexivity |].
  now rewrite !append_cons, IH.
Qed.

Lemma test_all_append (p : ascii -> bool) (a b : string) :
  test_all p (a +:+ b) = test_all p a && test_all p b.
Proof.
  induction a as [|x a IH]; [reflexivity |].
  rewrite append_cons. simpl. rewrite IH. now rewrite andb_assoc.
Qed.

Lemma test_some_append (p : ascii -> bool) (a b : string) :
  test_some p (a +:+ b) = test_some p a || test_some p b.
Proof.
  induction a as [|x a IH]; [reflexivity |].
  rewrite append_cons. simpl. rewrite IH. now rewrite orb_assoc.
Qed.

Lemma length_drop (n : nat) (s : string) :
  String.length (drop n s) = (String.length s - n)%nat.
Proof.
  revert s; induction n as [|n IH]; intros [|c s]; simpl; auto with arith.
Qed.

Lemma length_slice_last (k : nat) (s : string) :
  String.length (slice_last k s) = Nat.min k (String.length s).
Proof. unfold slice_last. rewrite length_drop. lia. Qed.

End StringFacts.

(** ** The code generator *)
Section Generator.
Import Js Config CodeGen Props.

Lemma charAt_chars (i : nat) :
  (i < String.length chars)%nat ->
  exists c, charAt chars i = String c EmptyString /\ alnum c = true.
Proof.
  intros Hi.
  do 36 (destruct i as [|i]; [eexists; split; reflexivity |]).
  simpl in Hi. lia.
Qed.

Lemma fill_append (rnd : Random) (n pos : nat) (code : string) :
  fill rnd pos n code = code +:+ fill rnd pos n EmptyString.
Proof.
  revert pos code; induction n as [|n IH]; intros pos code; simpl.
  - now rewrite append_nil_r.
  - rewrite append_nil_l, (IH (S pos) (code +:+ _)), (IH (S pos) (charAt _ _)).
    apply append_assoc.
Qed.

Lemma fill_shape (rnd : Random) (Hrnd : inRange rnd) (n pos : nat) :
  String.length (fill rnd pos n EmptyString) = n
  /\ test_all alnum (fill rnd pos n EmptyString) = true.
Proof.
  revert pos; induction n as [|n IH]; intros pos; simpl; [easy |].
  destruct (charAt_chars (rnd pos) (Hrnd pos)) as (c & -> & Hc).
  rewrite fill_append, length_append, test_all_append.
  destruct (IH (S pos)) as [-> ->]. simpl. now rewrite Hc.
Qed.

(** What a returned code is: the draw of the call that returned. *)
Lemma generateAlphanumericCode_Some (rnd : Random) (fuel pos : nat)
  (c : string) (pos' : nat) :
  generateAlphanumericCode fuel rnd pos = Some (c, pos') ->
  exists j, (j < fuel)%nat /\ c = draw rnd pos j /\ accepted c = true
            /\ pos' = (pos + CODE_LENGTH * S j)%nat.
Proof.
  revert pos; induction fuel as [|fuel IH]; intros pos;
    cbn [generateAlphanumericCode]; [discriminate |].
  destruct (negb _ || negb _) eqn:Hrej.
  - intros H. destruct (IH _ H) as (j & Hj & -> & Hacc & ->).
    exists (S j). unfold draw in *.
    replace (pos + CODE_LENGTH * S j)%nat
      with (pos + CODE_LENGTH + CODE_LENGTH * j)%nat by lia.
    repeat split; auto; lia.
  - intros [= <- <-]. exists 0%nat. unfold draw, accepted.
    rewrite Nat.mul_0_r, Nat.add_0_r.
    destruct (hasLetters _), (hasNumbers _); try discriminate.
    repeat split; lia.
Qed.

Lemma generateAlphanumericCode_wellFormed (rnd : Random) (Hrnd : inRange rnd)
  (fuel pos : nat) (c : string) (pos' : nat) :
  generateAlphanumericCode fuel rnd pos = Some (c, pos') -> wellFormed c.
Proof.
  intros H. destruct (generateAlphanumericCode_Some _ _ _ _ _ H)
    as (j & _ & -> & Hacc & _).
  unfold accepted in Hacc. apply andb_prop in Hacc as [Hl Hn].
  destruct (fill_shape rnd Hrnd CODE_LENGTH (pos + CODE_LENGTH * j)) as [H1 H2].
  repeat split; assumption.
Qed.

Lemma generateAlphanumericCode_first (rnd : Random) (k : nat) :
  forall (pos : nat),
  (forall j, (j < k)%nat -> accepted (draw rnd pos j) = false) ->
  accepted (draw rnd pos k) = true ->
  forall fuel,
    generateAlphanumericCode fuel rnd pos =
    if (k <? fuel)%nat
    then Some (draw rnd pos k, (pos + CODE_LENGTH * S k)%nat)
    else None.
Proof.
  induction k as [|k IH]; intros pos Hbad Hgood [|fuel]; try reflexivity;
    cbn [generateAlphanumericCode].
  - unfold accepted, draw in Hgood |- *.
    rewrite Nat.mul_0_r, Nat.add_0_r in Hgood |- *.
    apply andb_prop in Hgood as [-> ->]. cbn [negb orb].
    change (0 <? S fuel)%nat with true. reflexivity.
  - assert (H0 := Hbad 0%nat ltac:(lia)). unfold accepted, draw in H0.
    rewrite Nat.mul_0_r, Nat.add_0_r in H0.
    replace (negb _ || negb _) with true
      by (symmetry; destruct (hasLetters _), (hasNumbers _); simpl in *; congruence).
    change (S k <? S fuel)%nat with (k <? fuel)%nat.
    rewrite (IH (pos + CODE_LENGTH)%nat).
    + unfold draw.
      replace (pos + CODE_LENGTH + CODE_LENGTH * k)%nat
        with (pos + CODE_LENGTH * S k)%nat by lia.
      replace (pos + CODE_LENGTH + CODE_LENGTH * S k)%nat
        with (pos + CODE_LENGTH * S (S k))%nat by lia.
      reflexivity.
    + intros j Hj. specialize (Hbad (S j) ltac:(lia)). unfold draw in *.
      now replace (pos + CODE_LENGTH + CODE_LENGTH * j)%nat
        with (pos + CODE_LENGTH * S j)%nat by lia.
    + unfold draw in *.
      now replace (pos + CODE_LENGTH + CODE_LENGTH * k)%nat
        with (pos + CODE_LENGTH * S k)%nat by lia.
Qed.

Lemma allA_never_returns (fuel pos : nat) :
  generateAlphanumericCode fuel allA pos = None.
Proof. revert pos; induction fuel as [|fuel IH]; intros pos; [reflexivity | apply IH]. Qed.

Lemma draw_shift (rnd : Random) (pos j : nat) :
  draw rnd (pos + CODE_LENGTH) j = draw rnd pos (S j).
Proof.
  unfold draw. f_equal. lia.
Qed.

(** The generator raises exactly when every draw within the depth is
    rejected. *)
Lemma generateAlphanumericCode_None (rnd : Random) (fuel : nat) :
  forall pos,
  generateAlphanumericCode fuel rnd pos = None <-> overflows fuel rnd pos.
Proof.
  unfold overflows.
  induction fuel as [|fuel IH]; intros pos; cbn [generateAlphanumericCode].
  - split; [intros _ j Hj; lia | reflexivity].
  - assert (H0 : draw rnd pos 0 = fill rnd pos CODE_LENGTH EmptyString).
    { unfold draw. now rewrite Nat.mul_0_r, Nat.add_0_r. }
    rewrite <- H0.
    assert (Hacc : accepted (draw rnd pos 0)
                   = negb (negb (hasLetters (draw rnd pos 0))
                           || negb (hasNumbers (draw rnd pos 0)))).
    { unfold accepted. now destruct (hasLetters _), (hasNumbers _). }
    destruct (negb (hasLetters (draw rnd pos 0)) || negb (hasNumbers (draw rnd pos 0)))
      eqn:Hrej; cbn [negb] in Hacc.
    + rewrite IH. split.
      * intros H [|j] Hj; [exact Hacc |].
        rewrite <- draw_shift. apply H. lia.
      * intros H j Hj. rewrite draw_shift. apply H. lia.
    + split; [discriminate |].
      intros H. specialize (H 0%nat ltac:(lia)). congruence.
Qed.

Lemma productive_returns (fuel : nat) (rnd : Random) :
  productive fuel rnd -> forall p, is_Some (generateAlphanumericCode fuel rnd p).
Proof.
  intros Hprod p.
  destruct (generateAlphanumericCode fuel rnd p) as [res|] eqn:Hgen; [eauto |].
  apply generateAlphanumericCode_None in Hgen.
  destruct (Hprod p) as (j & Hj & Hacc). rewrite (Hgen j Hj) in Hacc. discriminate.
Qed.

End Generator.

(** ** Termination of the generator (claim C3) *)
Section GeneratorTermination.
Import Js Config CodeGen Props.

Lemma a0_inRange : inRange a0.
Proof. intros k. unfold a0. destruct (Nat.even k); simpl; lia. Qed.

Lemma allA_inRange : inRange allA.
Proof. intros k. unfold allA. simpl. lia. Qed.

Lemma a0_SS (k : nat) : a0 (S (S k)) = a0 k.
Proof. reflexivity. Qed.

Lemma a0_cases (k : nat) :
  (a0 k = 0%nat /\ a0 (S k) = 26%nat) \/ (a0 k = 26%nat /\ a0 (S k) = 0%nat).
Proof.
  unfold a0. rewrite Nat.even_succ. unfold Nat.odd.
  destruct (Nat.even k); auto.
Qed.

(** On the source [a0] every draw is accepted, wherever it starts. *)
Lemma a0_accepted (pos j : nat) : accepted (draw a0 pos j) = true.
Proof.
  unfold draw, CODE_LENGTH. generalize (pos + 8 * j)%nat. intros p.
  cbn [fill]. rewrite !a0_SS.
  destruct (a0_cases p) as [[-> ->] | [-> ->]]; reflexivity.
Qed.

Lemma a0_productive (fuel : nat) : (0 < fuel)%nat -> productive fuel a0.
Proof. intros Hfuel pos. exists 0%nat. split; [exact Hfuel | apply a0_accepted]. Qed.

(** C3, as the code has it: [generateAlphanumericCode] returns at the
    first draw that holds a letter and a digit, and only there.  When
    [k] draws are rejected before it, the call that returns is the
    [k+1]-th: a recursion depth above [k] yields that draw, and no depth
    up to [k] yields anything.  The function has no retry cap and no
    timestamp fallback of its own. *)
Theorem generateAlphanumericCode_returns_at_first_accepted_draw
  (rnd : Random) (pos k : nat)
  (Hrejected : forall j, (j < k)%nat -> accepted (draw rnd pos j) = false)
  (Haccepted : accepted (draw rnd pos k) = true) :
  (forall fuel, (k < fuel)%nat ->
     generateAlphanumericCode fuel rnd pos
     = Some (draw rnd pos k, (pos + CODE_LENGTH * S k)%nat))
  /\ (forall fuel, (fuel <= k)%nat ->
        generateAlphanumericCode fuel rnd pos = None).
Proof.
  split; intros fuel Hfuel;
    rewrite (generateAlphanumericCode_first rnd k pos Hrejected Haccepted fuel).
  - now apply Nat.ltb_lt in Hfuel as ->.
  - now apply Nat.ltb_ge in Hfuel as ->.
Qed.

Lemma generateAlphanumericCode_returns_at_first_accepted_draw_witness :
  generateAlphanumericCode 2 aThenA0 0 = Some ("A0A0A0A0", 16%nat)
  /\ generateAlphanumericCode 1 aThenA0 0 = None.
Proof.
  assert (Hrejected : forall j, (j < 1)%nat -> accepted (draw aThenA0 0 j) = false).
  { intros j Hj. assert (j = 0%nat) as -> by lia. reflexivity. }
  assert (Haccepted : accepted (draw aThenA0 0 1) = true) by reflexivity.
  destruct (generateAlphanumericCode_returns_at_first_accepted_draw
              aThenA0 0 1 Hrejected Haccepted) as [Hret Hnot].
  split; [apply (Hret 2%nat); lia | apply (Hnot 1%nat); lia].
Defined.

(** C3, as the spec words it, fails: no number of attempts bounds every
    run.  On the random source that always answers index 0 every draw
    is ["AAAAAAAA"], which has no digit, and no recursion depth makes
    the generator return. *)
Lemma generateAlphanumericCode_has_no_retry_cap :
  draw allA 0 0 = "AAAAAAAA"
  /\ (forall depth, generateAlphanumericCode depth allA 0 = None)
  /\ ~ (exists bound, forall rnd, inRange rnd ->
          exists c pos', generateAlphanumericCode bound rnd 0 = Some (c, pos')).
Proof.
  split; [reflexivity |]. split; [intros depth; apply allA_never_returns |].
  intros [bound H]. destruct (H allA allA_inRange) as (c & pos' & Hc).
  rewrite allA_never_returns in Hc. discriminate.
Qed.

End GeneratorTermination.

(** ** The collision loop of [part_000] *)
Section CollisionLoop.
Import Js Config CodeGen Store Props.

Lemma has_true (c : string) (m : gmap string Session) :
  has c m = true <-> is_Some (m !! c).
Proof.
  unfold has. destruct (m !! c); split; intros H; try reflexivity; eauto.
  - discriminate.
  - now destruct H.
Qed.

Lemma has_false (c : string) (m : gmap string Session) :
  has c m = false <-> m !! c = None.
Proof. unfold has. destruct (m !! c); split; congruence. Qed.

(** The loop ends with a code the generator returned; it counts one
    attempt per sample, and a result reached before the tenth attempt
    is not a key of the store. *)
Lemma sampleLoop_Some (fuel : nat) (rnd : Random) (m : gmap string Session)
  (k : nat) :
  forall (pos attempts : nat) (c : string) (pos' attempts' : nat),
  Part000.sampleLoop k fuel rnd m pos attempts = Some (c, pos', attempts') ->
  (exists p, generateAlphanumericCode fuel rnd p = Some (c, pos'))
  /\ (attempts < attempts' <= attempts + S k)%nat
  /\ ((attempts' < 10)%nat -> m !! c = None).
Proof.
  induction k as [|k IH]; intros pos attempts c pos' attempts';
    cbn [Part000.sampleLoop];
    destruct (generateAlphanumericCode fuel rnd pos) as [[c0 p0]|] eqn:Hgen;
    try discriminate;
    destruct (has c0 m && (S attempts <? 10)%nat) eqn:Hcont; try discriminate.
  - intros [= <- <- <-]. split; [eauto |]. split; [lia |].
    intros Hlt. apply has_false.
    apply andb_false_iff in Hcont as [H | H]; [exact H |].
    apply Nat.ltb_ge in H. lia.
  - intros H. destruct (IH _ _ _ _ _ H) as (Hp & Hle & Hfree).
    split; [exact Hp |]. split; [lia | exact Hfree].
  - intros [= <- <- <-]. split; [eauto |]. split; [lia |].
    intros Hlt. apply has_false.
    apply andb_false_iff in Hcont as [H | H]; [exact H |].
    apply Nat.ltb_ge in H. lia.
Qed.

(** The cap: when every call of the generator returns, the loop started
    at [attempts = 0] ends, whatever the store holds, and it ends
    within ten attempts. *)
Lemma sampleLoop_total (fuel : nat) (rnd : Random) (m : gmap string Session)
  (Hgen : forall p, is_Some (generateAlphanumericCode fuel rnd p)) (k : nat) :
  forall (pos attempts : nat), (9 <= attempts + k)%nat ->
  is_Some (Part000.sampleLoop k fuel rnd m pos attempts).
Proof.
  induction k as [|k IH]; intros pos attempts Hk; cbn [Part000.sampleLoop];
    destruct (Hgen pos) as [[c0 p0] ->];
    destruct (has c0 m && (S attempts <? 10)%nat) eqn:Hcont; eauto.
  - apply andb_prop in Hcont as [_ H]. apply Nat.ltb_lt in H. lia.
  - apply IH. lia.
Qed.

Lemma sampleLoop_capped (fuel : nat) (rnd : Random) (m : gmap string Session)
  (pos : nat) (c : string) (pos' attempts : nat) :
  Part000.sampleLoop 9 fuel rnd m pos 0 = Some (c, pos', attempts) ->
  (1 <= attempts <= 10)%nat.
Proof. intros H. apply sampleLoop_Some in H as (_ & H & _). lia. Qed.

(** The two shapes of a code chosen by [part_000]. *)
Lemma chooseCode_Some (fuel : nat) (rnd : Random) (now : Z)
  (m : gmap string Session) (pos : nat) (c : string) (pos' : nat) :
  Part000.chooseCode fuel rnd now m pos = Some (c, pos') ->
  exists c0 p0 attempts,
    Part000.sampleLoop 9 fuel rnd m pos 0 = Some (c0, p0, attempts)
    /\ (if (attempts <? 10)%nat
        then c = c0 /\ pos' = p0 /\ m !! c = None
        else exists c1, generateAlphanumericCode fuel rnd p0 = Some (c1, pos')
                        /\ c = c1 +:+ "_" +:+ slice_last 4 (toString now)).
Proof.
  unfold Part000.chooseCode.
  destruct (Part000.sampleLoop 9 fuel rnd m pos 0) as [[[c0 p0] attempts]|] eqn:Hloop;
    [| discriminate].
  intros H. exists c0, p0, attempts. split; [reflexivity |].
  destruct (sampleLoop_Some _ _ _ _ _ _ _ _ _ Hloop) as (_ & _ & Hfree).
  rewrite Nat.leb_antisym in H.
  destruct (attempts <? 10)%nat eqn:Hlt; cbn [negb] in H.
  - injection H as <- <-. apply Nat.ltb_lt in Hlt. auto.
  - destruct (generateAlphanumericCode fuel rnd p0) as [[c1 p1]|]; [| discriminate].
    injection H as <- <-. eauto.
Qed.

End CollisionLoop.

(** ** Shape of the issued codes (claim C4) *)
Section IssuedCodeShape.
Import Js Config CodeGen Store Props.

(** C4, as the code has it: a code issued without the collision
    fallback (always in [server.js]; in [part_000] when the loop stopped
    before its tenth attempt) has exactly eight characters of A–Z0–9,
    a letter and a digit among them.  Once [part_000] reaches ten
    attempts the issued code is such a code followed by ['_'] and the
    last four digits of [Date.now()]. *)
Theorem issued_code_shape (fuel : nat) (rnd : Random) (now : Z) (hex : string)
  (phone : option string) (st : State) (Hrnd : inRange rnd) :
  (forall r st',
      Server.generateNewPairingCode fuel rnd now hex phone st = Some (r, st') ->
      wellFormed (code_of r))
  /\ (forall r st',
        Part000.generateNewPairingCode fuel rnd now hex phone st = Some (r, st') ->
        exists c0 p0 attempts,
          Part000.sampleLoop 9 fuel rnd (pairingCodes st) (randomPos st) 0
          = Some (c0, p0, attempts)
          /\ if (attempts <? 10)%nat
             then code_of r = c0 /\ wellFormed (code_of r)
             else exists c1, wellFormed c1
                  /\ code_of r = c1 +:+ "_" +:+ slice_last 4 (toString now)).
Proof.
  split; intros r st'.
  - unfold Server.generateNewPairingCode.
    destruct (generateAlphanumericCode fuel rnd (randomPos st)) as [[c pos]|] eqn:Hgen;
      [| discriminate].
    intros [= <- _]. cbn [code_of].
    eapply generateAlphanumericCode_wellFormed; eassumption.
  - unfold Part000.generateNewPairingCode.
    destruct (Part000.chooseCode fuel rnd now (pairingCodes st) (randomPos st))
      as [[c pos]|] eqn:Hchoose; [| discriminate].
    intros [= <- _]. cbn [code_of].
    destruct (chooseCode_Some _ _ _ _ _ _ _ Hchoose) as (c0 & p0 & attempts & Hloop & Hshape).
    exists c0, p0, attempts. split; [exact Hloop |].
    destruct (attempts <? 10)%nat.
    + destruct Hshape as (-> & _ & _). split; [reflexivity |].
      destruct (sampleLoop_Some _ _ _ _ _ _ _ _ _ Hloop) as ((p & Hp) & _ & _).
      eapply generateAlphanumericCode_wellFormed; eassumption.
    + destruct Hshape as (c1 & Hgen & ->). exists c1. split; [| reflexivity].
      eapply generateAlphanumericCode_wellFormed; eassumption.
Qed.

Lemma issued_code_shape_witness :
  issuedCode (Server.generateNewPairingCode 1 a0 1700000000000 "A1B2C3" None initial)
  = Some "A0A0A0A0"
  /\ wellFormed "A0A0A0A0".
Proof.
  split; [reflexivity |].
  destruct (issued_code_shape 1 a0 1700000000000 "A1B2C3" None initial a0_inRange)
    as [Hserver _].
  destruct (Server.generateNewPairingCode 1 a0 1700000000000 "A1B2C3" None initial)
    as [[r st']|] eqn:Hrun; [| discriminate].
  assert (Hcode : code_of r = "A0A0A0A0") by (injection Hrun as <- _; reflexivity).
  rewrite <- Hcode. exact (Hserver r st' eq_refl).
Defined.

(** C4, as the spec words it, fails on the fallback path of [part_000]:
    with the code ["A0A0A0A0"] taken and a random source that keeps
    drawing it, the tenth attempt is reached and the issued code is
    ["A0A0A0A0_1234"], thirteen characters with an underscore. *)
Lemma fallback_code_is_not_well_formed :
  issuedCode (Part000.generateNewPairingCode 1 a0 1700000001234 "A1B2C3" None taken)
  = Some "A0A0A0A0_1234"
  /\ ~ wellFormed "A0A0A0A0_1234".
Proof.
  split; [vm_compute; reflexivity |].
  intros (Hlen & _). vm_compute in Hlen. discriminate.
Qed.

End IssuedCodeShape.

(** ** One session per code, and the codes of successive creates (claim C1) *)
Section CodeUniqueness.
Import Js Config CodeGen Store Props.

(** The store is keyed by code: whatever is created, a code names at
    most one session. *)
Lemma one_session_per_code (m : gmap string Session) (c : string)
  (d1 d2 : Session) :
  m !! c = Some d1 -> m !! c = Some d2 -> d1 = d2.
Proof. congruence. Qed.

(** [part_000]: a code issued before the tenth attempt was not a key of
    the store, so the new session replaces none. *)
Lemma part000_code_is_fresh_before_fallback (fuel : nat) (rnd : Random)
  (now : Z) (hex : string) (phone : option string) (st : State)
  (r : Issued) (st' : State) (c0 : string) (p0 attempts : nat) :
  Part000.generateNewPairingCode fuel rnd now hex phone st = Some (r, st') ->
  Part000.sampleLoop 9 fuel rnd (pairingCodes st) (randomPos st) 0
  = Some (c0, p0, attempts) ->
  (attempts < 10)%nat ->
  pairingCodes st !! code_of r = None
  /\ (forall c, c <> code_of r -> pairingCodes st' !! c = pairingCodes st !! c).
Proof.
  unfold Part000.generateNewPairingCode.
  destruct (Part000.chooseCode fuel rnd now (pairingCodes st) (randomPos st))
    as [[c pos]|] eqn:Hchoose; [| discriminate].
  intros [= <- <-] Hloop Hlt. cbn [code_of].
  destruct (chooseCode_Some _ _ _ _ _ _ _ Hchoose) as (c0' & p0' & a' & Hloop' & Hshape).
  rewrite Hloop in Hloop'. injection Hloop' as <- <- <-.
  apply Nat.ltb_lt in Hlt. rewrite Hlt in Hshape. destruct Hshape as (-> & _ & Hfree).
  split; [exact Hfree |].
  intros c' Hne. cbn. now rewrite lookup_insert_ne.
Qed.

(** C1 at its failing input in [server.js]: two creates for different
    phone numbers whose eight random draws coincide.  Both answers carry
    the code ["A0A0A0A0"]; the second session is stored under the key of
    the first, which is lost, and one record remains. *)
Theorem server_issues_the_same_code_twice :
  exists r1 s1 r2 s2,
    Server.generateNewPairingCode 1 a0 1700000000000 "A1B2C3"
      (Some "+254711111111") (withCodes ∅ online) = Some (r1, s1)
    /\ Server.generateNewPairingCode 1 a0 1700000001000 "D4E5F6"
         (Some "+254722222222") s1 = Some (r2, s2)
    /\ code_of r1 = "A0A0A0A0" /\ code_of r2 = "A0A0A0A0"
    /\ sessionId_of r1 <> sessionId_of r2
    /\ phoneNumber <$> pairingCodes s1 !! "A0A0A0A0" = Some (Some "+254711111111")
    /\ phoneNumber <$> pairingCodes s2 !! "A0A0A0A0" = Some (Some "+254722222222")
    /\ size (pairingCodes s2) = 1%nat.
Proof.
  do 4 eexists.
  split; [reflexivity |]. split; [reflexivity |].
  repeat split; try (vm_compute; reflexivity).
  vm_compute. discriminate.
Qed.

(** The fallback of [part_000] is not checked against the store either:
    two creates that both reach the tenth attempt in the same
    millisecond are issued the same suffixed code. *)
Lemma part000_fallback_issues_the_same_code_twice :
  exists r1 s1 r2 s2,
    Part000.generateNewPairingCode 1 a0 1700000001234 "A1B2C3"
      (Some "+254711111111") taken = Some (r1, s1)
    /\ Part000.generateNewPairingCode 1 a0 1700000001234 "D4E5F6"
         (Some "+254722222222") s1 = Some (r2, s2)
    /\ code_of r1 = "A0A0A0A0_1234" /\ code_of r2 = "A0A0A0A0_1234"
    /\ size (pairingCodes s2) = 2%nat.
Proof.
  do 4 eexists.
  split; [reflexivity |]. split; [reflexivity |].
  repeat split; vm_compute; reflexivity.
Qed.

End CodeUniqueness.

(** ** The bulk transition on connection-open (claim C7) *)
Section Reconciler.
Import Js Config CodeGen Store Props.


Lemma part000_linkIfPending_status (now : Z) (user : option string) (d : Session) :
  status (Part000.linkIfPending now user d) = linked.
Proof. unfold Part000.linkIfPending. destruct (status d) eqn:E; cbn; auto. Qed.

Lemma server_linkIfPending_status (now : Z) (d : Session) :
  status (Server.linkIfPending now d) = linked.
Proof. unfold Server.linkIfPending. destruct (status d) eqn:E; cbn; auto. Qed.

Lemma part000_linkIfPending_linked (now : Z) (user : option string) (d : Session) :
  status d = linked -> Part000.linkIfPending now user d = d.
Proof. unfold Part000.linkIfPending. now intros ->. Qed.

Lemma server_linkIfPending_linked (now : Z) (d : Session) :
  status d = linked -> Server.linkIfPending now d = d.
Proof. unfold Server.linkIfPending. now intros ->. Qed.

Lemma part000_markPendingLinked_idem (now now' : Z) (user user' : option string)
  (m : gmap string Session) :
  Part000.markPendingLinked now' user' (Part000.markPendingLinked now user m)
  = Part000.markPendingLinked now user m.
Proof.
  unfold Part000.markPendingLinked. rewrite <- map_fmap_compose.
  apply map_fmap_ext. intros c d _. cbn.
  apply part000_linkIfPending_linked, part000_linkIfPending_status.
Qed.

Lemma server_markPendingLinked_idem (now now' : Z) (m : gmap string Session) :
  Server.markPendingLinked now' (Server.markPendingLinked now m)
  = Server.markPendingLinked now m.
Proof.
  unfold Server.markPendingLinked. rewrite <- map_fmap_compose.
  apply map_fmap_ext. intros c d _. cbn.
  apply server_linkIfPending_linked, server_linkIfPending_status.
Qed.



End Reconciler.

Section ReconcilerClaim.
Import Js Config CodeGen Store Props.

(** The [open] branch in both servers: it sets the state to online and
    turns exactly the sessions that are pending into linked ones,
    stamping [linkedAt]; [part_000] also stamps [linkedTo] with the
    account id, [server.js] leaves [linkedTo] as it was.  A session that
    is already linked is left as it is, no session is added or removed,
    and a second [open] changes nothing, so every [linkedAt] is that of
    the first call. *)
Theorem open_links_exactly_the_pending_sessions (now : Z) (u : Update)
  (st : State) (Hopen : connection u = Some conn_open) :
  let part := Part000.onOpen now u st in
  let serv := Server.onOpen now u st in
  (botStatus part = online /\ botStatus serv = online)
  /\ (forall c d, pairingCodes st !! c = Some d -> status d = pending ->
        exists d1 d2,
          pairingCodes part !! c = Some d1 /\ pairingCodes serv !! c = Some d2
          /\ status d1 = linked /\ linkedAt d1 = Some now /\ linkedTo d1 = userId u
          /\ status d2 = linked /\ linkedAt d2 = Some now /\ linkedTo d2 = linkedTo d
          /\ sessionId d1 = sessionId d /\ sessionId d2 = sessionId d
          /\ expiresAt d1 = expiresAt d /\ expiresAt d2 = expiresAt d)
  /\ (forall c d, pairingCodes st !! c = Some d -> status d = linked ->
        pairingCodes part !! c = Some d /\ pairingCodes serv !! c = Some d)
  /\ (forall c, pairingCodes st !! c = None ->
        pairingCodes part !! c = None /\ pairingCodes serv !! c = None)
  /\ (forall now' u', connection u' = Some conn_open ->
        Part000.onOpen now' u' part = part /\ Server.onOpen now' u' serv = serv).
Proof.
  cbv zeta. unfold Part000.onOpen, Server.onOpen. rewrite Hopen.
  split; [split; reflexivity |].
  split; [| split; [| split]].
  - intros c d Hc Hd. cbn.
    unfold Part000.markPendingLinked, Server.markPendingLinked.
    rewrite !lookup_fmap, Hc. cbn.
    unfold Part000.linkIfPending, Server.linkIfPending. rewrite Hd. cbn.
    do 2 eexists. repeat split.
  - intros c d Hc Hd. cbn.
    unfold Part000.markPendingLinked, Server.markPendingLinked.
    rewrite !lookup_fmap, Hc. cbn.
    now rewrite part000_linkIfPending_linked, server_linkIfPending_linked.
  - intros c Hc. cbn.
    unfold Part000.markPendingLinked, Server.markPendingLinked.
    now rewrite !lookup_fmap, Hc.
  - intros now' u' ->. destruct st.
    unfold set_pairingCodes, set_botStatus.
    cbn [pairingCodes botStatus currentQR qrImageDataUrl lastGeneratedCode
         timers authFiles randomPos].
    now rewrite part000_markPendingLinked_idem, server_markPendingLinked_idem.
Qed.

Lemma open_links_exactly_the_pending_sessions_witness :
  linkedAt <$> pairingCodes (Part000.onOpen 5000 openEvent threePendingOneLinked)
               !! "MN34OP56" = Some (Some 1000%Z)
  /\ linkedAt <$> pairingCodes (Part000.onOpen 5000 openEvent threePendingOneLinked)
                  !! "AB12CD34" = Some (Some 5000%Z)
  /\ Part000.onOpen 6000 openEvent (Part000.onOpen 5000 openEvent threePendingOneLinked)
     = Part000.onOpen 5000 openEvent threePendingOneLinked.
Proof.
  destruct (open_links_exactly_the_pending_sessions 5000 openEvent
              threePendingOneLinked eq_refl) as (_ & Hlink & Hkeep & _ & Hidem).
  split; [| split].
  - destruct (Hkeep "MN34OP56" (sessionOf "MN34OP56" linked 1700000600003 (Some 1000%Z))
                eq_refl eq_refl) as [-> _].
    reflexivity.
  - destruct (Hlink "AB12CD34" (sessionOf "AB12CD34" pending 1700000600000 None)
                eq_refl eq_refl) as (d1 & _ & -> & _ & _ & Hat & _).
    cbn. now rewrite Hat.
  - apply (Hidem 6000%Z openEvent eq_refl).
Defined.

(** C7 at its failing input in [server.js]: a QR event creates the
    sample session of code ["A0A0A0A0"], and two seconds later the
    connection opens for the account 254700000000:1@s.whatsapp.net.
    The [open] branch links the session and stamps [linkedAt], but its
    [linkedTo], a field that every session is created with, stays
    [null].  In [part_000] the same [open] event, met by the pending
    session of a code request, stamps [linkedTo] with the account id. *)
Theorem server_open_does_not_stamp_linkedTo :
  (exists cs st',
      Server.run 1 a0 (firstn 2 Invariants.sampleServerRun) initial = Some (cs, st')
      /\ (fun d => (status d, linkedAt d, linkedTo d))
           <$> pairingCodes st' !! "A0A0A0A0"
         = Some (linked, Some 1700000002000%Z, None))
  /\ (exists cs st',
        Part000.run 1 a0 (firstn 3 Invariants.sampleRun) initial = Some (cs, st')
        /\ (fun d => (status d, linkedAt d, linkedTo d))
             <$> pairingCodes st' !! "A0A0A0A0"
           = Some (linked, Some 1700000002000%Z,
                   Some "254700000000:1@s.whatsapp.net")).
Proof.
  split; do 2 eexists; (split; [vm_compute; reflexivity |]); vm_compute; reflexivity.
Qed.

(** [server.js] assigns [linkedTo] nowhere: a session whose [linkedTo]
    is [null], as that of every created session is, keeps it so through
    the [open] branch, whatever the update carries. *)
Lemma server_open_keeps_linkedTo (now : Z) (u : Update) (st : State) (c : string)
  (d' : Session) :
  pairingCodes (Server.onOpen now u st) !! c = Some d' ->
  exists d, pairingCodes st !! c = Some d /\ linkedTo d' = linkedTo d.
Proof.
  unfold Server.onOpen. destruct (connection u) as [[| |]|]; eauto.
  cbn. unfold Server.markPendingLinked. rewrite lookup_fmap.
  destruct (pairingCodes st !! c) as [d|]; [| discriminate].
  cbn. intros [= <-]. exists d. split; [reflexivity |].
  unfold Server.linkIfPending. now destruct (is_pending (status d)).
Qed.

End ReconcilerClaim.

(** ** The expiry callback *)
Section Expiry.
Import Js Config CodeGen Store Props.



Lemma expire_absent (c : string) (m : gmap string Session) :
  m !! c = None -> expire c m = m.
Proof. unfold expire. now intros ->. Qed.

Lemma expire_other (c c' : string) (m : gmap string Session) :
  c' <> c -> expire c m !! c' = m !! c'.
Proof.
  intros Hne. unfold expire. destruct (m !! c) as [d|]; [| reflexivity].
  destruct (is_pending (status d)); [| reflexivity].
  now apply lookup_delete_ne.
Qed.



End Expiry.

(** ** Close events (claim C5) *)
Section CloseEvents.
Import Js Config CodeGen Store Props.

Lemma unlinkJson_no_json (files : list string) (f : string) :
  In f (Server.unlinkJson files) -> endsWith ".json" f = false /\ In f files.
Proof.
  unfold Server.unlinkJson. rewrite filter_In. intros [Hin Hf].
  split; [| exact Hin]. now destruct (endsWith ".json" f).
Qed.

Lemma unlinkJson_keeps_others (files : list string) (f : string) :
  In f files -> endsWith ".json" f = false -> In f (Server.unlinkJson files).
Proof.
  unfold Server.unlinkJson. rewrite filter_In. intros Hin ->. now split.
Qed.

(** C5, as the code has it.  On a close event with the logged-out
    reason (status code 401) the stored credentials are cleared and the
    connection state is left as it was: no variant sets it to
    disconnected.  [server.js] then schedules nothing, while [part_000]
    schedules [initWhatsApp] after 3 s.  On every other reason, a
    missing one included, a reconnect is scheduled, after 5 s in
    [server.js] and 10 s in [part_000], the credentials are kept, and
    [part_000] sets the state to reconnecting.  The sessions are not
    touched. *)
Theorem close_event_handling (fuel : nat) (rnd : Random) (now : Z) (hex : string)
  (u : Update) (st : State)
  (Hclose : connection u = Some conn_close) (Hqr : truthy (qr u) = false) :
  exists serv,
    Server.onConnectionUpdate fuel rnd now hex u st = Some serv
    /\ let part := Part000.onConnectionUpdate now u st in
       pairingCodes serv = pairingCodes st /\ pairingCodes part = pairingCodes st
       /\ (statusCode u = Some 401%Z ->
             (forall f, In f (authFiles serv) <->
                        In f (authFiles st) /\ endsWith ".json" f = false)
             /\ authFiles part = []
             /\ timers serv = timers st
             /\ timers part
                = (timers st ++ [{| fireAt := now + 3000; callback := InitWhatsApp |}])%list
             /\ botStatus serv = botStatus st /\ botStatus part = botStatus st)
       /\ (statusCode u <> Some 401%Z ->
             timers serv
             = (timers st ++ [{| fireAt := now + 5000; callback := InitWhatsApp |}])%list
             /\ timers part
                = (timers st ++ [{| fireAt := now + 10000; callback := InitWhatsApp |}])%list
             /\ botStatus part = reconnecting
             /\ authFiles serv = authFiles st /\ authFiles part = authFiles st).
Proof.
  unfold Server.onConnectionUpdate, Part000.onConnectionUpdate,
    Server.onQR, Part000.onQR, Server.onOpen, Part000.onOpen,
    Server.onClose, Part000.onClose.
  rewrite Hqr, Hclose. eexists. split; [reflexivity |]. cbv zeta.
  unfold Server.DisconnectReason_loggedOut.
  destruct (bool_decide (statusCode u = Some 401%Z)) eqn:Hcode.
  - apply bool_decide_eq_true in Hcode. cbn.
    split; [reflexivity |]. split; [reflexivity |]. split; [| congruence].
    intros _. split; [| repeat split; reflexivity].
    intros f. split.
    + intros Hin. apply unlinkJson_no_json in Hin. tauto.
    + intros [Hin Hf]. now apply unlinkJson_keeps_others.
  - apply bool_decide_eq_false in Hcode. cbn.
    split; [reflexivity |]. split; [reflexivity |]. split; [congruence |].
    intros _. repeat split; reflexivity.
Qed.

Lemma close_event_handling_witness :
  authFiles (Part000.onConnectionUpdate 0 (closeEvent (Some 401%Z)) loggedIn) = []
  /\ timers (Part000.onConnectionUpdate 0 (closeEvent (Some 408%Z)) loggedIn)
     = [{| fireAt := 10000; callback := InitWhatsApp |}].
Proof.
  split.
  - destruct (close_event_handling 1 a0 0 "A1B2C3" (closeEvent (Some 401%Z)) loggedIn
                eq_refl eq_refl) as (serv & _ & _ & _ & Hout & _).
    destruct (Hout eq_refl) as (_ & Hfiles & _). exact Hfiles.
  - destruct (close_event_handling 1 a0 0 "A1B2C3" (closeEvent (Some 408%Z)) loggedIn
                eq_refl eq_refl) as (serv & _ & _ & _ & _ & Hother).
    destruct (Hother ltac:(discriminate)) as (_ & Htimers & _). exact Htimers.
Defined.

(** C5, as the spec words it, fails on the logged-out reason: from the
    online state both servers stay online instead of becoming
    disconnected, and [part_000] does schedule a restart.  The
    credentials are cleared in both. *)
Lemma logged_out_close_leaves_state_online :
  (fun s => (botStatus s, authFiles s, timers s))
    <$> Server.onConnectionUpdate 1 a0 0 "A1B2C3" (closeEvent (Some 401%Z)) loggedIn
  = Some (online, [], [])
  /\ (fun s => (botStatus s, authFiles s, timers s))
       (Part000.onConnectionUpdate 0 (closeEvent (Some 401%Z)) loggedIn)
     = (online, [], [{| fireAt := 3000; callback := InitWhatsApp |}]).
Proof. split; reflexivity. Qed.

End CloseEvents.

(** ** [POST /generate-code] (claim C8) *)
Section RequestCode.
Import Js Config CodeGen Store Props.

Lemma format_check (phone : option string) :
  negb (truthy phone) || negb (nine_digits (default EmptyString phone))
  = negb (validPhone phone).
Proof. destruct phone as [[|a s]|]; reflexivity. Qed.

Lemma chooseCode_total (fuel : nat) (rnd : Random) (now : Z)
  (m : gmap string Session) (pos : nat) :
  (forall p, is_Some (generateAlphanumericCode fuel rnd p)) ->
  is_Some (Part000.chooseCode fuel rnd now m pos).
Proof.
  intros Hgen. unfold Part000.chooseCode.
  destruct (sampleLoop_total fuel rnd m Hgen 9 pos 0 ltac:(lia))
    as [[[c p] attempts] ->].
  destruct (10 <=? attempts)%nat; [| eauto].
  destruct (Hgen p) as [[c' p'] ->]. eauto.
Qed.

Lemma part000_create_total (fuel : nat) (rnd : Random) (now : Z) (hex : string)
  (phone : option string) (st : State) :
  (forall p, is_Some (generateAlphanumericCode fuel rnd p)) ->
  is_Some (Part000.generateNewPairingCode fuel rnd now hex phone st).
Proof.
  intros Hgen. unfold Part000.generateNewPairingCode.
  destruct (chooseCode_total fuel rnd now (pairingCodes st) (randomPos st) Hgen)
    as [[c p] ->].
  eauto.
Qed.

Lemma server_create_total (fuel : nat) (rnd : Random) (now : Z) (hex : string)
  (phone : option string) (st : State) :
  (forall p, is_Some (generateAlphanumericCode fuel rnd p)) ->
  is_Some (Server.generateNewPairingCode fuel rnd now hex phone st).
Proof.
  intros Hgen. unfold Server.generateNewPairingCode.
  destruct (Hgen (randomPos st)) as [[c p] ->]. eauto.
Qed.

Lemma chooseCode_overflows (fuel : nat) (rnd : Random) (now : Z)
  (m : gmap string Session) (pos : nat) :
  overflows fuel rnd pos -> Part000.chooseCode fuel rnd now m pos = None.
Proof.
  intros H. apply generateAlphanumericCode_None in H.
  unfold Part000.chooseCode. cbn [Part000.sampleLoop]. now rewrite H.
Qed.

Lemma chooseCode_productive (fuel : nat) (rnd : Random) (now : Z)
  (m : gmap string Session) (pos : nat) :
  productive fuel rnd -> Part000.chooseCode fuel rnd now m pos <> None.
Proof.
  intros H.
  destruct (chooseCode_total fuel rnd now m pos (productive_returns fuel rnd H))
    as [res ->].
  discriminate.
Qed.

(** [throwPos] follows the loop: where the loop ends it points behind
    the fallback's call, and where a call of the loop raises it is the
    position that call had reached. *)
Lemma throwPos_sampleLoop (fuel : nat) (rnd : Random) (m : gmap string Session)
  (k : nat) :
  forall (pos attempts : nat), (9 <= attempts + k)%nat ->
  match Part000.sampleLoop k fuel rnd m pos attempts with
  | Some (_, p0, _) => Part000.throwPos k fuel rnd m pos attempts = thrownAt fuel p0
  | None =>
      exists p, Part000.throwPos k fuel rnd m pos attempts = thrownAt fuel p
                /\ overflows fuel rnd p
  end.
Proof.
  induction k as [|k IH]; intros pos attempts Hk;
    cbn [Part000.sampleLoop Part000.throwPos];
    destruct (generateAlphanumericCode fuel rnd pos) as [[c0 p0]|] eqn:Hgen;
    try (exists pos; split; [reflexivity | now apply generateAlphanumericCode_None]);
    destruct (has c0 m && (S attempts <? 10)%nat) eqn:Hcont; try reflexivity.
  - apply andb_prop in Hcont as [_ H]. apply Nat.ltb_lt in H. lia.
  - apply IH. lia.
Qed.

(** When [generateNewPairingCode] of [part_000] raises, one call of the
    generator overflowed, and [thrown] leaves the random source where
    that call had taken it. *)
Lemma part000_thrown_spec (fuel : nat) (rnd : Random) (now : Z) (st : State) :
  Part000.chooseCode fuel rnd now (pairingCodes st) (randomPos st) = None ->
  exists p, randomPos (Part000.thrown fuel rnd st) = thrownAt fuel p
            /\ overflows fuel rnd p.
Proof.
  unfold Part000.chooseCode, Part000.thrown. cbn [randomPos set_randomPos].
  pose proof (throwPos_sampleLoop fuel rnd (pairingCodes st) 9 (randomPos st) 0
                ltac:(lia)) as H.
  destruct (Part000.sampleLoop 9 fuel rnd (pairingCodes st) (randomPos st) 0)
    as [[[c0 p0] attempts]|]; [| intros _; exact H].
  destruct (10 <=? attempts)%nat; [| discriminate].
  destruct (generateAlphanumericCode fuel rnd p0) as [[c1 p1]|] eqn:Hgen;
    [discriminate |].
  intros _. exists p0. split; [exact H | now apply generateAlphanumericCode_None].
Qed.

Lemma set_randomPos_same (st : State) : set_randomPos (randomPos st) st = st.
Proof. now destruct st. Qed.

(** What a create leaves under the code it returns. *)
Lemma server_create_stores (fuel : nat) (rnd : Random) (now : Z) (hex : string)
  (phone : option string) (st : State) (r : Issued) (st' : State) :
  Server.generateNewPairingCode fuel rnd now hex phone st = Some (r, st') ->
  exists d, pairingCodes st' !! code_of r = Some d
            /\ sessionId d = sessionId_of r /\ expiresAt d = expiresAt_of r
            /\ phoneNumber d = phone /\ status d = pending.
Proof.
  unfold Server.generateNewPairingCode.
  destruct (generateAlphanumericCode _ _ _) as [[c pos]|]; [| discriminate].
  intros [= <- <-]. cbn. eexists. split; [apply lookup_insert_eq |]. repeat split.
Qed.

Lemma part000_create_stores (fuel : nat) (rnd : Random) (now : Z) (hex : string)
  (phone : option string) (st : State) (r : Issued) (st' : State) :
  Part000.generateNewPairingCode fuel rnd now hex phone st = Some (r, st') ->
  exists d, pairingCodes st' !! code_of r = Some d
            /\ sessionId d = sessionId_of r /\ expiresAt d = expiresAt_of r
            /\ phoneNumber d = phone /\ status d = pending.
Proof.
  unfold Part000.generateNewPairingCode.
  destruct (Part000.chooseCode _ _ _ _ _) as [[c pos]|]; [| discriminate].
  intros [= <- <-]. cbn. eexists. split; [apply lookup_insert_eq |]. repeat split.
Qed.

Lemma server_create_None (fuel : nat) (rnd : Random) (now : Z) (hex : string)
  (phone : option string) (st : State) :
  Server.generateNewPairingCode fuel rnd now hex phone st = None
  <-> overflows fuel rnd (randomPos st).
Proof.
  rewrite <- generateAlphanumericCode_None. unfold Server.generateNewPairingCode.
  destruct (generateAlphanumericCode fuel rnd (randomPos st)) as [[c pos]|];
    split; congruence.
Qed.

Lemma part000_create_None (fuel : nat) (rnd : Random) (now : Z) (hex : string)
  (phone : option string) (st : State) :
  Part000.generateNewPairingCode fuel rnd now hex phone st = None
  <-> Part000.chooseCode fuel rnd now (pairingCodes st) (randomPos st) = None.
Proof.
  unfold Part000.generateNewPairingCode.
  destruct (Part000.chooseCode fuel rnd now (pairingCodes st) (randomPos st))
    as [[c pos]|]; split; congruence.
Qed.

(** The answer of [POST /generate-code] in [server.js]. *)
Lemma server_postGenerateCode_answer (fuel : nat) (rnd : Random) (now : Z)
  (hex : string) (phone : option string) (st : State) :
  let refused := negb (validPhone phone) || negb (ready (botStatus st)) in
  let full := "+254" +:+ default EmptyString phone in
  exists resp st',
    Server.postGenerateCode fuel rnd now hex phone st = Some (resp, st')
    /\ (is_rejected resp = true
        <-> refused = true \/ overflows fuel rnd (randomPos st))
    /\ (refused = true -> st' = st)
    /\ (is_rejected resp = true -> st' = set_randomPos (randomPos st') st)
    /\ (is_rejected resp = false ->
        exists r msg,
          Server.generateNewPairingCode fuel rnd now hex (Some full) st = Some (r, st')
          /\ resp = Success (code_of r) full (sessionId_of r) (expiresAt_of r) msg).
Proof.
  cbv zeta. unfold Server.postGenerateCode. rewrite format_check.
  destruct (validPhone phone); cbn [negb orb];
    [destruct (ready (botStatus st)); cbn [negb] |].
  - destruct (Server.generateNewPairingCode fuel rnd now hex _ st) as [[r s]|] eqn:Hc.
    + eexists _, _. split; [reflexivity |]. cbn [is_rejected].
      split; [| split; [discriminate | split; [discriminate | eauto]]].
      split; [discriminate |]. intros [H | H]; [discriminate |].
      apply (server_create_None fuel rnd now hex
               (Some ("+254" +:+ default EmptyString phone))) in H.
      congruence.
    + eexists _, _. split; [reflexivity |]. cbn [is_rejected].
      split; [| split; [discriminate | split; [reflexivity | discriminate]]].
      split; [| reflexivity]. intros _. right.
      now apply (server_create_None fuel rnd now hex
                   (Some ("+254" +:+ default EmptyString phone))).
  - eexists _, _. split; [reflexivity |]. cbn [is_rejected].
    split; [tauto |]. split; [reflexivity |].
    split; [intros _; symmetry; apply set_randomPos_same | discriminate].
  - eexists _, _. split; [reflexivity |]. cbn [is_rejected].
    split; [tauto |]. split; [reflexivity |].
    split; [intros _; symmetry; apply set_randomPos_same | discriminate].
Qed.

(** The answer of [POST /generate-code] in [part_000]. *)
Lemma part000_postGenerateCode_answer (fuel : nat) (rnd : Random) (now : Z)
  (hex : string) (phone : option string) (st : State) :
  let refused := negb (validPhone phone) || negb (ready (botStatus st)) in
  let full := "+254" +:+ default EmptyString phone in
  exists resp st',
    Part000.postGenerateCode fuel rnd now hex phone st = Some (resp, st')
    /\ (is_rejected resp = true
        <-> refused = true
            \/ Part000.chooseCode fuel rnd now (pairingCodes st) (randomPos st) = None)
    /\ (refused = true -> st' = st)
    /\ (is_rejected resp = true -> st' = set_randomPos (randomPos st') st)
    /\ (is_rejected resp = false ->
        exists r msg,
          Part000.generateNewPairingCode fuel rnd now hex (Some full) st = Some (r, st')
          /\ resp = Success (code_of r) full (sessionId_of r) (expiresAt_of r) msg).
Proof.
  cbv zeta. unfold Part000.postGenerateCode. rewrite format_check.
  destruct (validPhone phone); cbn [negb orb];
    [destruct (ready (botStatus st)); cbn [negb] |].
  - destruct (Part000.generateNewPairingCode fuel rnd now hex _ st) as [[r s]|] eqn:Hc.
    + eexists _, _. split; [reflexivity |]. cbn [is_rejected].
      split; [| split; [discriminate | split; [discriminate | eauto]]].
      split; [discriminate |]. intros [H | H]; [discriminate |].
      apply (part000_create_None fuel rnd now hex
               (Some ("+254" +:+ default EmptyString phone))) in H.
      congruence.
    + eexists _, _. split; [reflexivity |]. cbn [is_rejected].
      split; [| split; [discriminate | split; [reflexivity | discriminate]]].
      split; [| reflexivity]. intros _. right.
      now apply (part000_create_None fuel rnd now hex
                   (Some ("+254" +:+ default EmptyString phone))).
  - eexists _, _. split; [reflexivity |]. cbn [is_rejected].
    split; [tauto |]. split; [reflexivity |].
    split; [intros _; symmetry; apply set_randomPos_same | discriminate].
  - eexists _, _. split; [reflexivity |]. cbn [is_rejected].
    split; [tauto |]. split; [reflexivity |].
    split; [intros _; symmetry; apply set_randomPos_same | discriminate].
Qed.

(** C8, as the code has it.  With [refused] the failure of the format
    check or a connection state that is neither [qr_ready] nor
    [online], both servers answer every request, and the answer is a
    rejection exactly when [refused] holds or [generateNewPairingCode]
    raises, which the [catch] block of the route answers.  In
    [server.js] the create raises exactly when each of the first [fuel]
    draws lacks a letter or a digit; in [part_000] it raises when the
    choice of the code does, which is so when the first call of the
    generator overflows, is so only when some call of the generator
    overflows, and is not so when every run of the generator meets an
    accepted draw.  A request that is [refused] leaves the
    whole state as it was, and after every rejection the state differs
    at most in the position of the random source: no session is stored
    and no timer is set.  Every other answer carries the code, session
    id and expiry that [generateNewPairingCode] returned for
    ['+254' + phoneNumber], and the session stored under that code is
    pending and holds them. *)
Theorem postGenerateCode_rejects_exactly_malformed_unready_or_thrown
  (fuel : nat) (rnd : Random) (now : Z) (hex : string) (phone : option string)
  (st : State) :
  let refused := negb (validPhone phone) || negb (ready (botStatus st)) in
  let full := "+254" +:+ default EmptyString phone in
  let raises := Part000.chooseCode fuel rnd now (pairingCodes st) (randomPos st) = None in
  exists resp_s st_s resp_p st_p,
    Server.postGenerateCode fuel rnd now hex phone st = Some (resp_s, st_s)
    /\ Part000.postGenerateCode fuel rnd now hex phone st = Some (resp_p, st_p)
    /\ (is_rejected resp_s = true
        <-> refused = true \/ overflows fuel rnd (randomPos st))
    /\ (is_rejected resp_p = true <-> refused = true \/ raises)
    /\ (overflows fuel rnd (randomPos st) -> raises)
    /\ (raises -> exists p, overflows fuel rnd p)
    /\ (productive fuel rnd -> ~ raises)
    /\ (refused = true -> st_s = st /\ st_p = st)
    /\ (is_rejected resp_s = true -> st_s = set_randomPos (randomPos st_s) st)
    /\ (is_rejected resp_p = true -> st_p = set_randomPos (randomPos st_p) st)
    /\ (is_rejected resp_s = false ->
        exists r msg d,
          Server.generateNewPairingCode fuel rnd now hex (Some full) st = Some (r, st_s)
          /\ resp_s = Success (code_of r) full (sessionId_of r) (expiresAt_of r) msg
          /\ pairingCodes st_s !! code_of r = Some d
          /\ sessionId d = sessionId_of r /\ expiresAt d = expiresAt_of r
          /\ phoneNumber d = Some full /\ status d = pending)
    /\ (is_rejected resp_p = false ->
        exists r msg d,
          Part000.generateNewPairingCode fuel rnd now hex (Some full) st = Some (r, st_p)
          /\ resp_p = Success (code_of r) full (sessionId_of r) (expiresAt_of r) msg
          /\ pairingCodes st_p !! code_of r = Some d
          /\ sessionId d = sessionId_of r /\ expiresAt d = expiresAt_of r
          /\ phoneNumber d = Some full /\ status d = pending).
Proof.
  cbv zeta.
  destruct (server_postGenerateCode_answer fuel rnd now hex phone st)
    as (resp_s & st_s & Hs & Hs_rej & Hs_ref & Hs_same & Hs_ok).
  destruct (part000_postGenerateCode_answer fuel rnd now hex phone st)
    as (resp_p & st_p & Hp & Hp_rej & Hp_ref & Hp_same & Hp_ok).
  exists resp_s, st_s, resp_p, st_p.
  split; [exact Hs |]. split; [exact Hp |]. split; [exact Hs_rej |].
  split; [exact Hp_rej |]. split; [apply chooseCode_overflows |].
  split.
  { intros Hraises. destruct (part000_thrown_spec fuel rnd now st Hraises)
      as (p & _ & Hover). now exists p. }
  split; [apply chooseCode_productive |]. split; [auto |].
  split; [exact Hs_same |]. split; [exact Hp_same |]. split.
  - intros Hok. destruct (Hs_ok Hok) as (r & msg & Hcreate & ->).
    destruct (server_create_stores _ _ _ _ _ _ _ _ Hcreate) as (d & Hd).
    exists r, msg, d. tauto.
  - intros Hok. destruct (Hp_ok Hok) as (r & msg & Hcreate & ->).
    destruct (part000_create_stores _ _ _ _ _ _ _ _ Hcreate) as (d & Hd).
    exists r, msg, d. tauto.
Qed.

(** C8, as the spec words it, fails when the generator raises: a
    nine-digit number asked for while the bot is online is rejected by
    both servers, at every recursion depth, on the random source whose
    every draw is ["AAAAAAAA"].  No session is stored. *)
Lemma postGenerateCode_rejects_when_the_generator_throws :
  validPhone (Some "723278526") = true
  /\ ready (botStatus (withCodes ∅ online)) = true
  /\ (forall depth now hex,
        Server.postGenerateCode depth allA now hex (Some "723278526")
          (withCodes ∅ online)
        = Some (Rejected "Error generating pairing code",
                set_randomPos (depth * 8) (withCodes ∅ online))
        /\ Part000.postGenerateCode depth allA now hex (Some "723278526")
             (withCodes ∅ online)
           = Some (Rejected "Error generating code",
                   set_randomPos (depth * 8) (withCodes ∅ online))).
Proof.
  split; [reflexivity |]. split; [reflexivity |].
  intros depth now hex.
  unfold Server.postGenerateCode, Part000.postGenerateCode,
    Server.generateNewPairingCode, Part000.generateNewPairingCode,
    Part000.chooseCode, Server.thrown, Part000.thrown.
  cbn [Part000.sampleLoop Part000.throwPos].
  rewrite !allA_never_returns. split; reflexivity.
Qed.

End RequestCode.

(** ** The periodic cleanup of [part_000] (claim C9) *)
Section Sweep.
Import Js Config CodeGen Store Props.

Lemma cleanup_lookup (now : Z) (m : gmap string Session) (c : string) :
  Part000.cleanup now m !! c
  = match m !! c with
    | Some d => if Part000.stale now d then None else Some d
    | None => None
    end.
Proof.
  unfold Part000.cleanup.
  destruct (m !! c) as [d|] eqn:Hc.
  - destruct (Part000.stale now d) eqn:Hs.
    + apply map_lookup_filter_None. right. intros d' Hd'. cbn.
      assert (d' = d) as -> by congruence. congruence.
    + apply map_lookup_filter_Some. split; [exact Hc | exact Hs].
  - apply map_lookup_filter_None. now left.
Qed.

Lemma stale_spec (now : Z) (d : Session) :
  Part000.stale now d = true <-> status d = pending /\ (expiresAt d < now)%Z.
Proof.
  unfold Part000.stale. rewrite andb_true_iff, Z.ltb_lt.
  destruct (status d); cbn; intuition congruence.
Qed.

(** C9, as the code has it: a sweep at time [now] removes every record
    that is pending and whose [expiresAt] is strictly before [now]; no
    such record survives it.  A record that is linked, or whose
    [expiresAt] is [now] or later, is kept as it is, and nothing else
    in the state changes. *)
Theorem sweep_removes_exactly_the_stale_pending (now : Z) (st : State) :
  let st' := Part000.sweep now st in
  (forall c d, pairingCodes st !! c = Some d ->
     status d = pending -> (expiresAt d < now)%Z -> pairingCodes st' !! c = None)
  /\ (forall c d, pairingCodes st' !! c = Some d ->
        ~ (status d = pending /\ (expiresAt d < now)%Z))
  /\ (forall c d, pairingCodes st !! c = Some d ->
        status d = linked \/ (now <= expiresAt d)%Z -> pairingCodes st' !! c = Some d)
  /\ (forall c, pairingCodes st !! c = None -> pairingCodes st' !! c = None)
  /\ (botStatus st' = botStatus st /\ timers st' = timers st).
Proof.
  cbv zeta. unfold Part000.sweep. cbn.
  split; [| split; [| split; [| split]]].
  - intros c d Hc Hp Hexp. rewrite cleanup_lookup, Hc.
    now rewrite (proj2 (stale_spec now d) (conj Hp Hexp)).
  - intros c d. rewrite cleanup_lookup.
    destruct (pairingCodes st !! c) as [d0|]; [| discriminate].
    destruct (Part000.stale now d0) eqn:Hs; [discriminate |].
    intros [= <-] Hstale. apply stale_spec in Hstale. congruence.
  - intros c d Hc Hkeep. rewrite cleanup_lookup, Hc.
    destruct (Part000.stale now d) eqn:Hs; [| reflexivity].
    apply stale_spec in Hs as [Hp Hexp]. destruct Hkeep as [Hl | Hge]; [congruence | lia].
  - intros c Hc. now rewrite cleanup_lookup, Hc.
  - split; reflexivity.
Qed.

(** C9, as the spec words it, fails at the boundary: a pending record
    whose [expiresAt] equals [now] survives the sweep. *)
Lemma sweep_keeps_pending_record_expiring_now :
  pairingCodes (Part000.sweep 1700000600000 taken) !! "A0A0A0A0"
  = Some (sessionOf "A0A0A0A0" pending 1700000600000 None)
  /\ status (sessionOf "A0A0A0A0" pending 1700000600000 None) = pending
  /\ (expiresAt (sessionOf "A0A0A0A0" pending 1700000600000 None) <= 1700000600000)%Z.
Proof. split; [vm_compute; reflexivity |]. split; [reflexivity | cbn; lia]. Qed.

End Sweep.

(** ** Linked sessions stay as they are *)
Section Stability.
Import Js Config CodeGen Store Props.



Lemma server_create_lastGeneratedCode (fuel : nat) (rnd : Random) (now : Z)
  (hex : string) (phone : option string) (st : State) (r : Issued) (st' : State) :
  Server.generateNewPairingCode fuel rnd now hex phone st = Some (r, st') ->
  lastGeneratedCode st' = Some (code_of r).
Proof.
  unfold Server.generateNewPairingCode.
  destruct (generateAlphanumericCode _ _ _) as [[c0 pos]|]; [| discriminate].
  now intros [= <- <-].
Qed.















End Stability.

(** ** The expiry timer against the rest of the lifecycle (claim C2) *)
Section ExpiryClaim.
Import Js Config CodeGen Store Props.



End ExpiryClaim.

(** ** The database-backed server (claim C10) *)
Section Database.
Import Js PairingServer PairingProps.

Lemma keep_all (p : ascii -> bool) (s : string) :
  test_all p s = true -> keep p s = s.
Proof.
  induction s as [|c s IH]; cbn; [reflexivity |].
  destruct (p c); [| discriminate]. cbn. intros H. now rewrite IH.
Qed.

Lemma digits_9_12_all_digits (s : string) :
  digits_9_12 s = true -> test_all is_digit s = true.
Proof.
  unfold digits_9_12. intros H.
  apply andb_prop in H as [H _]. now apply andb_prop in H as [H _].
Qed.

(** The first live pending record of a number is the record of that
    number when the unique index on [fullNumber] holds. *)
Lemma find_live_unique (full : string) (now : Z) (l : list PairingCode)
  (r : PairingCode) :
  In r l -> liveFor full now r = true ->
  (forall r', In r' l -> fullNumber r' = fullNumber r -> r' = r) ->
  List.find (liveFor full now) l = Some r.
Proof.
  intros Hin Hlive Huniq.
  destruct (List.find (liveFor full now) l) as [r'|] eqn:Hfind.
  - apply find_some in Hfind as [Hin' Hlive']. f_equal. apply Huniq; [exact Hin' |].
    unfold liveFor in Hlive, Hlive'.
    apply andb_prop in Hlive as [Hlive _]. apply andb_prop in Hlive as [Hlive _].
    apply andb_prop in Hlive' as [Hlive' _]. apply andb_prop in Hlive' as [Hlive' _].
    apply String.eqb_eq in Hlive, Hlive'. congruence.
  - pose proof (find_none _ _ Hfind r Hin). congruence.
Qed.

(** C10: a request that passes the format check, for a full number
    whose record (the only one of that number, by the unique index) is
    pending with [expiresAt] strictly after [now], is answered with the
    pairing code and [expiresAt] of that record, and the database is
    left as it was: no code is drawn and no record is inserted. *)
Theorem live_code_is_reissued (fuel : nat) (draws : nat -> Z) (now : Z)
  (hex : string) (req : Request) (db : Db) (r : PairingCode) (phone : string)
  (Hphone : req_phoneNumber req = Some phone)
  (Hformat : digits_9_12 phone = true)
  (Hin : In r (codes db))
  (Hfull : fullNumber r = default "+254" (req_countryCode req) +:+ phone)
  (Hpending : status r = pending)
  (Hlive : (now < expiresAt r)%Z)
  (Hunique : forall r', In r' (codes db) -> fullNumber r' = fullNumber r -> r' = r) :
  postGenerateCode fuel draws now hex req db
  = Some (Existing (pairingCode r) (fullNumber r) (expiresAt r)
            "Using existing active code", db).
Proof.
  unfold postGenerateCode. rewrite Hphone, Hformat. cbn [negb].
  rewrite (keep_all _ _ (digits_9_12_all_digits _ Hformat)), <- Hfull.
  rewrite (find_live_unique (fullNumber r) now (codes db) r Hin); [reflexivity | | exact Hunique].
  unfold liveFor. rewrite String.eqb_refl, Hpending. cbn.
  now apply Z.ltb_lt.
Qed.

Lemma live_code_is_reissued_witness :
  postGenerateCode 0 (fun _ => 100000%Z) 1700000300000 "d4e5f6" request
    (dbOf (recordOf "723278526" "482913" pending 1700000600000 None))
  = Some (Existing "482913" "+254723278526" 1700000600000
            "Using existing active code",
          dbOf (recordOf "723278526" "482913" pending 1700000600000 None)).
Proof.
  apply (live_code_is_reissued 0 (fun _ => 100000%Z) 1700000300000 "d4e5f6" request
           (dbOf (recordOf "723278526" "482913" pending 1700000600000 None))
           (recordOf "723278526" "482913" pending 1700000600000 None) "723278526").
  - reflexivity.
  - reflexivity.
  - left. reflexivity.
  - reflexivity.
  - reflexivity.
  - reflexivity.
  - intros r' [<- | []] _. reflexivity.
Defined.

Lemma findOneAndUpdate_find {A : Type} (p : A -> bool) (f : A -> A) (l : list A) :
  (forall x, p (f x) = p x) ->
  match findOneAndUpdate p f l with
  | Some (y, l') => exists x, List.find p l = Some x /\ y = f x
                              /\ List.find p l' = Some (f x)
  | None => List.find p l = None
  end.
Proof.
  intros Hp. induction l as [|x l IH]; cbn; [reflexivity |].
  destruct (p x) eqn:Hx.
  - exists x. cbn. now rewrite Hp, Hx.
  - destruct (findOneAndUpdate p f l) as [[y l']|]; cbn; rewrite ?Hx; exact IH.
Qed.


(** The caller in the same file does test the status first: through
    [verifyPairingCodeInBot] a record that is not pending is left as it
    is, whatever becomes of the requests. *)
Lemma verifyPairingCodeInBot_only_from_pending (now : Z) (get post : Fetch)
  (c : string) (db : Db) (r : PairingCode) :
  getPairingStatus c db = Some r -> status r <> pending ->
  snd (verifyPairingCodeInBot now get post c db) = db.
Proof.
  unfold verifyPairingCodeInBot. intros Hr Hs.
  destruct get; try reflexivity. rewrite Hr. now destruct (status r).
Qed.

End Database.

(** ** The scenarios of the specification, run on the model *)
Section Scenarios.
Import Js Config CodeGen Store Props.

(** A code is requested for 723278526 while the state is [qr_ready]: an
    eight-character code is issued and stored as pending. *)
Example request_while_qr_ready :
  (fun p => (fst p, status <$> pairingCodes (snd p) !! "A0A0A0A0"))
    <$> Part000.postGenerateCode 1 a0 1700000000000 "A1B2C3" (Some "723278526")
          (withCodes ∅ qr_ready)
  = Some (Success "A0A0A0A0" "+254723278526" "IAN TECH_1700000000000_A1B2C3"
            1700000600000 "Code generated successfully",
          Some pending).
Proof. vm_compute. reflexivity. Qed.

(** The same request while the state is [disconnected] is rejected. *)
Example request_while_disconnected :
  Server.postGenerateCode 1 a0 1700000000000 "A1B2C3" (Some "723278526")
    (withCodes ∅ disconnected)
  = Some (Rejected "WhatsApp connection not ready. Please wait for QR code...",
          withCodes ∅ disconnected).
Proof. reflexivity. Qed.

(** [open] with three pending sessions and one linked one: the three are
    linked at the time of the event and the fourth keeps its
    [linkedAt]. *)
Example open_with_three_pending_one_linked :
  (fun c => (fun d => (status d, linkedAt d))
              <$> pairingCodes (Part000.onOpen 5000 openEvent threePendingOneLinked) !! c)
    <$> ["AB12CD34"; "EF56GH78"; "IJ90KL12"; "MN34OP56"]
  = [Some (linked, Some 5000%Z); Some (linked, Some 5000%Z);
     Some (linked, Some 5000%Z); Some (linked, Some 1000%Z)].
Proof. vm_compute. reflexivity. Qed.

(** A session is created, the connection opens, and the expiry timer
    fires when it is due: the linked session is still stored. *)
Example linked_session_outlives_its_timer :
  (fun p => (fst p, status <$> pairingCodes (snd p) !! "A0A0A0A0", timers (snd p)))
    <$> Part000.run 1 a0
          [Part000.GenerateCode 1700000000000 "A1B2C3" (Some "723278526");
           Part000.ConnectionUpdate 1700000100000 openEvent;
           Part000.TimerFired 1700000600000 true 0]
          (withCodes ∅ qr_ready)
  = Some (["A0A0A0A0"], Some linked, []).
Proof. vm_compute. reflexivity. Qed.

(** Without the [open] event the timer removes the pending session. *)
Example pending_session_is_removed_by_its_timer :
  (fun p => (fst p, status <$> pairingCodes (snd p) !! "A0A0A0A0", timers (snd p)))
    <$> Part000.run 1 a0
          [Part000.GenerateCode 1700000000000 "A1B2C3" (Some "723278526");
           Part000.TimerFired 1700000600000 true 0]
          (withCodes ∅ qr_ready)
  = Some (["A0A0A0A0"], None, []).
Proof. vm_compute. reflexivity. Qed.

End Scenarios.

(** ** What a handler can do to the store, the timers and the QR state *)
Section Effects.
Import Js Config CodeGen Store Props Invariants.

Lemma part000_links (now : Z) (user : option string) :
  links (Part000.linkIfPending now user).
Proof.
  intros d. unfold Part000.linkIfPending. split; intros ->; cbn; [reflexivity |].
  repeat split; congruence.
Qed.

Lemma server_links (now : Z) : links (Server.linkIfPending now).
Proof.
  intros d. unfold Server.linkIfPending. split; intros ->; cbn; [reflexivity |].
  repeat split; congruence.
Qed.

Lemma part000_newSession_wf (c : string) (phone : option string) (sid : string)
  (now : Z) :
  wfSession c (Part000.newSession c phone sid now)
  /\ status (Part000.newSession c phone sid now) = pending.
Proof. unfold wfSession. cbn. repeat split; try congruence; try discriminate. Qed.

Lemma server_newSession_wf (c : string) (phone : option string) (sid : string)
  (now : Z) (st : State) :
  wfSession c (Server.newSession c phone sid now st)
  /\ status (Server.newSession c phone sid now st) = pending.
Proof. unfold wfSession. cbn. repeat split; try congruence; try discriminate. Qed.

Lemma part000_create_effect (fuel : nat) (rnd : Random) (now : Z) (hex : string)
  (phone : option string) (st : State) (r : Issued) (st' : State) :
  Part000.generateNewPairingCode fuel rnd now hex phone st = Some (r, st') ->
  Effect (view st) (view st').
Proof.
  unfold Part000.generateNewPairingCode.
  destruct (Part000.chooseCode _ _ _ _ _) as [[c pos]|]; [| discriminate].
  intros [= <- <-]. unfold view. cbn.
  destruct (part000_newSession_wf c phone (generateSessionId now hex) now) as [Hwf Hp].
  exact (eff_create _ _ _ _ c _ Hwf Hp).
Qed.

Lemma server_create_effect (fuel : nat) (rnd : Random) (now : Z) (hex : string)
  (phone : option string) (st : State) (r : Issued) (st' : State) :
  Server.generateNewPairingCode fuel rnd now hex phone st = Some (r, st') ->
  Effect (view st) (view st').
Proof.
  unfold Server.generateNewPairingCode.
  destruct (generateAlphanumericCode _ _ _) as [[c pos]|]; [| discriminate].
  intros [= <- <-]. unfold view. cbn.
  destruct (server_newSession_wf c phone (generateSessionId now hex) now
              (set_randomPos pos st)) as [Hwf Hp].
  exact (eff_create _ _ _ _ c _ Hwf Hp).
Qed.

Lemma part000_update_effect (now : Z) (u : Update) (st : State) :
  Effect (view st) (view (Part000.onConnectionUpdate now u st)).
Proof.
  unfold Part000.onConnectionUpdate.
  apply eff_seq with (view (Part000.onQR u st));
    [| apply eff_seq with (view (Part000.onOpen now u (Part000.onQR u st)))].
  - unfold Part000.onQR. destruct (truthy (qr u)) eqn:Hqr; [| apply eff_none].
    destruct (dataUrl u); unfold view; cbn; now apply eff_qr.
  - generalize (Part000.onQR u st). intros s. unfold Part000.onOpen.
    destruct (connection u) as [[| |]|]; try apply eff_none.
    unfold view. cbn.
    eapply eff_seq; [apply (eff_status _ _ _ _ online); discriminate |].
    apply eff_link, part000_links.
  - generalize (Part000.onOpen now u (Part000.onQR u st)). intros s.
    unfold Part000.onClose.
    destruct (connection u) as [[| |]|]; try apply eff_none.
    destruct (bool_decide _); unfold view; cbn.
    + now apply eff_retry.
    + eapply eff_seq; [apply (eff_status _ _ _ _ reconnecting); discriminate |].
      now apply eff_retry.
Qed.

Lemma part000_fire_effect (now : Z) (ok : bool) (i : nat) (t : Timer) (st : State) :
  timers st !! i = Some t ->
  Effect (view st) (view (Part000.fire now ok (callback t) (clearTimer i st))).
Proof.
  intros Ht. destruct (callback t) as [c|] eqn:Hcb; cbn.
  - unfold view. cbn. now apply eff_expire with t.
  - unfold Part000.initWhatsApp.
    eapply eff_seq; [apply (eff_restart _ _ _ _ i t Ht Hcb) |].
    eapply eff_seq; [apply (eff_status _ _ _ _ connecting); discriminate |].
    destruct ok; unfold view; cbn; [apply eff_none |].
    eapply eff_seq; [apply (eff_status _ _ _ _ error); discriminate |].
    now apply eff_retry.
Qed.

Lemma part000_step_effect (fuel : nat) (rnd : Random) (e : Part000.Event)
  (st : State) (oc : option string) (st' : State) :
  Part000.step fuel rnd e st = Some (oc, st') -> Effect (view st) (view st').
Proof.
  destruct e as [now u | now ok i | now | now hex phone | now hex img phone];
    cbn [Part000.step]; intros Hstep.
  - injection Hstep as <- <-. apply part000_update_effect.
  - destruct (timers st !! i) as [t|] eqn:Ht; [| discriminate].
    destruct (fireAt t <=? now)%Z; [| discriminate].
    injection Hstep as <- <-. now apply part000_fire_effect.
  - injection Hstep as <- <-. unfold view. cbn. apply eff_sweep.
  - unfold Part000.postGenerateCode in Hstep.
    destruct (negb (truthy phone) || _);
      [injection Hstep as <- <-; apply eff_none |].
    destruct (negb (ready _)); [injection Hstep as <- <-; apply eff_none |].
    destruct (Part000.generateNewPairingCode _ _ _ _ _ _) as [[r s]|] eqn:Hcreate;
      [| injection Hstep as <- <-; apply eff_none].
    injection Hstep as <- <-. eapply part000_create_effect; eassumption.
  - unfold Part000.postGetQR in Hstep.
    destruct (negb (truthy phone) || _);
      [injection Hstep as <- <-; apply eff_none |].
    destruct (is_qr_ready _ && _).
    + destruct img as [im|]; [| injection Hstep as <- <-; apply eff_none].
      destruct (Part000.generateNewPairingCode _ _ _ _ _ _) as [[r s]|] eqn:Hcreate;
        [| injection Hstep as <- <-; apply eff_none].
      injection Hstep as <- <-. eapply part000_create_effect; eassumption.
    + destruct (is_online _); [| injection Hstep as <- <-; apply eff_none].
      destruct (Part000.generateNewPairingCode _ _ _ _ _ _) as [[r s]|] eqn:Hcreate;
        [| injection Hstep as <- <-; apply eff_none].
      injection Hstep as <- <-. eapply part000_create_effect; eassumption.
Qed.

Lemma server_update_effect (fuel : nat) (rnd : Random) (now : Z) (hex : string)
  (u : Update) (st st' : State) :
  Server.onConnectionUpdate fuel rnd now hex u st = Some st' ->
  Effect (view st) (view st').
Proof.
  unfold Server.onConnectionUpdate.
  destruct (Server.onQR fuel rnd now hex u st) as [s1|] eqn:Hqr; [| discriminate].
  intros [= <-].
  apply eff_seq with (view s1);
    [| apply eff_seq with (view (Server.onOpen now u s1))].
  - unfold Server.onQR in Hqr. destruct (truthy (qr u)) eqn:Hq;
      [| injection Hqr as <-; apply eff_none].
    destruct (dataUrl u) as [img|].
    + destruct (Server.generateNewPairingCode _ _ _ _ _ _) as [[r s2]|] eqn:Hcreate;
        [| injection Hqr as <-; unfold view; cbn; now apply eff_qr].
      injection Hqr as <-.
      eapply eff_seq; [apply (eff_qr _ _ _ _ (qr u) Hq) |].
      apply server_create_effect in Hcreate. exact Hcreate.
    + injection Hqr as <-. unfold view. cbn. now apply eff_qr.
  - unfold Server.onOpen.
    destruct (connection u) as [[| |]|]; try apply eff_none.
    unfold view. cbn.
    eapply eff_seq; [apply (eff_status _ _ _ _ online); discriminate |].
    apply eff_link, server_links.
  - generalize (Server.onOpen now u s1). intros s. unfold Server.onClose.
    destruct (connection u) as [[| |]|]; try apply eff_none.
    destruct (bool_decide _); unfold view; cbn; [apply eff_none |].
    now apply eff_retry.
Qed.

Lemma server_fire_effect (now : Z) (ok : bool) (i : nat) (t : Timer) (st : State) :
  timers st !! i = Some t ->
  Effect (view st) (view (Server.fire now ok (callback t) (clearTimer i st))).
Proof.
  intros Ht. destruct (callback t) as [c|] eqn:Hcb; cbn.
  - unfold view. cbn. now apply eff_expire with t.
  - unfold Server.initWhatsApp.
    eapply eff_seq; [apply (eff_restart _ _ _ _ i t Ht Hcb) |].
    eapply eff_seq; [apply (eff_status _ _ _ _ connecting); discriminate |].
    destruct ok; unfold view; cbn; [apply eff_none |].
    eapply eff_seq; [apply (eff_status _ _ _ _ error); discriminate |].
    now apply eff_retry.
Qed.

Lemma server_step_effect (fuel : nat) (rnd : Random) (e : Server.Event)
  (st : State) (oc : option string) (st' : State) :
  Server.step fuel rnd e st = Some (oc, st') -> Effect (view st) (view st').
Proof.
  destruct e as [now hex u | now ok i | now hex phone | now hex img phone];
    cbn [Server.step]; intros Hstep.
  - destruct (Server.onConnectionUpdate fuel rnd now hex u st) as [s|] eqn:Hu;
      [| discriminate].
    injection Hstep as _ <-. eapply server_update_effect; eassumption.
  - destruct (timers st !! i) as [t|] eqn:Ht; [| discriminate].
    destruct (fireAt t <=? now)%Z; [| discriminate].
    injection Hstep as <- <-. now apply server_fire_effect.
  - unfold Server.postGenerateCode in Hstep.
    destruct (negb (truthy phone) || _);
      [injection Hstep as <- <-; apply eff_none |].
    destruct (negb (ready _)); [injection Hstep as <- <-; apply eff_none |].
    destruct (Server.generateNewPairingCode _ _ _ _ _ _) as [[r s]|] eqn:Hcreate;
      [| injection Hstep as <- <-; apply eff_none].
    injection Hstep as <- <-. eapply server_create_effect; eassumption.
  - unfold Server.postGetQR in Hstep.
    destruct (negb (truthy phone) || _);
      [injection Hstep as <- <-; apply eff_none |].
    destruct (is_qr_ready _ && _).
    + destruct img as [im|]; [| injection Hstep as <- <-; apply eff_none].
      destruct (Server.generateNewPairingCode _ _ _ _ _ _) as [[r s]|] eqn:Hcreate;
        [| injection Hstep as <- <-; apply eff_none].
      injection Hstep as <- <-. eapply server_create_effect; eassumption.
    + destruct (is_online _); [| injection Hstep as <- <-; apply eff_none].
      destruct (Server.generateNewPairingCode _ _ _ _ _ _) as [[r s]|] eqn:Hcreate;
        [| injection Hstep as <- <-; apply eff_none].
      injection Hstep as <- <-. eapply server_create_effect; eassumption.
Qed.

Lemma part000_run_effect (fuel : nat) (rnd : Random) (es : list Part000.Event) :
  forall (st : State) (cs : list string) (st' : State),
  Part000.run fuel rnd es st = Some (cs, st') -> Effect (view st) (view st').
Proof.
  induction es as [|e es IH]; intros st cs st'; cbn [Part000.run].
  - intros [= <- <-]. apply eff_none.
  - destruct (Part000.step fuel rnd e st) as [[oc st1]|] eqn:Hstep; [| discriminate].
    destruct (Part000.run fuel rnd es st1) as [[cs1 st2]|] eqn:Hrun; [| discriminate].
    intros [= <- <-]. eapply eff_seq; [eapply part000_step_effect | eapply IH]; eassumption.
Qed.

Lemma server_run_effect (fuel : nat) (rnd : Random) (es : list Server.Event) :
  forall (st : State) (cs : list string) (st' : State),
  Server.run fuel rnd es st = Some (cs, st') -> Effect (view st) (view st').
Proof.
  induction es as [|e es IH]; intros st cs st'; cbn [Server.run].
  - intros [= <- <-]. apply eff_none.
  - destruct (Server.step fuel rnd e st) as [[oc st1]|] eqn:Hstep; [| discriminate].
    destruct (Server.run fuel rnd es st1) as [[cs1 st2]|] eqn:Hrun; [| discriminate].
    intros [= <- <-]. eapply eff_seq; [eapply server_step_effect | eapply IH]; eassumption.
Qed.

End Effects.

(** ** Invariants kept by every run of events *)
Section RunInvariants.
Import Js Config CodeGen Store Props Invariants.

Lemma expire_subset (c c' : string) (m : gmap string Session) (d : Session) :
  expire c m !! c' = Some d -> m !! c' = Some d.
Proof.
  unfold expire. destruct (m !! c) as [d0|] eqn:Hc; [| auto].
  destruct (is_pending (status d0)); [| auto].
  intros H. apply lookup_delete_Some in H. tauto.
Qed.

Lemma expire_removes_pending (c : string) (m : gmap string Session) (d : Session) :
  expire c m !! c = Some d -> status d = linked.
Proof.
  unfold expire. destruct (m !! c) as [d0|] eqn:Hc.
  - destruct (status d0) eqn:Hs; cbn.
    + rewrite lookup_delete_eq. discriminate.
    + rewrite Hc. now intros [= <-].
  - rewrite Hc. discriminate.
Qed.

Lemma cleanup_subset (now : Z) (m : gmap string Session) (c : string) (d : Session) :
  Part000.cleanup now m !! c = Some d -> m !! c = Some d.
Proof.
  rewrite cleanup_lookup. destruct (m !! c) as [d0|]; [| discriminate].
  now destruct (Part000.stale now d0).
Qed.

Lemma In_delete_other {A : Type} (x y : A) (l : list A) :
  forall i, In x l -> l !! i = Some y -> x <> y -> In x (delete i l).
Proof.
  induction l as [|a l IH]; intros i Hin Hi Hne; [destruct Hin |].
  destruct i as [|i]; cbn in *.
  - injection Hi as ->. destruct Hin as [-> | Hin]; [congruence | exact Hin].
  - destruct Hin as [-> | Hin]; [now left | right; eauto].
Qed.

Lemma effect_keeps_wfView (v v' : View) : Effect v v' -> wfView v -> wfView v'.
Proof.
  induction 1 as [v | v1 v2 v3 _ IH1 _ IH2 | m ts b q b' _ | m ts b q q' _
                  | m ts b q t _ | m ts b q c d Hwf Hp | m ts b q f Hf
                  | m ts b q i t c _ _ | m ts b q i t _ _ | m ts b q now];
    cbn; auto.
  - intros Hm c' d'. destruct (decide (c = c')) as [<- | Hne].
    + rewrite lookup_insert_eq. now intros [= <-].
    + rewrite lookup_insert_ne by exact Hne. apply Hm.
  - intros Hm c d'. rewrite lookup_fmap.
    destruct (m !! c) as [d|] eqn:Hc; [| discriminate]. cbn. intros [= <-].
    destruct (Hm c d Hc) as (Hcode & Hlinked). destruct (Hf d) as [Hl Hpend].
    destruct (status d) eqn:Hs.
    + destruct (Hpend eq_refl) as (Hs' & Hat & Hc' & _).
      unfold wfSession. rewrite Hc'. repeat split; auto.
    + rewrite (Hl eq_refl). unfold wfSession. rewrite Hs. auto.
  - intros Hm c' d' Hd. apply (Hm c' d'). eapply expire_subset; eassumption.
  - intros Hm c d Hd. apply (Hm c d). eapply cleanup_subset; eassumption.
Qed.

Lemma effect_keeps_coverView (v v' : View) :
  Effect v v' -> coverView v -> coverView v'.
Proof.
  induction 1 as [v | v1 v2 v3 _ IH1 _ IH2 | m ts b q b' _ | m ts b q q' _
                  | m ts b q t _ | m ts b q c d Hwf Hp | m ts b q f Hf
                  | m ts b q i t c Hi Hcb | m ts b q i t Hi Hcb | m ts b q now];
    cbn; auto.
  - intros Hm c d Hc Hd. apply in_or_app. left. eauto.
  - intros Hm c' d'. destruct (decide (c = c')) as [<- | Hne].
    + rewrite lookup_insert_eq. intros [= <-] _. apply in_or_app. right. now left.
    + rewrite lookup_insert_ne by exact Hne. intros Hc Hd.
      apply in_or_app. left. eauto.
  - intros Hm c d'. rewrite lookup_fmap.
    destruct (m !! c) as [d|] eqn:Hc; [| discriminate]. cbn. intros [= <-] Hd.
    destruct (Hf d) as [Hl Hpend]. destruct (status d) eqn:Hs.
    + destruct (Hpend eq_refl) as (Hs' & _). congruence.
    + rewrite (Hl eq_refl) in Hd. congruence.
  - intros Hm c' d' Hc' Hd'.
    assert (Hne : c' <> c).
    { intros ->. apply expire_removes_pending in Hc'. congruence. }
    apply In_delete_other with t; [| exact Hi |].
    + apply Hm; [eapply expire_subset; eassumption | exact Hd'].
    + intros <-. cbn in Hcb. congruence.
  - intros Hm c' d' Hc' Hd'.
    apply In_delete_other with t; [now apply Hm | exact Hi |].
    intros <-. cbn in Hcb. discriminate.
  - intros Hm c d Hc Hd. apply Hm; [eapply cleanup_subset; eassumption | exact Hd].
Qed.

Lemma effect_keeps_qrView (v v' : View) : Effect v v' -> qrView v -> qrView v'.
Proof.
  induction 1 as [v | v1 v2 v3 _ IH1 _ IH2 | m ts b q b' Hb | m ts b q q' Hq
                  | m ts b q t _ | m ts b q c d Hwf Hp | m ts b q f Hf
                  | m ts b q i t c Hi Hcb | m ts b q i t Hi Hcb | m ts b q now];
    cbn; auto; try (intros _ Hb'; congruence).
Qed.

End RunInvariants.

Section RunInvariantClaims.
Import Js Config CodeGen Store Props Invariants Page.

Lemma initial_invariants : wfStore initial /\ timersCover initial /\ qrAtHand initial.
Proof.
  split; [| split].
  - intros c d. cbn. rewrite lookup_empty. discriminate.
  - intros c d. cbn. rewrite lookup_empty. discriminate.
  - intros H. cbn in H. discriminate.
Qed.

(** X1: in both in-memory servers every stored session is filed under
    its own code and carries [linkedAt] exactly when its status is
    linked; every run of events (connection updates, timers, sweeps,
    code and QR requests, answered or caught) keeps this. *)
Theorem sessions_stay_well_formed (fuel : nat) (rnd : Random) (st st' : State)
  (cs : list string) (es : list Part000.Event) (es' : list Server.Event)
  (Hwf : wfStore st)
  (Hrun : Part000.run fuel rnd es st = Some (cs, st')
          \/ Server.run fuel rnd es' st = Some (cs, st')) :
  wfStore st'.
Proof.
  change (wfView (view st')). change (wfView (view st)) in Hwf.
  apply effect_keeps_wfView with (view st); [| exact Hwf].
  destruct Hrun as [H | H];
    [eapply part000_run_effect | eapply server_run_effect]; exact H.
Qed.

Lemma sessions_stay_well_formed_witness :
  exists cs st',
    Part000.run 1 a0 sampleRun initial = Some (cs, st')
    /\ wfStore st' /\ cs = ["A0A0A0A0"; "A0A0A0A0_3000"].
Proof.
  destruct (Part000.run 1 a0 sampleRun initial) as [[cs st']|] eqn:Hrun;
    [| vm_compute in Hrun; discriminate].
  exists cs, st'. split; [reflexivity |]. split.
  - apply (sessions_stay_well_formed 1 a0 initial st' cs sampleRun []
             (proj1 initial_invariants) (or_introl Hrun)).
  - vm_compute in Hrun. now injection Hrun as <- _.
Defined.

(** X2: in both in-memory servers every pending session has a timer set
    for the instant of its [expiresAt] that carries its code; every run
    of events keeps this, so no pending session is left without its
    expiry timer. *)
Theorem pending_sessions_keep_their_timer (fuel : nat) (rnd : Random)
  (st st' : State) (cs : list string) (es : list Part000.Event)
  (es' : list Server.Event)
  (Hcover : timersCover st)
  (Hrun : Part000.run fuel rnd es st = Some (cs, st')
          \/ Server.run fuel rnd es' st = Some (cs, st')) :
  timersCover st'.
Proof.
  change (coverView (view st')). change (coverView (view st)) in Hcover.
  apply effect_keeps_coverView with (view st); [| exact Hcover].
  destruct Hrun as [H | H];
    [eapply part000_run_effect | eapply server_run_effect]; exact H.
Qed.

Lemma pending_sessions_keep_their_timer_witness :
  exists cs st',
    Server.run 1 a0 sampleServerRun initial = Some (cs, st')
    /\ timersCover st'
    /\ status <$> pairingCodes st' !! "A0A0A0A0" = Some pending.
Proof.
  destruct (Server.run 1 a0 sampleServerRun initial) as [[cs st']|] eqn:Hrun;
    [| vm_compute in Hrun; discriminate].
  exists cs, st'. split; [reflexivity |]. split.
  - apply (pending_sessions_keep_their_timer 1 a0 initial st' cs [] sampleServerRun
             (proj1 (proj2 initial_invariants)) (or_intror Hrun)).
  - vm_compute in Hrun. injection Hrun as _ <-. vm_compute. reflexivity.
Defined.

(** X3: in both in-memory servers the state [qr_ready] is entered only
    together with a non-empty QR payload, and the payload is never
    cleared; so after every run of events, whenever [GET /status]
    reports [hasQR], [currentQR] holds a non-empty string. *)
Theorem qr_ready_has_a_payload (fuel : nat) (rnd : Random)
  (st st' : State) (cs : list string) (es : list Part000.Event)
  (es' : list Server.Event)
  (Hqr : qrAtHand st)
  (Hrun : Part000.run fuel rnd es st = Some (cs, st')
          \/ Server.run fuel rnd es' st = Some (cs, st')) :
  qrAtHand st'
  /\ (hasQR (getStatus st') = true ->
      exists q, currentQR st' = Some q /\ q <> EmptyString).
Proof.
  assert (H : qrAtHand st').
  { change (qrView (view st')). change (qrView (view st)) in Hqr.
    apply effect_keeps_qrView with (view st); [| exact Hqr].
    destruct Hrun as [H | H];
      [eapply part000_run_effect | eapply server_run_effect]; exact H. }
  split; [exact H |].
  unfold getStatus. cbn. intros Hready.
  assert (Hb : botStatus st' = qr_ready) by (now destruct (botStatus st')).
  specialize (H Hb). destruct (currentQR st') as [[|a q]|]; try discriminate.
  eexists. split; [reflexivity | discriminate].
Qed.

Lemma qr_ready_has_a_payload_witness :
  exists cs st',
    Part000.run 1 a0 (firstn 2 sampleRun) initial = Some (cs, st')
    /\ qrAtHand st' /\ hasQR (getStatus st') = true.
Proof.
  destruct (Part000.run 1 a0 (firstn 2 sampleRun) initial) as [[cs st']|] eqn:Hrun;
    [| vm_compute in Hrun; discriminate].
  exists cs, st'. split; [reflexivity |]. split.
  - apply (qr_ready_has_a_payload 1 a0 initial st' cs (firstn 2 sampleRun) []
             (proj2 (proj2 initial_invariants)) (or_introl Hrun)).
  - vm_compute in Hrun. injection Hrun as _ <-. reflexivity.
Defined.

End RunInvariantClaims.

(** ** [POST /getqr] and the QR branch *)
Section QrRoutes.
Import Js Config CodeGen Store Props Invariants Page.

Lemma qr_path_ready (st : State) :
  is_qr_ready (botStatus st) && truthy (currentQR st) = true ->
  negb (ready (botStatus st)) = false.
Proof. destruct (botStatus st); cbn; congruence. Qed.

Lemma online_ready (st : State) :
  is_online (botStatus st) = true -> negb (ready (botStatus st)) = false.
Proof. destruct (botStatus st); cbn; congruence. Qed.

(** The answer of [POST /getqr] in [server.js]. *)
Lemma server_postGetQR_answer (fuel : nat) (rnd : Random) (now : Z)
  (hex : string) (img : option string) (phone : option string) (st : State) :
  let viaQR := is_qr_ready (botStatus st) && truthy (currentQR st) in
  let refused :=
    negb (validPhone phone)
    || (if viaQR then match img with Some _ => false | None => true end
        else negb (is_online (botStatus st))) in
  let full := "+254" +:+ default EmptyString phone in
  exists resp st',
    Server.postGetQR fuel rnd now hex img phone st = Some (resp, st')
    /\ (is_rejected resp = true
        <-> refused = true \/ overflows fuel rnd (randomPos st))
    /\ (refused = true -> st' = st)
    /\ (is_rejected resp = true -> st' = set_randomPos (randomPos st') st)
    /\ (refused = false -> overflows fuel rnd (randomPos st) ->
        resp = Rejected (if viaQR then "Error generating QR image"
                         else "Error generating QR"))
    /\ (is_rejected resp = false ->
        exists r msg,
          Server.generateNewPairingCode fuel rnd now hex (Some full) st = Some (r, st')
          /\ resp = QrSuccess (if viaQR then img else None) (code_of r) full
                      (sessionId_of r) msg).
Proof.
  cbv zeta. unfold Server.postGetQR. rewrite format_check.
  assert (Hnone : forall msg,
    exists resp st',
      Some (Rejected msg, st) = Some (resp, st')
      /\ (is_rejected resp = true
          <-> true = true \/ overflows fuel rnd (randomPos st))
      /\ (true = true -> st' = st)
      /\ (is_rejected resp = true -> st' = set_randomPos (randomPos st') st)
      /\ (true = false -> overflows fuel rnd (randomPos st) ->
          resp = Rejected (if is_qr_ready (botStatus st) && truthy (currentQR st)
                           then "Error generating QR image"
                           else "Error generating QR"))
      /\ (is_rejected resp = false ->
          exists r msg0,
            Server.generateNewPairingCode fuel rnd now hex
              (Some ("+254" +:+ default EmptyString phone)) st = Some (r, st')
            /\ resp = QrSuccess (if is_qr_ready (botStatus st) && truthy (currentQR st)
                                 then img else None) (code_of r)
                        ("+254" +:+ default EmptyString phone) (sessionId_of r) msg0)).
  { intros msg. eexists _, _. split; [reflexivity |]. cbn [is_rejected].
    split; [tauto |]. split; [reflexivity |].
    split; [intros _; symmetry; apply set_randomPos_same |].
    split; discriminate. }
  assert (Hcreate : forall i msg1 msg2,
    exists resp st',
      match Server.generateNewPairingCode fuel rnd now hex
              (Some ("+254" +:+ default EmptyString phone)) st with
      | Some (r, s) =>
          Some (QrSuccess i (code_of r) ("+254" +:+ default EmptyString phone)
                  (sessionId_of r) msg1, s)
      | None => Some (Rejected msg2, Server.thrown fuel st)
      end = Some (resp, st')
      /\ (is_rejected resp = true
          <-> false = true \/ overflows fuel rnd (randomPos st))
      /\ (false = true -> st' = st)
      /\ (is_rejected resp = true -> st' = set_randomPos (randomPos st') st)
      /\ (false = false -> overflows fuel rnd (randomPos st) -> resp = Rejected msg2)
      /\ (is_rejected resp = false ->
          exists r msg0,
            Server.generateNewPairingCode fuel rnd now hex
              (Some ("+254" +:+ default EmptyString phone)) st = Some (r, st')
            /\ resp = QrSuccess i (code_of r) ("+254" +:+ default EmptyString phone)
                        (sessionId_of r) msg0)).
  { intros i msg1 msg2.
    destruct (Server.generateNewPairingCode fuel rnd now hex _ st) as [[r s]|] eqn:Hc.
    - eexists _, _. split; [reflexivity |]. cbn [is_rejected].
      assert (Hno : ~ overflows fuel rnd (randomPos st)).
      { intros H. apply (server_create_None fuel rnd now hex
                           (Some ("+254" +:+ default EmptyString phone))) in H.
        congruence. }
      split; [split; [discriminate | intros [H | H]; [discriminate | tauto]] |].
      split; [discriminate |]. split; [discriminate |].
      split; [tauto | eauto].
    - eexists _, _. split; [reflexivity |]. cbn [is_rejected].
      split; [| split; [discriminate | split; [reflexivity | split; [auto | discriminate]]]].
      split; [| reflexivity]. intros _. right.
      now apply (server_create_None fuel rnd now hex
                   (Some ("+254" +:+ default EmptyString phone))). }
  destruct (validPhone phone); cbn [negb orb]; [| apply Hnone].
  destruct (is_qr_ready (botStatus st) && truthy (currentQR st)).
  - destruct img as [i|]; [apply Hcreate | apply Hnone].
  - destruct (is_online (botStatus st)); cbn [negb]; [apply Hcreate | apply Hnone].
Qed.

(** The answer of [POST /getqr] in [part_000]. *)
Lemma part000_postGetQR_answer (fuel : nat) (rnd : Random) (now : Z)
  (hex : string) (img : option string) (phone : option string) (st : State) :
  let viaQR := is_qr_ready (botStatus st) && truthy (currentQR st) in
  let refused :=
    negb (validPhone phone)
    || (if viaQR then match img with Some _ => false | None => true end
        else negb (is_online (botStatus st))) in
  let full := "+254" +:+ default EmptyString phone in
  let raises := Part000.chooseCode fuel rnd now (pairingCodes st) (randomPos st) = None in
  exists resp st',
    Part000.postGetQR fuel rnd now hex img phone st = Some (resp, st')
    /\ (is_rejected resp = true <-> refused = true \/ raises)
    /\ (refused = true -> st' = st)
    /\ (is_rejected resp = true -> st' = set_randomPos (randomPos st') st)
    /\ (refused = false -> raises ->
        resp = Rejected (if viaQR then "Error generating QR image"
                         else "Error generating QR"))
    /\ (is_rejected resp = false ->
        exists r msg,
          Part000.generateNewPairingCode fuel rnd now hex (Some full) st = Some (r, st')
          /\ resp = QrSuccess (if viaQR then img else None) (code_of r) full
                      (sessionId_of r) msg).
Proof.
  cbv zeta. unfold Part000.postGetQR. rewrite format_check.
  set (raises := Part000.chooseCode fuel rnd now (pairingCodes st) (randomPos st) = None).
  assert (Hnone : forall msg,
    exists resp st',
      Some (Rejected msg, st) = Some (resp, st')
      /\ (is_rejected resp = true <-> true = true \/ raises)
      /\ (true = true -> st' = st)
      /\ (is_rejected resp = true -> st' = set_randomPos (randomPos st') st)
      /\ (true = false -> raises ->
          resp = Rejected (if is_qr_ready (botStatus st) && truthy (currentQR st)
                           then "Error generating QR image"
                           else "Error generating QR"))
      /\ (is_rejected resp = false ->
          exists r msg0,
            Part000.generateNewPairingCode fuel rnd now hex
              (Some ("+254" +:+ default EmptyString phone)) st = Some (r, st')
            /\ resp = QrSuccess (if is_qr_ready (botStatus st) && truthy (currentQR st)
                                 then img else None) (code_of r)
                        ("+254" +:+ default EmptyString phone) (sessionId_of r) msg0)).
  { intros msg. eexists _, _. split; [reflexivity |]. cbn [is_rejected].
    split; [tauto |]. split; [reflexivity |].
    split; [intros _; symmetry; apply set_randomPos_same |].
    split; discriminate. }
  assert (Hcreate : forall i msg1 msg2,
    exists resp st',
      match Part000.generateNewPairingCode fuel rnd now hex
              (Some ("+254" +:+ default EmptyString phone)) st with
      | Some (r, s) =>
          Some (QrSuccess i (code_of r) ("+254" +:+ default EmptyString phone)
                  (sessionId_of r) msg1, s)
      | None => Some (Rejected msg2, Part000.thrown fuel rnd st)
      end = Some (resp, st')
      /\ (is_rejected resp = true <-> false = true \/ raises)
      /\ (false = true -> st' = st)
      /\ (is_rejected resp = true -> st' = set_randomPos (randomPos st') st)
      /\ (false = false -> raises -> resp = Rejected msg2)
      /\ (is_rejected resp = false ->
          exists r msg0,
            Part000.generateNewPairingCode fuel rnd now hex
              (Some ("+254" +:+ default EmptyString phone)) st = Some (r, st')
            /\ resp = QrSuccess i (code_of r) ("+254" +:+ default EmptyString phone)
                        (sessionId_of r) msg0)).
  { intros i msg1 msg2.
    destruct (Part000.generateNewPairingCode fuel rnd now hex _ st) as [[r s]|] eqn:Hc.
    - eexists _, _. split; [reflexivity |]. cbn [is_rejected].
      assert (Hno : ~ raises).
      { intros H. apply (part000_create_None fuel rnd now hex
                           (Some ("+254" +:+ default EmptyString phone))) in H.
        congruence. }
      split; [split; [discriminate | intros [H | H]; [discriminate | tauto]] |].
      split; [discriminate |]. split; [discriminate |].
      split; [tauto | eauto].
    - eexists _, _. split; [reflexivity |]. cbn [is_rejected].
      split; [| split; [discriminate | split; [reflexivity | split; [auto | discriminate]]]].
      split; [| reflexivity]. intros _. right.
      now apply (part000_create_None fuel rnd now hex
                   (Some ("+254" +:+ default EmptyString phone))). }
  destruct (validPhone phone); cbn [negb orb]; [| apply Hnone].
  destruct (is_qr_ready (botStatus st) && truthy (currentQR st)).
  - destruct img as [i|]; [apply Hcreate | apply Hnone].
  - destruct (is_online (botStatus st)); cbn [negb]; [apply Hcreate | apply Hnone].
Qed.

(** X4: [POST /getqr], each server with its own
    [generateNewPairingCode].  With [viaQR] the test
    [botStatus === 'qr_ready' && currentQR], a request is [refused] when
    the phone number is not nine digits, or [viaQR] holds and rendering
    the QR image fails, or [viaQR] fails and the state is not online.
    Every request is answered, and the answer is a rejection exactly
    when the request is [refused] or the create of that server raises:
    the inner [catch] then answers ['Error generating QR image'] on the
    [viaQR] path and the outer one ['Error generating QR'] when online.
    A [refused] request leaves the whole state as it was, and after
    every rejection the state differs at most in the position of the
    random source.  Every other answer carries the image (none when
    online) and the code and session id that the create of the same
    server returned for ['+254' + phoneNumber], and the session is
    stored under that code. *)
Theorem postGetQR_rejects_exactly (fuel : nat) (rnd : Random) (now : Z)
  (hex : string) (img : option string) (phone : option string) (st : State) :
  let viaQR := is_qr_ready (botStatus st) && truthy (currentQR st) in
  let refused :=
    negb (validPhone phone)
    || (if viaQR then match img with Some _ => false | None => true end
        else negb (is_online (botStatus st))) in
  let full := "+254" +:+ default EmptyString phone in
  let raises := Part000.chooseCode fuel rnd now (pairingCodes st) (randomPos st) = None in
  let caught := Rejected (if viaQR then "Error generating QR image"
                          else "Error generating QR") in
  exists resp_s st_s resp_p st_p,
    Server.postGetQR fuel rnd now hex img phone st = Some (resp_s, st_s)
    /\ Part000.postGetQR fuel rnd now hex img phone st = Some (resp_p, st_p)
    /\ (is_rejected resp_s = true
        <-> refused = true \/ overflows fuel rnd (randomPos st))
    /\ (is_rejected resp_p = true <-> refused = true \/ raises)
    /\ (refused = true -> st_s = st /\ st_p = st)
    /\ (is_rejected resp_s = true -> st_s = set_randomPos (randomPos st_s) st)
    /\ (is_rejected resp_p = true -> st_p = set_randomPos (randomPos st_p) st)
    /\ (refused = false ->
        (overflows fuel rnd (randomPos st) -> resp_s = caught)
        /\ (raises -> resp_p = caught))
    /\ (is_rejected resp_s = false ->
        exists r msg d,
          Server.generateNewPairingCode fuel rnd now hex (Some full) st = Some (r, st_s)
          /\ resp_s = QrSuccess (if viaQR then img else None) (code_of r) full
                        (sessionId_of r) msg
          /\ pairingCodes st_s !! code_of r = Some d
          /\ sessionId d = sessionId_of r /\ phoneNumber d = Some full
          /\ status d = pending)
    /\ (is_rejected resp_p = false ->
        exists r msg d,
          Part000.generateNewPairingCode fuel rnd now hex (Some full) st = Some (r, st_p)
          /\ resp_p = QrSuccess (if viaQR then img else None) (code_of r) full
                        (sessionId_of r) msg
          /\ pairingCodes st_p !! code_of r = Some d
          /\ sessionId d = sessionId_of r /\ phoneNumber d = Some full
          /\ status d = pending).
Proof.
  cbv zeta.
  destruct (server_postGetQR_answer fuel rnd now hex img phone st)
    as (resp_s & st_s & Hs & Hs_rej & Hs_ref & Hs_same & Hs_caught & Hs_ok).
  destruct (part000_postGetQR_answer fuel rnd now hex img phone st)
    as (resp_p & st_p & Hp & Hp_rej & Hp_ref & Hp_same & Hp_caught & Hp_ok).
  exists resp_s, st_s, resp_p, st_p.
  split; [exact Hs |]. split; [exact Hp |]. split; [exact Hs_rej |].
  split; [exact Hp_rej |]. split; [auto |].
  split; [exact Hs_same |]. split; [exact Hp_same |].
  split; [auto |]. split.
  - intros Hok. destruct (Hs_ok Hok) as (r & msg & Hcreate & ->).
    destruct (server_create_stores _ _ _ _ _ _ _ _ Hcreate) as (d & Hd).
    exists r, msg, d. tauto.
  - intros Hok. destruct (Hp_ok Hok) as (r & msg & Hcreate & ->).
    destruct (part000_create_stores _ _ _ _ _ _ _ _ Hcreate) as (d & Hd).
    exists r, msg, d. tauto.
Qed.

(** X5: a QR request that is answered with a code does to the state
    exactly what a code request does: in the same state and with the
    same inputs [POST /generate-code] issues the same code and leaves
    the same state, session and expiry timer included. *)
Theorem getqr_creates_the_session_of_generate_code (fuel : nat) (rnd : Random)
  (now : Z) (hex : string) (img : option string) (phone : option string)
  (st : State) (resp : Response) (st' : State)
  (Hissued : is_rejected resp = false) :
  (Part000.postGetQR fuel rnd now hex img phone st = Some (resp, st') ->
   exists resp',
     Part000.postGenerateCode fuel rnd now hex phone st = Some (resp', st')
     /\ issued resp' = issued resp /\ is_rejected resp' = false)
  /\ (Server.postGetQR fuel rnd now hex img phone st = Some (resp, st') ->
      exists resp',
        Server.postGenerateCode fuel rnd now hex phone st = Some (resp', st')
        /\ issued resp' = issued resp /\ is_rejected resp' = false).
Proof.
  split; intros H.
  - unfold Part000.postGetQR in H. unfold Part000.postGenerateCode.
    destruct (negb (truthy phone) || _);
      [injection H as <- _; discriminate Hissued |].
    destruct (is_qr_ready (botStatus st) && truthy (currentQR st)) eqn:Hvia.
    + rewrite (qr_path_ready st Hvia).
      destruct img as [i|]; [| injection H as <- _; discriminate Hissued].
      destruct (Part000.generateNewPairingCode _ _ _ _ _ _) as [[r s]|];
        [| injection H as <- _; discriminate Hissued].
      injection H as <- <-. eexists. repeat split.
    + destruct (is_online (botStatus st)) eqn:Hon;
        [| injection H as <- _; discriminate Hissued].
      rewrite (online_ready st Hon).
      destruct (Part000.generateNewPairingCode _ _ _ _ _ _) as [[r s]|];
        [| injection H as <- _; discriminate Hissued].
      injection H as <- <-. eexists. repeat split.
  - unfold Server.postGetQR in H. unfold Server.postGenerateCode.
    destruct (negb (truthy phone) || _);
      [injection H as <- _; discriminate Hissued |].
    destruct (is_qr_ready (botStatus st) && truthy (currentQR st)) eqn:Hvia.
    + rewrite (qr_path_ready st Hvia).
      destruct img as [i|]; [| injection H as <- _; discriminate Hissued].
      destruct (Server.generateNewPairingCode _ _ _ _ _ _) as [[r s]|];
        [| injection H as <- _; discriminate Hissued].
      injection H as <- <-. eexists. repeat split.
    + destruct (is_online (botStatus st)) eqn:Hon;
        [| injection H as <- _; discriminate Hissued].
      rewrite (online_ready st Hon).
      destruct (Server.generateNewPairingCode _ _ _ _ _ _) as [[r s]|];
        [| injection H as <- _; discriminate Hissued].
      injection H as <- <-. eexists. repeat split.
Qed.

Lemma getqr_creates_the_session_of_generate_code_witness :
  exists resp st',
    Part000.postGetQR 1 a0 1700000000000 "A1B2C3" None (Some "723278526")
      (withCodes ∅ online) = Some (resp, st')
    /\ issued resp = Some "A0A0A0A0"
    /\ exists resp',
         Part000.postGenerateCode 1 a0 1700000000000 "A1B2C3" (Some "723278526")
           (withCodes ∅ online) = Some (resp', st')
         /\ issued resp' = issued resp /\ is_rejected resp' = false.
Proof.
  destruct (Part000.postGetQR 1 a0 1700000000000 "A1B2C3" None (Some "723278526")
              (withCodes ∅ online)) as [[resp st']|] eqn:Hqr;
    [| vm_compute in Hqr; discriminate].
  assert (Hresp : is_rejected resp = false /\ issued resp = Some "A0A0A0A0").
  { vm_compute in Hqr. injection Hqr as <- _. split; reflexivity. }
  exists resp, st'. split; [reflexivity |]. split; [apply Hresp |].
  exact (proj1 (getqr_creates_the_session_of_generate_code 1 a0 1700000000000 "A1B2C3"
                  None (Some "723278526") (withCodes ∅ online) resp st' (proj1 Hresp))
           Hqr).
Defined.

End QrRoutes.

(** ** The QR branch, the sweep and the session count *)
Section StoreOperations.
Import Js Config CodeGen Store Props Invariants Page.

Lemma productive_never_overflows (fuel : nat) (rnd : Random) (pos : nat) :
  productive fuel rnd -> ~ overflows fuel rnd pos.
Proof.
  intros Hprod Hover. destruct (Hprod pos) as (j & Hj & Hacc).
  rewrite (Hover j Hj) in Hacc. discriminate.
Qed.

(** X6: what a QR event does.  In both servers the state becomes
    [qr_ready] and the payload is kept in [currentQR].  [part_000]
    touches neither the sessions nor the timers.  [server.js] completes
    the branch whatever happens in it: when rendering fails it creates
    nothing; once the image is rendered it keeps the image and creates
    a pending session with no phone number, filed under the code it
    remembers as [lastGeneratedCode], holding the payload and the image
    and due to expire in ten minutes; and when that create raises,
    which it does exactly when the generator overflows, the exception
    is logged, the image is kept and neither a session, a timer nor
    [lastGeneratedCode] is written. *)
Theorem qr_event_effect (fuel : nat) (rnd : Random) (now : Z) (hex : string)
  (u : Update) (st : State) (Hqr : truthy (qr u) = true) :
  (pairingCodes (Part000.onQR u st) = pairingCodes st
   /\ timers (Part000.onQR u st) = timers st
   /\ botStatus (Part000.onQR u st) = qr_ready
   /\ currentQR (Part000.onQR u st) = qr u)
  /\ (exists st', Server.onQR fuel rnd now hex u st = Some st'
        /\ botStatus st' = qr_ready /\ currentQR st' = qr u
        /\ match dataUrl u with
           | Some img =>
               qrImageDataUrl st' = Some img
               /\ (~ overflows fuel rnd (randomPos st) ->
                   exists c d,
                     lastGeneratedCode st' = Some c
                     /\ pairingCodes st' = <[c := d]> (pairingCodes st)
                     /\ code d = c /\ phoneNumber d = None /\ status d = pending
                     /\ qrData d = qr u /\ qrImage d = Some img
                     /\ expiresAt d = (now + 600000)%Z
                     /\ timers st'
                        = (timers st
                           ++ [{| fireAt := now + 600000; callback := ExpireCode c |}])%list)
               /\ (overflows fuel rnd (randomPos st) ->
                   lastGeneratedCode st' = lastGeneratedCode st
                   /\ pairingCodes st' = pairingCodes st /\ timers st' = timers st)
           | None =>
               qrImageDataUrl st' = qrImageDataUrl st
               /\ pairingCodes st' = pairingCodes st /\ timers st' = timers st
           end)
  /\ (productive fuel rnd -> ~ overflows fuel rnd (randomPos st)).
Proof.
  unfold Part000.onQR, Server.onQR. rewrite Hqr. split; [| split].
  - destruct (dataUrl u); repeat split.
  - destruct (dataUrl u) as [img|].
    + unfold Server.generateNewPairingCode.
      cbn [randomPos set_qrImageDataUrl set_botStatus set_currentQR].
      destruct (generateAlphanumericCode fuel rnd (randomPos st)) as [[c pos]|] eqn:Hgen.
      * eexists. split; [reflexivity |]. cbn.
        split; [reflexivity |]. split; [reflexivity |]. split; [reflexivity |].
        split.
        -- intros _. eexists _, _. repeat split.
        -- intros Hover. apply generateAlphanumericCode_None in Hover. congruence.
      * eexists. split; [reflexivity |]. cbn.
        split; [reflexivity |]. split; [reflexivity |]. split; [reflexivity |].
        split; [| intros _; repeat split].
        intros Hno. destruct Hno. now apply generateAlphanumericCode_None.
    + eexists. split; [reflexivity |]. repeat split.
  - apply productive_never_overflows.
Qed.

Lemma qr_event_effect_witness :
  (fun s => (lastGeneratedCode s, size (pairingCodes s)))
    <$> Server.onQR 1 a0 1700000000000 "A1B2C3"
          {| connection := None; qr := Some "2@qr-payload"; statusCode := None;
             dataUrl := Some "data:image/png;base64,AAAA"; userId := None |}
          taken
  = Some (Some "A0A0A0A0", 1%nat)
  /\ pairingCodes (Part000.onQR
                     {| connection := None; qr := Some "2@qr-payload";
                        statusCode := None;
                        dataUrl := Some "data:image/png;base64,AAAA";
                        userId := None |} taken)
     = pairingCodes taken.
Proof.
  split; [reflexivity |].
  exact (proj1 (proj1 (qr_event_effect 1 a0 1700000000000 "A1B2C3"
                         {| connection := None; qr := Some "2@qr-payload";
                            statusCode := None;
                            dataUrl := Some "data:image/png;base64,AAAA";
                            userId := None |} taken eq_refl))).
Defined.

Lemma stale_mono (t1 t2 : Z) (d : Session) :
  (t1 <= t2)%Z -> Part000.stale t1 d = true -> Part000.stale t2 d = true.
Proof.
  intros Hle H. apply stale_spec in H as [Hp Hlt]. apply stale_spec. split; [exact Hp | lia].
Qed.

(** X7: sweeps absorb each other.  For [t1 <= t2], a sweep at [t2]
    after a sweep at [t1], and a sweep at [t1] after a sweep at [t2],
    both leave the state of a single sweep at [t2]; in particular a
    sweep repeated at the same instant changes nothing more. *)
Theorem later_sweep_absorbs_earlier (t1 t2 : Z) (st : State) (Hle : (t1 <= t2)%Z) :
  Part000.sweep t2 (Part000.sweep t1 st) = Part000.sweep t2 st
  /\ Part000.sweep t1 (Part000.sweep t2 st) = Part000.sweep t2 st.
Proof.
  unfold Part000.sweep, set_pairingCodes.
  cbn [pairingCodes botStatus currentQR qrImageDataUrl lastGeneratedCode
       timers authFiles randomPos].
  set (m := pairingCodes st).
  split; f_equal; apply map_eq; intros c; rewrite !cleanup_lookup;
    destruct (m !! c) as [d|]; try reflexivity.
  - destruct (Part000.stale t1 d) eqn:H1.
    + now rewrite (stale_mono t1 t2 d Hle H1).
    + reflexivity.
  - destruct (Part000.stale t2 d) eqn:H2; [reflexivity |].
    destruct (Part000.stale t1 d) eqn:H1; [| reflexivity].
    rewrite (stale_mono t1 t2 d Hle H1) in H2. discriminate.
Qed.

Lemma later_sweep_absorbs_earlier_witness :
  Part000.sweep 1700000700000 (Part000.sweep 1700000600001 threePendingOneLinked)
  = Part000.sweep 1700000700000 threePendingOneLinked
  /\ size (pairingCodes (Part000.sweep 1700000600001 threePendingOneLinked)) = 3%nat
  /\ size (pairingCodes (Part000.sweep 1700000700000 threePendingOneLinked)) = 1%nat.
Proof.
  assert (Hle : (1700000600001 <= 1700000700000)%Z) by lia.
  split; [| split; vm_compute; reflexivity].
  exact (proj1 (later_sweep_absorbs_earlier 1700000600001 1700000700000
                  threePendingOneLinked Hle)).
Defined.

(** X8: the sweep and an expiry timer do not depend on their order:
    firing the timer of a code after a sweep gives the state of
    sweeping after the timer fired.  When the sweep has already removed
    the session the late timer changes nothing. *)
Theorem sweep_and_expiry_timer_commute (now t : Z) (ok : bool) (c : string)
  (st : State) :
  Part000.fire now ok (ExpireCode c) (Part000.sweep t st)
  = Part000.sweep t (Part000.fire now ok (ExpireCode c) st)
  /\ (forall d, pairingCodes st !! c = Some d -> Part000.stale t d = true ->
        Part000.fire now ok (ExpireCode c) (Part000.sweep t st) = Part000.sweep t st).
Proof.
  unfold Part000.sweep, Part000.fire, set_pairingCodes.
  cbn [pairingCodes botStatus currentQR qrImageDataUrl lastGeneratedCode
       timers authFiles randomPos].
  set (m := pairingCodes st). split.
  - f_equal. apply map_eq. intros c'. rewrite cleanup_lookup.
    destruct (decide (c' = c)) as [-> | Hne].
    + unfold expire at 1. rewrite cleanup_lookup.
      unfold expire. destruct (m !! c) as [d|] eqn:Hc.
      * destruct (Part000.stale t d) eqn:Hs.
        -- rewrite cleanup_lookup, Hc, Hs.
           destruct (is_pending (status d)); [now rewrite lookup_delete_eq | now rewrite Hc, Hs].
        -- destruct (is_pending (status d)) eqn:Hp.
           ++ now rewrite !lookup_delete_eq.
           ++ now rewrite cleanup_lookup, Hc, Hs.
      * now rewrite cleanup_lookup, Hc.
    + rewrite !expire_other by exact Hne. now rewrite cleanup_lookup.
  - intros d Hd Hs. f_equal. apply expire_absent. now rewrite cleanup_lookup, Hd, Hs.
Qed.

(** X9: the count that [GET /status] reports.  In [part_000] a create
    that stops before its tenth attempt keeps every session that was
    stored and raises the count by exactly one.  In [server.js] a
    create raises the count by one when the drawn code is free and
    leaves it as it was when the code is taken, the session stored
    under it being replaced. *)
Theorem create_and_the_status_count (fuel : nat) (rnd : Random) (now : Z)
  (hex : string) (phone : option string) (st : State) :
  (forall r st' c0 p0 attempts,
      Part000.generateNewPairingCode fuel rnd now hex phone st = Some (r, st') ->
      Part000.sampleLoop 9 fuel rnd (pairingCodes st) (randomPos st) 0
      = Some (c0, p0, attempts) ->
      (attempts < 10)%nat ->
      pairingCodesSize (getStatus st') = S (pairingCodesSize (getStatus st))
      /\ (forall c d, pairingCodes st !! c = Some d -> pairingCodes st' !! c = Some d))
  /\ (forall r st',
        Server.generateNewPairingCode fuel rnd now hex phone st = Some (r, st') ->
        pairingCodesSize (getStatus st')
        = (if has (code_of r) (pairingCodes st)
           then pairingCodesSize (getStatus st)
           else S (pairingCodesSize (getStatus st)))
        /\ lastCode (getStatus st') = Some (code_of r)).
Proof.
  split.
  - intros r st' c0 p0 attempts Hcreate Hloop Hlt.
    destruct (part000_code_is_fresh_before_fallback _ _ _ _ _ _ _ _ _ _ _ Hcreate Hloop Hlt)
      as [Hfree Hother].
    split.
    + unfold Part000.generateNewPairingCode in Hcreate.
      destruct (Part000.chooseCode _ _ _ _ _) as [[c pos]|]; [| discriminate].
      injection Hcreate as <- <-. cbn in *. now apply map_size_insert_None.
    + intros c d Hc. rewrite Hother; [exact Hc |]. intros ->. congruence.
  - intros r st'. unfold Server.generateNewPairingCode.
    destruct (generateAlphanumericCode _ _ _) as [[c pos]|]; [| discriminate].
    intros [= <- <-]. cbn. split; [| reflexivity].
    rewrite map_size_insert. unfold has. now destruct (pairingCodes st !! c).
Qed.

(** X10: with the bot online, a QR request with a nine-digit number,
    made while the generator meets an accepted draw, is answered by
    [part_000] with a code and no image; the session is stored as
    pending, and the script of the page, which takes the code only from
    an answer that carries an image, leaves the code it shows as it
    was. *)
Theorem online_qr_request_code_is_not_shown (fuel : nat) (rnd : Random) (now : Z)
  (hex : string) (img : option string) (phone : string) (st : State)
  (resp : Response) (st' : State)
  (Hphone : nine_digits phone = true)
  (Honline : botStatus st = online)
  (Hdraws : productive fuel rnd)
  (Hreq : Part000.postGetQR fuel rnd now hex img (Some phone) st = Some (resp, st')) :
  exists c sid msg d,
    resp = QrSuccess None c ("+254" +:+ phone) sid msg
    /\ pairingCodes st' !! c = Some d /\ status d = pending
    /\ phoneNumber d = Some ("+254" +:+ phone)
    /\ forall shown, codeShownAfterQR resp shown = shown.
Proof.
  unfold Part000.postGetQR in Hreq. rewrite format_check in Hreq.
  cbn [validPhone] in Hreq. rewrite Hphone, Honline in Hreq.
  cbn [negb is_qr_ready is_online andb] in Hreq.
  change (default EmptyString (Some phone)) with phone in Hreq.
  destruct (part000_create_total fuel rnd now hex (Some ("+254" +:+ phone)) st
              (productive_returns fuel rnd Hdraws)) as [[r s] Hcreate].
  rewrite Hcreate in Hreq. injection Hreq as <- <-.
  unfold Part000.generateNewPairingCode in Hcreate.
  destruct (Part000.chooseCode _ _ _ _ _) as [[c pos]|]; [| discriminate].
  injection Hcreate as <- <-. cbn [code_of sessionId_of].
  eexists _, _, _, _. split; [reflexivity |].
  split; [cbn; apply lookup_insert_eq |]. repeat split.
Qed.

Lemma online_qr_request_code_is_not_shown_witness :
  exists resp st',
    Part000.postGetQR 1 a0 1700000000000 "A1B2C3" None (Some "723278526")
      (withCodes ∅ online) = Some (resp, st')
    /\ issued resp = Some "A0A0A0A0"
    /\ codeShownAfterQR resp "ZZ99ZZ99" = "ZZ99ZZ99".
Proof.
  destruct (Part000.postGetQR 1 a0 1700000000000 "A1B2C3" None (Some "723278526")
              (withCodes ∅ online)) as [[resp st']|] eqn:Hreq;
    [| vm_compute in Hreq; discriminate].
  exists resp, st'. split; [reflexivity |].
  destruct (online_qr_request_code_is_not_shown 1 a0 1700000000000 "A1B2C3" None
              "723278526" (withCodes ∅ online) resp st' eq_refl eq_refl
              (a0_productive 1 (Nat.lt_0_1)) Hreq)
    as (c & sid & msg & d & Hresp & _ & _ & _ & Hshown).
  split; [| apply Hshown].
  vm_compute in Hreq. now injection Hreq as <- _.
Defined.

End StoreOperations.

(** ** The scripts of the pages against the routes *)
Section PageScripts.
Import Js Config CodeGen Store Props Page.

Lemma keep_append (p : ascii -> bool) (a b : string) :
  keep p (a +:+ b) = keep p a +:+ keep p b.
Proof.
  induction a as [|x a IH]; [reflexivity |].
  rewrite append_cons. cbn. destruct (p x); [| exact IH].
  now rewrite append_cons, IH.
Qed.

Lemma test_all_keep (p : ascii -> bool) (s : string) : test_all p (keep p s) = true.
Proof.
  induction s as [|x s IH]; [reflexivity |].
  cbn. destruct (p x) eqn:Hx; [| exact IH]. cbn. now rewrite Hx.
Qed.

Lemma take_drop (n : nat) (s : string) : take n s +:+ drop n s = s.
Proof.
  revert s; induction n as [|n IH]; intros [|x s]; try reflexivity.
  cbn [take drop]. now rewrite append_cons, IH.
Qed.

Lemma drop_drop (n m : nat) (s : string) : drop m (drop n s) = drop (n + m) s.
Proof.
  revert s; induction n as [|n IH]; intros s; [reflexivity |].
  destruct s as [|x s]; cbn [drop Nat.add]; [now destruct m | apply IH].
Qed.

Lemma keep_idem (p : ascii -> bool) (s : string) : keep p (keep p s) = keep p s.
Proof. apply keep_all, test_all_keep. Qed.

Lemma digit_not_D_d (c : ascii) :
  is_digit c = true -> is_D c = false /\ is_d c = false.
Proof.
  destruct c as [[] [] [] [] [] [] [] []]; cbn; intros H; try discriminate H;
    split; reflexivity.
Qed.

Lemma digits_no_D_d (s : string) :
  test_all is_digit s = true -> test_some is_D s = false /\ test_some is_d s = false.
Proof.
  induction s as [|c s IH]; cbn; [auto |].
  intros H. apply andb_prop in H as [Hc Hs].
  destruct (digit_not_D_d c Hc) as [-> ->]. cbn. auto.
Qed.

Lemma removeD_id (s : string) : test_some is_D s = false -> removeD s = s.
Proof.
  unfold removeD, not_D. induction s as [|c s IH]; cbn; [reflexivity |].
  intros H. apply orb_false_iff in H as [-> Hs]. cbn. now rewrite IH.
Qed.

Lemma starts_d_no_d (n : nat) (s : string) :
  test_some is_d s = false -> starts_d (S n) s = false.
Proof.
  destruct s as [|c s]; cbn; [reflexivity |].
  intros H. apply orb_false_iff in H as [-> _]. reflexivity.
Qed.

Lemma replace_no_d (s : string) :
  test_some is_d s = false -> replace_d3 s = s /\ replace_d3_d3 s = s.
Proof.
  induction s as [|c s IH]; [split; reflexivity |].
  intros H. cbn [replace_d3 replace_d3_d3].
  rewrite !(starts_d_no_d _ _ H).
  cbn in H. apply orb_false_iff in H as [_ Hs].
  destruct (IH Hs) as [-> ->]. split; reflexivity.
Qed.

Lemma formatPhone_no_letters (raw : string) :
  test_some is_D raw = false -> test_some is_d raw = false -> formatPhone raw = raw.
Proof.
  intros HD Hd. unfold formatPhone. rewrite (removeD_id raw HD).
  destruct (replace_no_d raw Hd) as [-> ->].
  destruct ((3 <? String.length raw)%nat && (String.length raw <=? 6)%nat);
    [reflexivity |].
  now destruct (6 <? String.length raw)%nat.
Qed.

Lemma formatPhone_digits (raw : string) :
  test_all is_digit raw = true -> formatPhone raw = raw.
Proof.
  intros H. destruct (digits_no_D_d raw H). now apply formatPhone_no_letters.
Qed.

Lemma keep_space_group (n : nat) (v : string) :
  keep not_space (take n v +:+ " " +:+ drop n v) = keep not_space v.
Proof.
  rewrite keep_append, keep_append. change (keep not_space " ") with EmptyString.
  rewrite append_nil_l, <- keep_append. now rewrite take_drop.
Qed.

Lemma replace_d3_spaces (s : string) :
  keep not_space (replace_d3 s) = keep not_space s.
Proof.
  induction s as [|c s IH]; [reflexivity |].
  cbn [replace_d3]. destruct (starts_d 4 (String c s)).
  - apply keep_space_group.
  - cbn [keep]. now rewrite IH.
Qed.

Lemma replace_d3_d3_spaces (s : string) :
  keep not_space (replace_d3_d3 s) = keep not_space s.
Proof.
  induction s as [|c s IH]; [reflexivity |].
  cbn [replace_d3_d3]. destruct (starts_d 7 (String c s)).
  - rewrite keep_append, keep_append. change (keep not_space " ") with EmptyString.
    rewrite append_nil_l.
    replace (drop 6 (String c s)) with (drop 3 (drop 3 (String c s)))
      by apply (drop_drop 3 3).
    rewrite keep_space_group, <- keep_append. now rewrite take_drop.
  - cbn [keep]. now rewrite IH.
Qed.

(** X11: the formatter of the phone field as the browser runs it.  Its
    regular expressions speak of the letters [D] and [d], so a field
    that holds neither letter, and so every field of digits, is written
    back as it was typed: the digits are not grouped.  Whatever the
    field holds, the listener only deletes letters [D] and inserts
    spaces. *)
Theorem served_formatter_leaves_digits_as_typed (raw : string) :
  (test_some is_D raw = false -> test_some is_d raw = false ->
   formatPhone raw = raw)
  /\ (test_all is_digit raw = true -> formatPhone raw = raw)
  /\ keep not_space (formatPhone raw) = keep not_space (removeD raw).
Proof.
  split; [apply formatPhone_no_letters |]. split; [apply formatPhone_digits |].
  unfold formatPhone. set (v := removeD raw).
  destruct ((3 <? String.length v)%nat && (String.length v <=? 6)%nat);
    [apply replace_d3_spaces |].
  destruct (6 <? String.length v)%nat; [apply replace_d3_d3_spaces | reflexivity].
Qed.

(** The formatter on nine typed digits, and on letters. *)
Example formatPhone_on_digits :
  formatPhone "723278526" = "723278526"
  /\ formatPhone "7D2" = "72"
  /\ formatPhone "dddddd" = "ddd ddd"
  /\ formatPhone "xddddddddd" = "xddd ddd ddd".
Proof. repeat split. Qed.

Lemma validate_is_nine_digits (s : string) :
  validatePhoneNumber (removeD s) = nine_digits (removeD s).
Proof.
  unfold validatePhoneNumber, nine_digits, some_digits.
  assert (Hidem : removeD (removeD s) = removeD s) by apply keep_idem.
  rewrite Hidem. generalize (removeD s). intros [|x v]; [reflexivity |].
  change (negb (String.eqb (String x v) EmptyString)) with true.
  rewrite andb_true_r. apply andb_comm.
Qed.

Lemma test_all_removeD (s : string) :
  test_all is_digit (removeD s) = true -> test_all digit_or_D s = true.
Proof.
  unfold removeD, not_D, digit_or_D. induction s as [|c s IH]; cbn; [reflexivity |].
  destruct (is_D c); cbn.
  - rewrite orb_true_r. exact IH.
  - rewrite orb_false_r. intros H. apply andb_prop in H as [-> Hs]. now apply IH.
Qed.

(** X12: what the pages of [server.js] and [part_000], as the browser
    runs them, send to [POST /generate-code] and [POST /getqr].  The
    script sends a request exactly when the field, with the letters [D]
    taken out, is nine digits, and the body is that text; so every body
    sent passes the format check of the routes.  Nine typed digits are
    sent as typed.  A field that holds any other character than a digit
    or the letter [D], a space for one, is not sent: the page shows its
    own error, and so it does for the value it writes into the field
    when it is loaded. *)
Theorem page_sends_what_the_route_accepts (value : string) :
  (forall phone,
      requestBody value = Some phone
      <-> phone = removeD value /\ validPhone (Some phone) = true)
  /\ (validPhone (Some value) = true -> requestBody value = Some value)
  /\ (test_all digit_or_D value = false -> requestBody value = None)
  /\ requestBody prefilled = None.
Proof.
  assert (Hbody : forall phone,
             requestBody value = Some phone
             <-> phone = removeD value /\ validPhone (Some phone) = true).
  { intros phone. unfold requestBody. rewrite validate_is_nine_digits.
    cbn [validPhone]. split.
    - destruct (nine_digits (removeD value)) eqn:H; [| discriminate].
      intros [= <-]. now split.
    - intros [-> H]. now rewrite H. }
  split; [exact Hbody |]. split; [| split; [| reflexivity]].
  - intros Hvalid. apply Hbody. split; [| exact Hvalid].
    cbn [validPhone] in Hvalid. unfold nine_digits in Hvalid.
    apply andb_prop in Hvalid as [Hdigits _].
    symmetry. apply removeD_id. now destruct (digits_no_D_d value Hdigits).
  - intros Hother. unfold requestBody. rewrite validate_is_nine_digits.
    unfold nine_digits.
    destruct (test_all is_digit (removeD value)) eqn:Hd; [| reflexivity].
    apply test_all_removeD in Hd. congruence.
Qed.

(** X13: the landing page of [pairing-server.js] as the browser runs
    it.  A number of nine to twelve digits is left as typed by the
    input listener, passes the test of the submit listener, and is sent
    as [phoneNumber]; the route does not answer such a request with its
    format error.  Nothing else is sent: the page submits a field only
    when it is nine to twelve digits. *)
Theorem landing_page_submits_typed_digits (typed : string)
  (Hdigits : PairingServer.digits_9_12 typed = true) :
  formatPhone typed = typed
  /\ landingRequestBody (formatPhone typed) = Some typed
  /\ (forall value phone,
        landingRequestBody value = Some phone ->
        phone = value /\ PairingServer.digits_9_12 value = true)
  /\ (forall fuel draws now hex req db resp db',
        PairingServer.req_phoneNumber req = Some typed ->
        PairingServer.postGenerateCode fuel draws now hex req db = Some (resp, db') ->
        forall e, resp <> PairingServer.BadRequest e).
Proof.
  assert (Hsame : formatPhone typed = typed).
  { apply formatPhone_digits. now apply digits_9_12_all_digits. }
  split; [exact Hsame |]. split; [| split].
  - rewrite Hsame. unfold landingRequestBody. now rewrite Hdigits.
  - intros value phone. unfold landingRequestBody.
    destruct (PairingServer.digits_9_12 value); [| discriminate].
    intros [= <-]. now split.
  - intros fuel draws now hex req db resp db' Hreq.
    unfold PairingServer.postGenerateCode. rewrite Hreq, Hdigits. cbn [negb].
    destruct (List.find _ _); [intros [= <- _]; discriminate |].
    destruct (PairingServer.uniqueCode _ _ _ _); [| discriminate].
    destruct (PairingServer.clashes _ _); [intros [= <- _]; discriminate |].
    destruct (PairingServer.botClashes _ _); intros [= <- _]; discriminate.
Qed.

Lemma landing_page_submits_typed_digits_witness :
  formatPhone "723278526" = "723278526"
  /\ landingRequestBody (formatPhone "723278526") = Some "723278526".
Proof.
  assert (Hdigits : PairingServer.digits_9_12 "723278526" = true) by reflexivity.
  exact (conj (proj1 (landing_page_submits_typed_digits "723278526" Hdigits))
              (proj1 (proj2 (landing_page_submits_typed_digits "723278526" Hdigits)))).
Defined.

Lemma two_digits (z : Z) :
  (0 <= z < 100)%Z -> String.length (padStart0 2 (toString z)) = 2%nat.
Proof.
  intros Hz. replace z with (Z.of_nat (Z.to_nat z)) by lia.
  assert (Hn : (Z.to_nat z < 100)%nat) by lia.
  generalize dependent (Z.to_nat z). clear z Hz. intros n Hn.
  do 100 (destruct n as [|n]; [reflexivity |]). lia.
Qed.

(** X14: the countdown of [startExpiryTimer].  At or after the expiry
    the label for an expired code is shown.  Before it the text is
    ["Expires in MM:SS"] where [SS] is below sixty and [MM] minutes and
    [SS] seconds are the whole seconds that remain; for a code issued
    at most ten minutes ago, as every code is, the text has exactly
    sixteen characters and [MM] is at most ten. *)
Theorem countdown_shows_the_remaining_seconds (label : string) (expiry now : Z) :
  ((expiry <= now)%Z -> updateTimer label expiry now = label)
  /\ ((now < expiry)%Z ->
      exists minutes seconds,
        updateTimer label expiry now
        = "Expires in " +:+ padStart0 2 (toString minutes) +:+ ":"
          +:+ padStart0 2 (toString seconds)
        /\ (0 <= seconds < 60)%Z /\ (0 <= minutes)%Z
        /\ (60 * minutes + seconds = (expiry - now) / 1000)%Z
        /\ ((expiry - now <= 600000)%Z ->
            (minutes <= 10)%Z
            /\ String.length (updateTimer label expiry now) = 16%nat)).
Proof.
  unfold updateTimer. split.
  - intros H. now replace (expiry - now <=? 0)%Z with true by (symmetry; apply Z.leb_le; lia).
  - intros H.
    replace (expiry - now <=? 0)%Z with false by (symmetry; apply Z.leb_gt; lia).
    set (diff := (expiry - now)%Z). assert (Hd : (0 < diff)%Z) by (unfold diff; lia).
    exists (diff / 60000)%Z, ((diff mod 60000) / 1000)%Z.
    split; [reflexivity |].
    assert (Hmod : (0 <= diff mod 60000 < 60000)%Z) by (apply Z.mod_pos_bound; lia).
    assert (Hs : (0 <= diff mod 60000 / 1000 < 60)%Z).
    { split; [apply Z.div_pos; lia | apply Z.div_lt_upper_bound; lia]. }
    assert (Hm : (0 <= diff / 60000)%Z) by (apply Z.div_pos; lia).
    split; [exact Hs |]. split; [exact Hm |]. split.
    + rewrite (Z.div_mod diff 60000) at 3 by lia.
      replace (60000 * (diff / 60000) + diff mod 60000)%Z
        with (diff mod 60000 + (60 * (diff / 60000)) * 1000)%Z by lia.
      rewrite Z.div_add by lia. lia.
    + intros Hfresh.
      assert (Hm10 : (diff / 60000 <= 10)%Z).
      { apply Z.lt_succ_r. apply Z.div_lt_upper_bound; lia. }
      split; [exact Hm10 |].
      rewrite !length_append, !two_digits by lia. reflexivity.
Qed.

End PageScripts.
(** ** More on the database-backed server *)
Section DatabaseOperations.
Import Js PairingServer PairingProps DbInvariants.

Lemma find_snoc {A : Type} (p : A -> bool) (l : list A) (x : A) :
  List.find p (l ++ [x])
  = match List.find p l with
    | Some y => Some y
    | None => if p x then Some x else None
    end.
Proof.
  induction l as [|a l IH]; cbn; [reflexivity |].
  destruct (p a); [reflexivity | exact IH].
Qed.

Lemma uniqueCode_from (draws : nat -> Z) (l : list PairingCode) (j : nat) :
  forall (k fuel : nat),
  (forall i, (i < j)%nat -> taken draws l (k + i) = true) ->
  taken draws l (k + j) = false ->
  uniqueCode fuel draws k l
  = if (j <? fuel)%nat then Some (toString (draws (k + j)%nat)) else None.
Proof.
  induction j as [|j IH]; intros k [|fuel] Hbusy Hfree; try reflexivity;
    cbn [uniqueCode]; unfold taken in *.
  - rewrite Nat.add_0_r in *.
    destruct (List.find _ l); [discriminate | reflexivity].
  - specialize (Hbusy 0%nat ltac:(lia)) as H0. rewrite Nat.add_0_r in H0.
    destruct (List.find (pendingWith (toString (draws k))) l); [| discriminate].
    change (S j <? S fuel)%nat with (j <? fuel)%nat.
    rewrite (IH (S k) fuel).
    + now replace (S k + j)%nat with (k + S j)%nat by lia.
    + intros i Hi. specialize (Hbusy (S i) ltac:(lia)).
      now replace (S k + i)%nat with (k + S i)%nat by lia.
    + now replace (S k + j)%nat with (k + S j)%nat by lia.
Qed.

Lemma uniqueCode_free (draws : nat -> Z) (l : list PairingCode) (fuel : nat) :
  forall (k : nat) (pc : string),
  uniqueCode fuel draws k l = Some pc -> List.find (pendingWith pc) l = None.
Proof.
  induction fuel as [|fuel IH]; intros k pc; cbn [uniqueCode]; [discriminate |].
  destruct (List.find (pendingWith (toString (draws k))) l) eqn:Hf.
  - apply IH.
  - now intros [= <-].
Qed.

(** X15: the code loop of [POST /api/generate-code] has no retry cap
    either.  It answers the first drawn code that no pending record
    holds: when the first [j] draws are taken and the next one is free,
    more than [j] iterations give that draw and no fewer give anything.
    The code it gives is held by no pending record. *)
Theorem uniqueCode_returns_the_first_free_draw (draws : nat -> Z)
  (l : list PairingCode) (j : nat)
  (Hbusy : forall i, (i < j)%nat -> taken draws l i = true)
  (Hfree : taken draws l j = false) :
  (forall fuel, (j < fuel)%nat ->
     uniqueCode fuel draws 0 l = Some (toString (draws j))
     /\ List.find (pendingWith (toString (draws j))) l = None)
  /\ (forall fuel, (fuel <= j)%nat -> uniqueCode fuel draws 0 l = None).
Proof.
  split; intros fuel Hfuel;
    pose proof (uniqueCode_from draws l j 0 fuel Hbusy Hfree) as H; cbn [Nat.add] in H.
  - apply Nat.ltb_lt in Hfuel. rewrite Hfuel in H. split; [exact H |].
    eapply uniqueCode_free; exact H.
  - apply Nat.ltb_ge in Hfuel. now rewrite Hfuel in H.
Qed.

Lemma uniqueCode_returns_the_first_free_draw_witness :
  uniqueCode 2 sampleDraws 0
    [recordOf "723278526" "482913" pending 1700000600000 None]
  = Some "613370"
  /\ uniqueCode 1 sampleDraws 0
       [recordOf "723278526" "482913" pending 1700000600000 None]
     = None.
Proof.
  assert (Hbusy : forall i, (i < 1)%nat ->
            taken sampleDraws
              [recordOf "723278526" "482913" pending 1700000600000 None] i = true).
  { intros i Hi. assert (i = 0%nat) as -> by lia. reflexivity. }
  destruct (uniqueCode_returns_the_first_free_draw sampleDraws
              [recordOf "723278526" "482913" pending 1700000600000 None] 1
              Hbusy eq_refl) as [Hret Hnot].
  split; [apply (Hret 2%nat); lia | apply (Hnot 1%nat); lia].
Defined.

Lemma clashes_false_find (r : PairingCode) (l : list PairingCode) :
  clashes r l = false ->
  List.find (fun r' => String.eqb (pairingCode r') (pairingCode r)) l = None.
Proof.
  unfold clashes. induction l as [|a l IH]; cbn; [reflexivity |].
  intros H. apply orb_false_iff in H as [Ha Hl]. apply orb_false_iff in Ha as [_ Ha].
  rewrite Ha. now apply IH.
Qed.

(** X16: a code that was just created is reported by the status
    route.  When [POST /api/generate-code] answers with a new code,
    [GET /api/pairing-status] for that code finds the record that was
    appended: pending, not linked, for the full number and session id
    of the answer, expiring 600000 ms after the request; a bot session
    with the same session id is stored as well. *)
Theorem created_code_is_reported_pending (fuel : nat) (draws : nat -> Z) (now : Z)
  (hex : string) (req : Request) (db db' : Db) (pc full sid link : string)
  (expires : Z)
  (Hcreated : postGenerateCode fuel draws now hex req db
              = Some (Created pc full sid expires link, db')) :
  exists r,
    getPairingStatus pc db' = Some r
    /\ codes db' = (codes db ++ [r])%list
    /\ status r = pending /\ linkedAt r = None
    /\ fullNumber r = full /\ sessionId r = sid
    /\ expiresAt r = expires /\ expires = (now + 600000)%Z
    /\ exists b, bots db' = (bots db ++ [b])%list
                 /\ bot_sessionId b = sid /\ bot_phoneNumber b = full
                 /\ bot_status b = "pending".
Proof.
  unfold postGenerateCode in Hcreated.
  destruct (req_phoneNumber req) as [phone|]; [| discriminate].
  destruct (negb (digits_9_12 phone)); [discriminate |].
  destruct (List.find (liveFor _ now) (codes db)); [discriminate |].
  destruct (uniqueCode fuel draws 0 (codes db)) as [pc0|]; [| discriminate].
  destruct (clashes _ (codes db)) eqn:Hclash; [discriminate |].
  destruct (botClashes _ _); [discriminate |].
  injection Hcreated as <- <- <- <- _ <-.
  eexists. unfold getPairingStatus. cbn [codes bots].
  rewrite find_snoc. apply clashes_false_find in Hclash. cbn [pairingCode] in Hclash.
  rewrite Hclash. cbn [pairingCode]. rewrite String.eqb_refl.
  split; [reflexivity |]. split; [reflexivity |].
  cbn. repeat split. eexists. repeat split.
Qed.

Lemma created_code_is_reported_pending_witness :
  exists db',
    postGenerateCode 1 sampleDraws 1700000000000 "d4e5f6" request
      {| codes := []; bots := [] |}
    = Some (Created "482913" "+254723278526" "IAN_TECH_1700000000000_d4e5f6"
              1700000600000
              "https://wa.me/254723278526?text=Your%20IAN%20TECH%20Pairing%20Code:%20482913",
            db')
    /\ stored "482913" db' = Some (pending, None).
Proof.
  destruct (postGenerateCode 1 sampleDraws 1700000000000 "d4e5f6" request
              {| codes := []; bots := [] |}) as [[resp db']|] eqn:Hrun;
    [| vm_compute in Hrun; discriminate].
  assert (Hresp : resp = Created "482913" "+254723278526"
                           "IAN_TECH_1700000000000_d4e5f6" 1700000600000
                           "https://wa.me/254723278526?text=Your%20IAN%20TECH%20Pairing%20Code:%20482913").
  { vm_compute in Hrun. now injection Hrun as <- _. }
  subst resp. exists db'. split; [reflexivity |].
  destruct (created_code_is_reported_pending 1 sampleDraws 1700000000000 "d4e5f6"
              request {| codes := []; bots := [] |} db' _ _ _ _ _ Hrun)
    as (r & Hfind & _ & Hs & Hl & _).
  unfold stored. now rewrite Hfind, Hs, Hl.
Defined.

Lemma clashes_true (r x : PairingCode) (l : list PairingCode) :
  In x l -> fullNumber x = fullNumber r -> clashes r l = true.
Proof.
  intros Hin Hfull. unfold clashes. apply existsb_exists. exists x.
  split; [exact Hin |]. rewrite Hfull, String.eqb_refl. reflexivity.
Qed.

(** X17: a number whose record is stored but is not a live pending one
    (it is active, or pending and past its [expiresAt]) cannot get a
    new code.  The request passes the format check and the loop draws a
    code, but [fullNumber] carries a unique index, so the [save] is
    refused: the answer is the status 500 error and the database is
    left as it was. *)
Theorem number_with_a_stale_record_gets_no_code (fuel : nat) (draws : nat -> Z)
  (now : Z) (hex : string) (req : Request) (db : Db) (r : PairingCode)
  (phone pc : string)
  (Hphone : req_phoneNumber req = Some phone)
  (Hformat : digits_9_12 phone = true)
  (Hin : In r (codes db))
  (Hfull : fullNumber r = default "+254" (req_countryCode req) +:+ phone)
  (Hstale : List.find (liveFor (fullNumber r) now) (codes db) = None)
  (Hdraw : uniqueCode fuel draws 0 (codes db) = Some pc) :
  postGenerateCode fuel draws now hex req db
  = Some (ServerError "Internal server error", db).
Proof.
  unfold postGenerateCode. rewrite Hphone, Hformat. cbn [negb].
  rewrite (keep_all _ _ (digits_9_12_all_digits _ Hformat)), <- Hfull.
  rewrite Hstale, Hdraw.
  now rewrite (clashes_true _ r (codes db) Hin) by reflexivity.
Qed.

Lemma number_with_a_stale_record_gets_no_code_witness :
  postGenerateCode 1 sampleDraws 1700000300000 "d4e5f6" request
    (dbOf (recordOf "723278526" "100200" active 1700000600000 (Some 1700000100000%Z)))
  = Some (ServerError "Internal server error",
          dbOf (recordOf "723278526" "100200" active 1700000600000
                  (Some 1700000100000%Z))).
Proof.
  apply (number_with_a_stale_record_gets_no_code 1 sampleDraws 1700000300000 "d4e5f6"
           request
           (dbOf (recordOf "723278526" "100200" active 1700000600000
                    (Some 1700000100000%Z)))
           (recordOf "723278526" "100200" active 1700000600000 (Some 1700000100000%Z))
           "723278526" "482913").
  - reflexivity.
  - reflexivity.
  - left. reflexivity.
  - reflexivity.
  - reflexivity.
  - reflexivity.
Defined.



(** A valid answer is given only for a code that the status route
    reports pending. *)
Lemma valid_only_from_pending (now : Z) (get post : Fetch) (c : string) (db : Db)
  (phone sid : string) :
  fst (verifyPairingCodeInBot now get post c db) = Valid phone sid ->
  exists r, getPairingStatus c db = Some r /\ status r = pending
            /\ phone = fullNumber r /\ sid = sessionId r
            /\ get = Delivered /\ post <> Failed.
Proof.
  unfold verifyPairingCodeInBot. destruct get; try discriminate.
  destruct (getPairingStatus c db) as [r|]; [| discriminate].
  destruct (status r) eqn:Hs; try discriminate.
  destruct post; cbn [fst]; try discriminate; intros [= <- <-]; exists r;
    (split; [reflexivity |]); (split; [exact Hs |]);
    (do 3 (split; [reflexivity |])); discriminate.
Qed.

End DatabaseOperations.

(** ** Invariants of the collections *)
Section DatabaseInvariants.
Import Js PairingServer PairingProps DbInvariants.

Lemma pendingCodes_snoc (l : list PairingCode) (r : PairingCode) :
  pendingCodes (l ++ [r])
  = (pendingCodes l ++ (if is_pending (status r) then [pairingCode r] else []))%list.
Proof.
  unfold pendingCodes. rewrite List.filter_app, List.map_app. cbn.
  now destruct (is_pending (status r)).
Qed.

Lemma pendingCodes_find (pc : string) (l : list PairingCode) :
  List.find (pendingWith pc) l = None -> ~ In pc (pendingCodes l).
Proof.
  unfold pendingCodes. intros Hfind Hin.
  apply in_map_iff in Hin as (r & Hpc & Hr). apply filter_In in Hr as [Hr Hp].
  pose proof (find_none _ _ Hfind r Hr) as H. unfold pendingWith in H.
  rewrite Hpc, String.eqb_refl, Hp in H. discriminate.
Qed.

Lemma findOneAndUpdate_In {A : Type} (p : A -> bool) (f : A -> A) (l : list A) :
  forall y l', findOneAndUpdate p f l = Some (y, l') ->
  length l' = length l
  /\ forall r, In r l' -> In r l \/ exists x, In x l /\ p x = true /\ r = f x.
Proof.
  induction l as [|a l IH]; intros y l'; cbn; [discriminate |].
  destruct (p a) eqn:Ha.
  - intros [= <- <-]. split; [reflexivity |].
    intros r [<- | Hr]; [right; exists a; auto | left; now right].
  - destruct (findOneAndUpdate p f l) as [[y0 l0]|]; [| discriminate].
    intros [= <- <-]. destruct (IH y0 l0 eq_refl) as [Hlen Hin].
    split; [cbn; now rewrite Hlen |].
    intros r [<- | Hr]; [left; now left |].
    destruct (Hin r Hr) as [H | (x & Hx & Hpx & ->)]; [left; now right |].
    right. exists x. auto.
Qed.

Lemma markActive_pendingCodes (now : Z) (p : PairingCode -> bool)
  (l : list PairingCode) :
  forall y l', findOneAndUpdate p (markActive now) l = Some (y, l') ->
  (forall c, In c (pendingCodes l') -> In c (pendingCodes l))
  /\ (NoDup (pendingCodes l) -> NoDup (pendingCodes l')).
Proof.
  induction l as [|a l IH]; intros y l'; cbn [findOneAndUpdate]; [discriminate |].
  destruct (p a).
  - intros [= <- <-]. unfold pendingCodes. cbn [List.filter markActive status is_pending].
    split.
    + intros c Hc. destruct (is_pending (status a)); [now right | exact Hc].
    + destruct (is_pending (status a)); [| auto].
      cbn [List.map]. intros H. now inversion H.
  - destruct (findOneAndUpdate p (markActive now) l) as [[y0 l0]|]; [| discriminate].
    intros [= <- <-]. destruct (IH y0 l0 eq_refl) as [Hincl Hnodup].
    unfold pendingCodes in *. cbn [List.filter].
    destruct (is_pending (status a)); cbn [List.map]; [| auto].
    split.
    + intros c [<- | Hc]; [now left | right; auto].
    + intros H. inversion H as [| ? ? Hnotin Hrest]. subst.
      constructor; [| auto].
      intros Hin. apply Hnotin. apply list_elem_of_In, Hincl, list_elem_of_In, Hin.
Qed.

Lemma postPairingLinked_codes (now : Z) (c : string) (db : Db) :
  codes (snd (postPairingLinked now c db)) = codes db
  \/ exists y,
       findOneAndUpdate (fun r => String.eqb (pairingCode r) c) (markActive now) (codes db)
       = Some (y, codes (snd (postPairingLinked now c db))).
Proof.
  unfold postPairingLinked.
  destruct (findOneAndUpdate _ (markActive now) (codes db)) as [[y l']|];
    [right; exists y; reflexivity | now left].
Qed.

Lemma verify_codes (now : Z) (get post : Fetch) (c : string) (db : Db) :
  snd (verifyPairingCodeInBot now get post c db) = db
  \/ snd (verifyPairingCodeInBot now get post c db) = snd (postPairingLinked now c db).
Proof.
  unfold verifyPairingCodeInBot. destruct get; try now left.
  destruct (getPairingStatus c db) as [r|]; [| now left].
  destruct (status r); cbn [snd]; auto. destruct post; cbn [snd]; auto.
Qed.

(** X19: no two pending records share a pairing code, and the routes
    keep it so: the code loop of [POST /api/generate-code] refuses every
    code that a pending record holds, and marking a record linked only
    takes a code out of the pending ones, whatever becomes of the
    requests of a verification. *)
Theorem pending_codes_stay_distinct (db : Db)
  (Hdistinct : NoDup (pendingCodes (codes db))) :
  (forall fuel draws now hex req resp db',
      postGenerateCode fuel draws now hex req db = Some (resp, db') ->
      NoDup (pendingCodes (codes db')))
  /\ (forall now c, NoDup (pendingCodes (codes (snd (postPairingLinked now c db)))))
  /\ (forall now get post c,
        NoDup (pendingCodes (codes (snd (verifyPairingCodeInBot now get post c db))))).
Proof.
  assert (Hlinked : forall now c,
             NoDup (pendingCodes (codes (snd (postPairingLinked now c db))))).
  { intros now c. destruct (postPairingLinked_codes now c db) as [-> | [y Hy]];
      [exact Hdistinct |].
    now apply (markActive_pendingCodes _ _ _ _ _ Hy). }
  split; [| split; [exact Hlinked |]].
  - intros fuel draws now hex req resp db'. unfold postGenerateCode.
    destruct (req_phoneNumber req) as [phone|]; [| now intros [= _ <-]].
    destruct (negb (digits_9_12 phone)); [now intros [= _ <-] |].
    destruct (List.find (liveFor _ now) (codes db)); [now intros [= _ <-] |].
    destruct (uniqueCode fuel draws 0 (codes db)) as [pc|] eqn:Hpc; [| discriminate].
    destruct (clashes _ (codes db)); [now intros [= _ <-] |].
    assert (Hnew : forall r, pairingCode r = pc -> status r = pending ->
                     NoDup (pendingCodes (codes db ++ [r]))).
    { intros r Hr Hs. rewrite pendingCodes_snoc, Hs. cbn [is_pending].
      apply NoDup_app. split; [exact Hdistinct |]. split.
      - intros x Hx Hx'. apply list_elem_of_singleton in Hx'. subst x.
        rewrite Hr in Hx. apply list_elem_of_In in Hx.
        now apply (pendingCodes_find pc (codes db) (uniqueCode_free _ _ _ _ _ Hpc)).
      - apply NoDup_singleton. }
    destruct (botClashes _ _); intros [= _ <-]; cbn [codes]; now apply Hnew.
  - intros now get post c. destruct (verify_codes now get post c db) as [-> | ->];
      [exact Hdistinct | apply Hlinked].
Qed.

Lemma pending_codes_stay_distinct_witness :
  exists db',
    postGenerateCode 2 sampleDraws 1700000000000 "d4e5f6"
      {| req_phoneNumber := Some "711111111"; req_countryCode := None;
         req_ip := None; req_userAgent := None; req_platform := None |}
      (dbOf (recordOf "723278526" "482913" pending 1700000600000 None))
    = Some (Created "613370" "+254711111111" "IAN_TECH_1700000000000_d4e5f6"
              1700000600000
              "https://wa.me/254711111111?text=Your%20IAN%20TECH%20Pairing%20Code:%20613370",
            db')
    /\ pendingCodes (codes db') = ["482913"; "613370"]
    /\ NoDup (pendingCodes (codes db')).
Proof.
  destruct (postGenerateCode 2 sampleDraws 1700000000000 "d4e5f6"
              {| req_phoneNumber := Some "711111111"; req_countryCode := None;
                 req_ip := None; req_userAgent := None; req_platform := None |}
              (dbOf (recordOf "723278526" "482913" pending 1700000600000 None)))
    as [[resp db']|] eqn:Hrun; [| vm_compute in Hrun; discriminate].
  assert (Hdistinct : NoDup (pendingCodes
            (codes (dbOf (recordOf "723278526" "482913" pending 1700000600000 None))))).
  { apply NoDup_singleton. }
  pose proof (proj1 (pending_codes_stay_distinct _ Hdistinct) _ _ _ _ _ _ _ Hrun) as Hkept.
  vm_compute in Hrun. injection Hrun as <- <-.
  eexists. split; [reflexivity |]. split; [reflexivity | exact Hkept].
Defined.

(** X20: the records keep their shape.  If every record has
    [fullNumber] equal to its country code followed by its nine to
    twelve digits, and [linkedAt] exactly when it is active, then the
    same holds after a code request, after marking a code linked, after
    a verification, whatever becomes of its requests, and after a pass
    of the TTL index; the [replace] of non-digits in the route never
    changes a number that passed the format check. *)
Theorem records_stay_well_formed (db : Db) (Hwf : wfDb db) :
  (forall fuel draws now hex req resp db',
      postGenerateCode fuel draws now hex req db = Some (resp, db') -> wfDb db')
  /\ (forall now c, wfDb (snd (postPairingLinked now c db)))
  /\ (forall now get post c, wfDb (snd (verifyPairingCodeInBot now get post c db)))
  /\ (forall now reached, wfDb (ttlPass now reached db)).
Proof.
  assert (Hlinked : forall now c, wfDb (snd (postPairingLinked now c db))).
  { intros now c r. destruct (postPairingLinked_codes now c db) as [-> | [y Hy]];
      [apply Hwf |].
    intros Hr. destruct (findOneAndUpdate_In _ _ _ _ _ Hy) as [_ Hin].
    destruct (Hin r Hr) as [H | (x & Hx & _ & ->)]; [now apply Hwf |].
    destruct (Hwf x Hx) as (Hfull & Hdig & _).
    unfold wfRecord. cbn. repeat split; auto; discriminate. }
  split; [| split; [exact Hlinked | split]].
  - intros fuel draws now hex req resp db'. unfold postGenerateCode.
    destruct (req_phoneNumber req) as [phone|]; [| now intros [= _ <-]].
    destruct (negb (digits_9_12 phone)) eqn:Hdig; [now intros [= _ <-] |].
    apply negb_false_iff in Hdig.
    destruct (List.find (liveFor _ now) (codes db)); [now intros [= _ <-] |].
    destruct (uniqueCode fuel draws 0 (codes db)) as [pc|]; [| discriminate].
    destruct (clashes _ (codes db)); [now intros [= _ <-] |].
    assert (Hnew : forall r, wfRecord r -> forall x, In x (codes db ++ [r]) -> wfRecord x).
    { intros r Hr x Hx. apply in_app_or in Hx as [Hx | [<- | []]]; [now apply Hwf | exact Hr]. }
    destruct (botClashes _ _); intros [= _ <-]; unfold wfDb; cbn [codes]; apply Hnew;
      unfold wfRecord; cbn;
      rewrite (keep_all _ _ (digits_9_12_all_digits _ Hdig));
      (repeat split; auto; try discriminate; congruence).
  - intros now get post c r. destruct (verify_codes now get post c db) as [-> | ->];
      [apply Hwf | apply Hlinked].
  - intros now reached r Hr. cbn [ttlPass codes] in Hr.
    apply filter_In in Hr as [Hr _]. now apply Hwf.
Qed.

Lemma records_stay_well_formed_witness :
  wfDb (snd (postPairingLinked 1700000200000 "482913"
               (dbOf (recordOf "723278526" "482913" pending 1700000600000 None))))
  /\ stored "482913"
       (snd (postPairingLinked 1700000200000 "482913"
               (dbOf (recordOf "723278526" "482913" pending 1700000600000 None))))
     = Some (active, Some 1700000200000%Z).
Proof.
  assert (Hwf : wfDb (dbOf (recordOf "723278526" "482913" pending 1700000600000 None))).
  { intros r [<- | []]. unfold wfRecord. cbn.
    repeat split; try reflexivity; try discriminate; congruence. }
  split; [| reflexivity].
  exact (proj1 (proj2 (records_stay_well_formed _ Hwf)) 1700000200000%Z "482913").
Defined.

Lemma findOneAndUpdate_other {A : Type} (p q : A -> bool) (f : A -> A) (l : list A) :
  (forall x, p x = true -> q x = false /\ q (f x) = false) ->
  forall y l', findOneAndUpdate p f l = Some (y, l') -> List.find q l' = List.find q l.
Proof.
  intros Hpq. induction l as [|a l IH]; intros y l'; cbn; [discriminate |].
  destruct (p a) eqn:Ha.
  - intros [= <- <-]. cbn. destruct (Hpq a Ha) as [-> ->]. reflexivity.
  - destruct (findOneAndUpdate p f l) as [[y0 l0]|]; [| discriminate].
    intros [= <- <-]. cbn. destruct (q a); [reflexivity | now apply (IH y0)].
Qed.

(** X21: marking a code linked is local.  For a code that no record
    holds the answer is not-found and the database is left as it was.
    For a code some record holds the answer is success, the number of
    records is unchanged, and what the status route reports for every
    other code is what it reported before. *)
Theorem pairing_linked_touches_one_code (now : Z) (c : string) (db : Db) :
  (getPairingStatus c db = None ->
   postPairingLinked now c db = (NotFound "Code not found", db))
  /\ (forall r, getPairingStatus c db = Some r ->
        fst (postPairingLinked now c db) = Linked "Pairing marked as active"
        /\ length (codes (snd (postPairingLinked now c db))) = length (codes db)
        /\ forall c', c' <> c ->
             getPairingStatus c' (snd (postPairingLinked now c db))
             = getPairingStatus c' db).
Proof.
  unfold getPairingStatus, postPairingLinked.
  pose proof (findOneAndUpdate_find
                (fun r => String.eqb (pairingCode r) c) (markActive now) (codes db)
                (fun x => eq_refl)) as H.
  destruct (findOneAndUpdate _ (markActive now) (codes db)) as [[y l']|] eqn:Hupd.
  - destruct H as (x & Hx & -> & _). split; [congruence |].
    intros r _. cbn [fst snd codes]. split; [reflexivity |].
    destruct (findOneAndUpdate_In _ _ _ _ _ Hupd) as [Hlen _].
    split; [exact Hlen |].
    intros c' Hne.
    apply (findOneAndUpdate_other
             (fun r => String.eqb (pairingCode r) c)
             (fun r => String.eqb (pairingCode r) c')
             (markActive now) (codes db)) with (y := markActive now x);
      [| exact Hupd].
    intros x0 Hx0. apply String.eqb_eq in Hx0. cbn [markActive pairingCode].
    rewrite Hx0. split; apply String.eqb_neq; congruence.
  - split; [reflexivity | congruence].
Qed.

End DatabaseInvariants.

(** ** Status transitions of the stored records (claim C6) *)
Section StatusTransitions.
Import Js PairingServer PairingProps DbInvariants.

Lemma distinct_snoc (cs : list string) (c : string) :
  distinct cs -> ~ In c cs -> distinct (cs ++ [c]).
Proof.
  induction cs as [|a cs IH]; cbn; [tauto |].
  intros [Ha Hd] Hc. split.
  - rewrite in_app_iff. cbn. intros [H | [H | []]]; [tauto |].
    subst. apply Hc. now left.
  - apply IH; [exact Hd |]. intros H. apply Hc. now right.
Qed.

Lemma clashes_false_fresh (r : PairingCode) (l : list PairingCode) :
  clashes r l = false -> ~ In (pairingCode r) (List.map pairingCode l).
Proof.
  unfold clashes. intros H Hin. apply in_map_iff in Hin as (x & Hx & Hin).
  assert (Ht : existsb (fun r' => String.eqb (fullNumber r') (fullNumber r)
                                  || String.eqb (pairingCode r') (pairingCode r)) l
               = true).
  { apply existsb_exists. exists x. split; [exact Hin |].
    rewrite Hx, String.eqb_refl. apply orb_true_r. }
  congruence.
Qed.

Lemma markActive_codes (now : Z) (p : PairingCode -> bool) (l : list PairingCode) :
  forall y l', findOneAndUpdate p (markActive now) l = Some (y, l') ->
  List.map pairingCode l' = List.map pairingCode l.
Proof.
  induction l as [|a l IH]; intros y l'; cbn [findOneAndUpdate]; [discriminate |].
  destruct (p a).
  - now intros [= <- <-].
  - destruct (findOneAndUpdate p (markActive now) l) as [[y0 l0]|]; [| discriminate].
    intros [= <- <-]. cbn. now rewrite (IH y0 l0).
Qed.

Lemma distinct_filter (q : PairingCode -> bool) (l : list PairingCode) :
  distinct (List.map pairingCode l) ->
  distinct (List.map pairingCode (List.filter q l)).
Proof.
  induction l as [|a l IH]; cbn; [tauto |].
  intros [Hn Hd]. destruct (q a); cbn; [split |]; auto.
  intros Hin. apply Hn. apply in_map_iff in Hin as (x & Hx & Hin).
  apply filter_In in Hin as [Hin _]. apply in_map_iff. eauto.
Qed.

Lemma find_code_absent (c : string) (l : list PairingCode) :
  ~ In c (List.map pairingCode l) ->
  List.find (fun r => String.eqb (pairingCode r) c) l = None.
Proof.
  intros Hc. destruct (List.find _ l) as [r|] eqn:Hf; [| reflexivity].
  apply find_some in Hf as [Hin Heq]. apply String.eqb_eq in Heq.
  destruct Hc. apply in_map_iff. eauto.
Qed.

Lemma find_code_filter (q : PairingCode -> bool) (c : string) (l : list PairingCode) :
  distinct (List.map pairingCode l) ->
  List.find (fun r => String.eqb (pairingCode r) c) (List.filter q l)
  = match List.find (fun r => String.eqb (pairingCode r) c) l with
    | Some r => if q r then Some r else None
    | None => None
    end.
Proof.
  induction l as [|a l IH]; cbn [List.map distinct List.filter List.find]; [reflexivity |].
  intros [Hn Hd]. destruct (String.eqb (pairingCode a) c) eqn:Ha.
  - apply String.eqb_eq in Ha. destruct (q a); cbn [List.find].
    + apply String.eqb_eq in Ha. now rewrite Ha.
    + apply find_code_absent. intros Hin. apply Hn. rewrite Ha.
      apply in_map_iff in Hin as (x & Hx & Hin).
      apply filter_In in Hin as [Hin _]. apply in_map_iff. eauto.
  - destruct (q a); cbn [List.find]; [rewrite Ha |]; now apply IH.
Qed.

(** What [POST /api/pairing-linked] does to the status reported for a
    code: the status of its own code becomes active, every other one is
    left as it is. *)
Lemma postPairingLinked_statusUnder (now : Z) (c0 : string) (db : Db) (c : string) :
  statusUnder c (snd (postPairingLinked now c0 db))
  = if String.eqb c c0
    then match statusUnder c db with Some _ => Some active | None => None end
    else statusUnder c db.
Proof.
  unfold statusUnder, getPairingStatus, postPairingLinked.
  pose proof (findOneAndUpdate_find
                (fun r => String.eqb (pairingCode r) c0) (markActive now) (codes db)
                (fun x => eq_refl)) as H.
  destruct (String.eqb_spec c c0) as [-> | Hne].
  - destruct (findOneAndUpdate _ (markActive now) (codes db)) as [[y l']|].
    + destruct H as (x & Hx & -> & Hl'). cbn [snd codes]. now rewrite Hl', Hx.
    + cbn [snd]. now rewrite H.
  - destruct (findOneAndUpdate _ (markActive now) (codes db)) as [[y l']|] eqn:Hupd;
      [| reflexivity].
    cbn [snd codes].
    rewrite (findOneAndUpdate_other
               (fun r => String.eqb (pairingCode r) c0)
               (fun r => String.eqb (pairingCode r) c)
               (markActive now) (codes db)) with (y := y) (l' := l');
      [reflexivity | | exact Hupd].
    intros x Hx. apply String.eqb_eq in Hx. cbn [markActive pairingCode].
    rewrite Hx. split; apply String.eqb_neq; congruence.
Qed.

Lemma postPairingLinked_kept (now : Z) (c : string) (db : Db) :
  keptByRoutes db -> keptByRoutes (snd (postPairingLinked now c db)).
Proof.
  intros [Hd Hs]. destruct (postPairingLinked_codes now c db) as [Heq | [y Hy]].
  - unfold keptByRoutes. rewrite Heq. now split.
  - split.
    + now rewrite (markActive_codes _ _ _ _ _ Hy).
    + intros r Hr. destruct (findOneAndUpdate_In _ _ _ _ _ Hy) as [_ Hin].
      destruct (Hin r Hr) as [H | (x & _ & _ & ->)]; [now apply Hs | now right].
Qed.

Lemma postGenerateCode_codes (fuel : nat) (draws : nat -> Z) (now : Z)
  (hex : string) (req : Request) (db : Db) (resp : Response) (db' : Db) :
  postGenerateCode fuel draws now hex req db = Some (resp, db') ->
  codes db' = codes db
  \/ exists r, codes db' = (codes db ++ [r])%list /\ status r = pending
               /\ clashes r (codes db) = false.
Proof.
  unfold postGenerateCode.
  destruct (req_phoneNumber req) as [phone|]; [| intros [= _ <-]; now left].
  destruct (negb (digits_9_12 phone)); [intros [= _ <-]; now left |].
  destruct (List.find (liveFor _ now) (codes db)); [intros [= _ <-]; now left |].
  destruct (uniqueCode fuel draws 0 (codes db)) as [pc|]; [| discriminate].
  destruct (clashes _ (codes db)) eqn:Hclash; [intros [= _ <-]; now left |].
  destruct (botClashes _ _); intros [= _ <-]; right; eexists;
    (split; [reflexivity |]); split; [reflexivity | exact Hclash | reflexivity | exact Hclash].
Qed.

(** Every event keeps the codes distinct and the statuses among pending
    and active: no route writes ['expired'] or ['used']. *)
Lemma step_kept (e : Event) (db db' : Db) :
  step e db = Some db' -> keptByRoutes db -> keptByRoutes db'.
Proof.
  destruct e as [fuel draws now hex req | now c | now get post c | now reached];
    cbn [step].
  - destruct (postGenerateCode fuel draws now hex req db) as [[resp db1]|] eqn:Hgen;
      [| discriminate].
    intros [= <-] [Hd Hs].
    destruct (postGenerateCode_codes _ _ _ _ _ _ _ _ Hgen) as [Heq | (r & Heq & Hp & Hc)];
      unfold keptByRoutes; rewrite Heq; [now split |].
    split.
    + rewrite List.map_app. apply distinct_snoc; [exact Hd |].
      now apply clashes_false_fresh.
    + intros x Hx. apply in_app_or in Hx as [Hx | [<- | []]]; [now apply Hs | now left].
  - intros [= <-]. apply postPairingLinked_kept.
  - intros [= <-] Hk. destruct (verify_codes now get post c db) as [-> | ->];
      [exact Hk | now apply postPairingLinked_kept].
  - intros [= <-] [Hd Hs]. split.
    + cbn [ttlPass codes]. now apply distinct_filter.
    + intros r Hr. cbn [ttlPass codes] in Hr. apply filter_In in Hr as [Hr _].
      now apply Hs.
Qed.

Lemma run_kept (es : list Event) :
  forall db db', run es db = Some db' -> keptByRoutes db -> keptByRoutes db'.
Proof.
  induction es as [|e es IH]; intros db db'; cbn [run].
  - now intros [= <-].
  - destruct (step e db) as [db1|] eqn:Hstep; [| discriminate].
    intros Hrun Hk. apply (IH db1 db' Hrun). eapply step_kept; eassumption.
Qed.

Lemma emptyDb_kept : keptByRoutes emptyDb.
Proof. split; [exact I | intros r []]. Qed.

Lemma statusUnder_kept (c : string) (db : Db) (s : Status) :
  keptByRoutes db -> statusUnder c db = Some s -> s = pending \/ s = active.
Proof.
  intros [_ Hs]. unfold statusUnder, getPairingStatus.
  destruct (List.find _ (codes db)) as [r|] eqn:Hf; [| discriminate].
  intros [= <-]. apply find_some in Hf as [Hin _]. now apply Hs.
Qed.

Lemma postPairingLinked_monotonic (now : Z) (c0 : string) (db : Db) (c : string) :
  keptByRoutes db ->
  monotonic (statusUnder c db) (statusUnder c (snd (postPairingLinked now c0 db))).
Proof.
  intros Hk. rewrite postPairingLinked_statusUnder.
  destruct (String.eqb c c0); destruct (statusUnder c db) as [s|] eqn:Hs; cbn; auto.
  destruct (statusUnder_kept c db s Hk Hs) as [-> | ->]; auto.
Qed.

Lemma monotonic_refl (o : option Status) : monotonic o o.
Proof. destruct o as [s|]; cbn; auto. Qed.

(** One event changes the status reported for a code monotonically. *)
Lemma step_monotonic (e : Event) (db db' : Db) (c : string) :
  step e db = Some db' -> keptByRoutes db ->
  monotonic (statusUnder c db) (statusUnder c db').
Proof.
  destruct e as [fuel draws now hex req | now c0 | now get post c0 | now reached];
    cbn [step].
  - destruct (postGenerateCode fuel draws now hex req db) as [[resp db1]|] eqn:Hgen;
      [| discriminate].
    intros [= <-] Hk.
    destruct (postGenerateCode_codes _ _ _ _ _ _ _ _ Hgen) as [Heq | (r & Heq & Hp & _)];
      unfold statusUnder, getPairingStatus; rewrite Heq; [apply monotonic_refl |].
    rewrite find_snoc.
    destruct (List.find _ (codes db)) as [r0|]; cbn; [auto |].
    destruct (String.eqb (pairingCode r) c); cbn; auto.
  - intros [= <-]. apply postPairingLinked_monotonic.
  - intros [= <-] Hk. destruct (verify_codes now get post c0 db) as [-> | ->];
      [apply monotonic_refl | now apply postPairingLinked_monotonic].
  - intros [= <-] [Hd _]. unfold statusUnder, getPairingStatus. cbn [ttlPass codes].
    rewrite (find_code_filter _ c (codes db) Hd).
    destruct (List.find _ (codes db)) as [r|]; cbn; [| exact I].
    destruct (negb _); cbn; auto.
Qed.

(** C6: the status transitions of the database-backed server are
    monotonic.  On every database that the routes, the verification of
    the bot and the TTL index build from the empty collections, each
    stored status is pending or active (the name of the linked state
    here; no operation writes the statuses expired and used of the
    schema), and every operation leaves the status reported for a code
    as it is or takes it from pending to active; a record that appears
    is pending, and only the TTL index makes a record disappear.  In
    particular [POST /api/pairing-linked] leaves the status of a record
    that is not pending as it is, and called through
    [verifyPairingCodeInBot], which tests the status first, it changes
    nothing at all. *)
Theorem status_transitions_are_monotonic (es : list Event) (db : Db) (e : Event)
  (db' : Db)
  (Hrun : run es emptyDb = Some db) (Hstep : step e db = Some db') :
  (forall r, In r (codes db) -> status r = pending \/ status r = active)
  /\ (forall c, monotonic (statusUnder c db) (statusUnder c db'))
  /\ (forall now c s, statusUnder c db = Some s -> s <> pending ->
        statusUnder c (snd (postPairingLinked now c db)) = Some s
        /\ forall get post, snd (verifyPairingCodeInBot now get post c db) = db).
Proof.
  pose proof (run_kept es emptyDb db Hrun emptyDb_kept) as Hk.
  split; [apply Hk |]. split.
  - intros c. eapply step_monotonic; eassumption.
  - intros now c s Hs Hterminal. split.
    + rewrite postPairingLinked_statusUnder, String.eqb_refl, Hs.
      destruct (statusUnder_kept c db s Hk Hs) as [-> | ->]; [congruence | reflexivity].
    + intros get post. unfold statusUnder in Hs.
      destruct (getPairingStatus c db) as [r|] eqn:Hr; [| discriminate].
      injection Hs as <-.
      now apply (verifyPairingCodeInBot_only_from_pending now get post c db r).
Qed.

Lemma status_transitions_are_monotonic_witness :
  exists db,
    run linkedRun emptyDb = Some db
    /\ stored "482913" db = Some (active, Some 1700000100000%Z)
    /\ monotonic (statusUnder "482913" db)
         (statusUnder "482913" (snd (postPairingLinked 1700000200000 "482913" db))).
Proof.
  destruct (run linkedRun emptyDb) as [db|] eqn:Hrun;
    [| vm_compute in Hrun; discriminate].
  exists db. split; [reflexivity |]. split.
  - vm_compute in Hrun. now injection Hrun as <-.
  - exact (proj1 (proj2 (status_transitions_are_monotonic linkedRun db
                           (PairingLinked 1700000200000 "482913")
                           (snd (postPairingLinked 1700000200000 "482913" db))
                           Hrun eq_refl))
             "482913").
Defined.

(** The guard that the endpoint itself lacks shows in [linkedAt] only:
    marking an active record again leaves it active and stamps
    [linkedAt] anew. *)
Example pairing_linked_twice_restamps_linkedAt :
  (fun db => stored "482913" (snd (postPairingLinked 1700000200000 "482913" db)))
    <$> run linkedRun emptyDb
  = Some (Some (active, Some 1700000200000%Z)).
Proof. vm_compute. reflexivity. Qed.

End StatusTransitions.

(** ** Session identifiers *)
Section SessionIds.
Import Js Config CodeGen Ids.

Lemma toString_inj (a b : Z) : toString a = toString b -> a = b.
Proof.
  unfold toString. intros H.
  assert (Hnil : forall z, Z.to_int z <> Decimal.Pos Decimal.Nil
                           /\ Z.to_int z <> Decimal.Neg Decimal.Nil).
  { intros [|p|p]; cbn; split; try discriminate; intros [= Hp];
      now apply DecimalPos.Unsigned.to_uint_nonnil in Hp. }
  pose proof (NilZero.isi (Z.to_int a) (proj1 (Hnil a)) (proj2 (Hnil a))) as Ha.
  pose proof (NilZero.isi (Z.to_int b) (proj1 (Hnil b)) (proj2 (Hnil b))) as Hb.
  rewrite H in Ha. rewrite Ha in Hb. injection Hb as Hab.
  rewrite <- (DecimalZ.of_to a), <- (DecimalZ.of_to b). now rewrite Hab.
Qed.

Lemma string_of_uint_no_underscore (d : Decimal.uint) :
  test_some is_underscore (NilEmpty.string_of_uint d) = false.
Proof. induction d; cbn; auto. Qed.

Lemma toString_no_underscore (z : Z) : test_some is_underscore (toString z) = false.
Proof.
  unfold toString, NilZero.string_of_int.
  assert (H : forall d, test_some is_underscore (NilZero.string_of_uint d) = false).
  { intros d. unfold NilZero.string_of_uint.
    destruct d; try apply string_of_uint_no_underscore. reflexivity. }
  destruct (Z.to_int z); cbn; apply H.
Qed.

Lemma split_at_underscore (a1 : string) :
  forall (a2 b1 b2 : string),
  test_some is_underscore a1 = false -> test_some is_underscore a2 = false ->
  a1 +:+ "_" +:+ b1 = a2 +:+ "_" +:+ b2 -> a1 = a2 /\ b1 = b2.
Proof.
  induction a1 as [|x a1 IH]; intros [|y a2] b1 b2 H1 H2; rewrite ?append_cons, ?append_nil_l.
  - intros [= ->]. now split.
  - intros [= <- _]. cbn in H2. discriminate.
  - intros [= -> _]. cbn in H1. discriminate.
  - intros [= <- H]. cbn in H1, H2.
    apply orb_false_iff in H1 as [_ H1]. apply orb_false_iff in H2 as [_ H2].
    destruct (IH a2 b1 b2 H1 H2 H) as [-> ->]. now split.
Qed.

Lemma append_inj_l (a x y : string) : a +:+ x = a +:+ y -> x = y.
Proof.
  induction a as [|c a IH]; [now rewrite !append_nil_l |].
  rewrite !append_cons. intros [= H]. now apply IH.
Qed.

(** X22: [generateSessionId] is injective: two session ids are equal
    only when they were made in the same millisecond from the same
    random bytes, because the decimal time holds no underscore and so
    cannot run into the random part. *)
Theorem generateSessionId_injective (n1 n2 : Z) (h1 h2 : string) :
  generateSessionId n1 h1 = generateSessionId n2 h2 <-> n1 = n2 /\ h1 = h2.
Proof.
  split; [| now intros [-> ->]].
  unfold generateSessionId. intros H.
  apply append_inj_l, append_inj_l in H.
  apply split_at_underscore in H as [Hn ->]; try apply toString_no_underscore.
  split; [now apply toString_inj | reflexivity].
Qed.

End SessionIds.
